(** * InfraCore guardrail pipeline: risk model, safety layer, policy engine,
      RBAC engine and CLI executor, embedded from the Go sources.

    Go strings are byte sequences and are modelled by [string] (a list of
    8-bit [ascii] characters); Go [int] and [RiskLevel] (an [int]) by [Z];
    Go maps by [gmap]; a [nil] map by [None]. *)

From Stdlib Require Import ZArith NArith Bool List Lia.
From Stdlib Require Import Strings.String Strings.Ascii.
From stdpp Require Import base option list gmap strings pretty.

Open Scope string_scope.
Open Scope Z_scope.

(* ===================================================================== *)
(** ** Package strings (the parts of the Go standard library in use)      *)
(* ===================================================================== *)

Module Strings.

(** The numeric value of a byte. *)
Definition byte_val (c : ascii) : N := N_of_ascii c.

(** [utf8.RuneSelf]: bytes below it are single-byte (ASCII) runes. *)
Definition RuneSelf : N := 128%N.

Definition is_upper (c : ascii) : bool :=
  (65 <=? byte_val c)%N && (byte_val c <=? 90)%N.

(** [c += 'a' - 'A'] for an upper-case ASCII letter. *)
Definition lower_byte (c : ascii) : ascii :=
  if is_upper c then ascii_of_N (byte_val c + 32) else c.

Fixpoint all_ascii (s : string) : bool :=
  match s with
  | EmptyString => true
  | String c s' => (byte_val c <? RuneSelf)%N && all_ascii s'
  end.

Fixpoint has_upper (s : string) : bool :=
  match s with
  | EmptyString => false
  | String c s' => is_upper c || has_upper s'
  end.

Fixpoint map_bytes (f : ascii -> ascii) (s : string) : string :=
  match s with
  | EmptyString => EmptyString
  | String c s' => String (f c) (map_bytes f s')
  end.

(** The Unicode tables of the Go runtime are not part of the repository:
    what [strings.ToLower] and [strings.EqualFold] do once they meet a
    byte outside ASCII is left to these two functions. *)
Record Unicode := {
  unicode_lower : string -> string;          (* strings.Map(unicode.ToLower, s) *)
  unicode_fold  : string -> string -> bool   (* the rune loop of EqualFold *)
}.

(** [strings.HasPrefix(s, prefix)]. *)
Fixpoint HasPrefix (s prefix : string) {struct prefix} : bool :=
  match prefix, s with
  | EmptyString, _ => true
  | String p prefix', String c s' => Ascii.eqb c p && HasPrefix s' prefix'
  | String _ _, EmptyString => false
  end.

(** [strings.HasSuffix(s, suffix)]:
    [len(s) >= len(suffix) && s[len(s)-len(suffix):] == suffix]. *)
Definition HasSuffix (s suffix : string) : bool :=
  (String.length suffix <=? String.length s)%nat &&
  String.eqb
    (substring (String.length s - String.length suffix)
               (String.length suffix) s)
    suffix.

(** [strings.TrimSuffix(s, suffix)]. *)
Definition TrimSuffix (s suffix : string) : string :=
  if HasSuffix s suffix
  then substring 0 (String.length s - String.length suffix) s
  else s.

(** [strings.Contains(s, substr)], that is [Index(s, substr) >= 0]:
    some position of [s] starts an occurrence of [substr]. *)
Fixpoint Contains (s substr : string) : bool :=
  HasPrefix s substr ||
  match s with
  | EmptyString => false
  | String _ s' => Contains s' substr
  end.

(** [sub] occurs in [s]: what [Contains] is to decide. *)
Definition occurs_in (sub s : string) : Prop :=
  exists pre post, s = pre ++ sub ++ post.

Section WithUnicode.
Variable U : Unicode.

(** [strings.ToLower]: the ASCII fast path is written out. *)
Definition ToLower (s : string) : string :=
  if all_ascii s then
    if has_upper s then map_bytes lower_byte s else s
  else unicode_lower U s.

(** [strings.EqualFold]: the byte loop of the ASCII fast path; at the
    first position where either byte is not ASCII the remaining
    suffixes go to the rune loop. *)
Fixpoint EqualFold (s t : string) : bool :=
  match s, t with
  | String sr s', String tr t' =>
      if (RuneSelf <=? N.lor (byte_val sr) (byte_val tr))%N
      then unicode_fold U s t
      else if Ascii.eqb tr sr then EqualFold s' t'
      else
        let lo := if (byte_val tr <? byte_val sr)%N then tr else sr in
        let hi := if (byte_val tr <? byte_val sr)%N then sr else tr in
        if is_upper lo && (byte_val hi =? byte_val lo + 32)%N
        then EqualFold s' t'
        else false
  | EmptyString, EmptyString => true
  | _, _ => false
  end.
End WithUnicode.

End Strings.

(* ===================================================================== *)
(** ** Package core                                                       *)
(* ===================================================================== *)

Module Core.

(** [type RiskLevel int] with the four [iota] constants. *)
Definition RiskLevel := Z.
Definition RiskLow      : RiskLevel := 0.
Definition RiskMedium   : RiskLevel := 1.
Definition RiskHigh     : RiskLevel := 2.
Definition RiskCritical : RiskLevel := 3.

Definition RiskLevel_String (r : RiskLevel) : string :=
  if r =? RiskLow then "LOW"
  else if r =? RiskMedium then "MEDIUM"
  else if r =? RiskHigh then "HIGH"
  else if r =? RiskCritical then "CRITICAL"
  else "UNKNOWN".

(** A Go [error] value: [None] is [nil], [Some msg] carries [Error()]. *)
Definition error := option string.

Definition ParseRiskLevel (s : string) : RiskLevel * error :=
  if String.eqb s "LOW" then (RiskLow, None)
  else if String.eqb s "MEDIUM" then (RiskMedium, None)
  else if String.eqb s "HIGH" then (RiskHigh, None)
  else if String.eqb s "CRITICAL" then (RiskCritical, None)
  else (RiskLow, Some ("unknown risk level: " ++ s)).

(** [type Provider string], [type SkillCategory string],
    [type ExecutionType string], [type ExecutionStatus string]. *)
Definition Provider := string.
Definition SkillCategory := string.
Definition ExecutionType := string.
Definition ExecutionStatus := string.

Definition StatusSuccess   : ExecutionStatus := "success".
Definition StatusFailed    : ExecutionStatus := "failed".
Definition StatusDryRun    : ExecutionStatus := "dry_run".
Definition StatusCancelled : ExecutionStatus := "cancelled".
Definition StatusPending   : ExecutionStatus := "pending".

Record SkillInput := {
  SkillInput_Name : string;
  SkillInput_Type : string;
  SkillInput_Required : bool;
  SkillInput_Description : string;
  SkillInput_Default : string
}.

Record SkillOutput := {
  SkillOutput_Name : string;
  SkillOutput_Type : string;
  SkillOutput_Description : string
}.

(** [Timeout] is a [time.Duration], an integer count of nanoseconds. *)
Record ExecutionConfig := {
  ExecutionConfig_Type : ExecutionType;
  ExecutionConfig_Command : string;
  ExecutionConfig_Timeout : Z
}.

Record RollbackConfig := {
  RollbackConfig_Supported : bool;
  RollbackConfig_Procedure : string
}.

Record Skill := {
  Skill_Name : string;
  Skill_Description : string;
  Skill_Provider : Provider;
  Skill_Category : SkillCategory;
  Skill_Inputs : list SkillInput;
  Skill_Outputs : list SkillOutput;
  Skill_RiskLevel : RiskLevel;
  Skill_RequiresConfirmation : bool;
  Skill_Execution : ExecutionConfig;
  Skill_Rollback : RollbackConfig
}.

(** A value held in an [interface{}]: the two dynamic types the code
    asserts on ([bool], [int]), strings, and any other dynamic type,
    of which only its [%v] rendering is ever observed. *)
Inductive value :=
| VBool (b : bool)
| VInt (n : Z)
| VStr (s : string)
| VOther (rendered : string).

(** [map[string]interface{}]; [None] is the [nil] map. *)
Definition Params := option (gmap string value).

(** [val, ok := params[key]]: reading a [nil] map finds nothing. *)
Definition param_get (params : Params) (key : string) : option value :=
  match params with
  | None => None
  | Some m => m !! key
  end.

(** [fmt.Sprintf("%v", val)]. *)
Definition format_v (v : value) : string :=
  match v with
  | VBool true => "true"
  | VBool false => "false"
  | VInt n => pretty n
  | VStr s => s
  | VOther rendered => rendered
  end.

(** What an [ExecutionResult.Output] entry can hold. *)
Inductive output_value :=
| OStr (s : string)
| OInt (n : Z)
| OParams (p : Params).

(** [Duration] in nanoseconds, [Timestamp] as a reading of the clock. *)
Record ExecutionResult := {
  ExecutionResult_SkillName : string;
  ExecutionResult_Status : ExecutionStatus;
  ExecutionResult_Output : gmap string output_value;
  ExecutionResult_Message : string;
  ExecutionResult_Duration : Z;
  ExecutionResult_Error : string;
  ExecutionResult_Timestamp : Z
}.

Record SafetyReport := {
  SafetyReport_SkillName : string;
  SafetyReport_RiskLevel : RiskLevel;
  SafetyReport_BlastRadius : Z;
  SafetyReport_AffectedResources : list string;
  SafetyReport_RequiresConfirmation : bool;
  SafetyReport_ConfirmationPrompt : string;
  SafetyReport_RollbackAvailable : bool;
  SafetyReport_RollbackProcedure : string;
  SafetyReport_DryRunRecommended : bool;
  SafetyReport_EnvironmentWarning : string
}.

(** Field assignments [report.F = v] on a [*SafetyReport]. *)
Definition set_RiskLevel (v : RiskLevel) (r : SafetyReport) : SafetyReport :=
  {| SafetyReport_SkillName := SafetyReport_SkillName r;
     SafetyReport_RiskLevel := v;
     SafetyReport_BlastRadius := SafetyReport_BlastRadius r;
     SafetyReport_AffectedResources := SafetyReport_AffectedResources r;
     SafetyReport_RequiresConfirmation := SafetyReport_RequiresConfirmation r;
     SafetyReport_ConfirmationPrompt := SafetyReport_ConfirmationPrompt r;
     SafetyReport_RollbackAvailable := SafetyReport_RollbackAvailable r;
     SafetyReport_RollbackProcedure := SafetyReport_RollbackProcedure r;
     SafetyReport_DryRunRecommended := SafetyReport_DryRunRecommended r;
     SafetyReport_EnvironmentWarning := SafetyReport_EnvironmentWarning r |}.

Definition set_BlastRadius (v : Z) (r : SafetyReport) : SafetyReport :=
  {| SafetyReport_SkillName := SafetyReport_SkillName r;
     SafetyReport_RiskLevel := SafetyReport_RiskLevel r;
     SafetyReport_BlastRadius := v;
     SafetyReport_AffectedResources := SafetyReport_AffectedResources r;
     SafetyReport_RequiresConfirmation := SafetyReport_RequiresConfirmation r;
     SafetyReport_ConfirmationPrompt := SafetyReport_ConfirmationPrompt r;
     SafetyReport_RollbackAvailable := SafetyReport_RollbackAvailable r;
     SafetyReport_RollbackProcedure := SafetyReport_RollbackProcedure r;
     SafetyReport_DryRunRecommended := SafetyReport_DryRunRecommended r;
     SafetyReport_EnvironmentWarning := SafetyReport_EnvironmentWarning r |}.

Definition set_AffectedResources (v : list string) (r : SafetyReport) : SafetyReport :=
  {| SafetyReport_SkillName := SafetyReport_SkillName r;
     SafetyReport_RiskLevel := SafetyReport_RiskLevel r;
     SafetyReport_BlastRadius := SafetyReport_BlastRadius r;
     SafetyReport_AffectedResources := v;
     SafetyReport_RequiresConfirmation := SafetyReport_RequiresConfirmation r;
     SafetyReport_ConfirmationPrompt := SafetyReport_ConfirmationPrompt r;
     SafetyReport_RollbackAvailable := SafetyReport_RollbackAvailable r;
     SafetyReport_RollbackProcedure := SafetyReport_RollbackProcedure r;
     SafetyReport_DryRunRecommended := SafetyReport_DryRunRecommended r;
     SafetyReport_EnvironmentWarning := SafetyReport_EnvironmentWarning r |}.

Definition set_RequiresConfirmation (v : bool) (r : SafetyReport) : SafetyReport :=
  {| SafetyReport_SkillName := SafetyReport_SkillName r;
     SafetyReport_RiskLevel := SafetyReport_RiskLevel r;
     SafetyReport_BlastRadius := SafetyReport_BlastRadius r;
     SafetyReport_AffectedResources := SafetyReport_AffectedResources r;
     SafetyReport_RequiresConfirmation := v;
     SafetyReport_ConfirmationPrompt := SafetyReport_ConfirmationPrompt r;
     SafetyReport_RollbackAvailable := SafetyReport_RollbackAvailable r;
     SafetyReport_RollbackProcedure := SafetyReport_RollbackProcedure r;
     SafetyReport_DryRunRecommended := SafetyReport_DryRunRecommended r;
     SafetyReport_EnvironmentWarning := SafetyReport_EnvironmentWarning r |}.

Definition set_ConfirmationPrompt (v : string) (r : SafetyReport) : SafetyReport :=
  {| SafetyReport_SkillName := SafetyReport_SkillName r;
     SafetyReport_RiskLevel := SafetyReport_RiskLevel r;
     SafetyReport_BlastRadius := SafetyReport_BlastRadius r;
     SafetyReport_AffectedResources := SafetyReport_AffectedResources r;
     SafetyReport_RequiresConfirmation := SafetyReport_RequiresConfirmation r;
     SafetyReport_ConfirmationPrompt := v;
     SafetyReport_RollbackAvailable := SafetyReport_RollbackAvailable r;
     SafetyReport_RollbackProcedure := SafetyReport_RollbackProcedure r;
     SafetyReport_DryRunRecommended := SafetyReport_DryRunRecommended r;
     SafetyReport_EnvironmentWarning := SafetyReport_EnvironmentWarning r |}.

Definition set_DryRunRecommended (v : bool) (r : SafetyReport) : SafetyReport :=
  {| SafetyReport_SkillName := SafetyReport_SkillName r;
     SafetyReport_RiskLevel := SafetyReport_RiskLevel r;
     SafetyReport_BlastRadius := SafetyReport_BlastRadius r;
     SafetyReport_AffectedResources := SafetyReport_AffectedResources r;
     SafetyReport_RequiresConfirmation := SafetyReport_RequiresConfirmation r;
     SafetyReport_ConfirmationPrompt := SafetyReport_ConfirmationPrompt r;
     SafetyReport_RollbackAvailable := SafetyReport_RollbackAvailable r;
     SafetyReport_RollbackProcedure := SafetyReport_RollbackProcedure r;
     SafetyReport_DryRunRecommended := v;
     SafetyReport_EnvironmentWarning := SafetyReport_EnvironmentWarning r |}.

Definition set_EnvironmentWarning (v : string) (r : SafetyReport) : SafetyReport :=
  {| SafetyReport_SkillName := SafetyReport_SkillName r;
     SafetyReport_RiskLevel := SafetyReport_RiskLevel r;
     SafetyReport_BlastRadius := SafetyReport_BlastRadius r;
     SafetyReport_AffectedResources := SafetyReport_AffectedResources r;
     SafetyReport_RequiresConfirmation := SafetyReport_RequiresConfirmation r;
     SafetyReport_ConfirmationPrompt := SafetyReport_ConfirmationPrompt r;
     SafetyReport_RollbackAvailable := SafetyReport_RollbackAvailable r;
     SafetyReport_RollbackProcedure := SafetyReport_RollbackProcedure r;
     SafetyReport_DryRunRecommended := SafetyReport_DryRunRecommended r;
     SafetyReport_EnvironmentWarning := v |}.

End Core.

(* ===================================================================== *)
(** ** Package safety                                                     *)
(* ===================================================================== *)

Module Safety.
Import Core.

(** [type Layer struct{}]. *)
Inductive Layer := mkLayer.

Definition NewLayer : Layer := mkLayer.

(** The double quote character, for the prompts that quote a phrase. *)
Definition dq : string := String (ascii_of_nat 34) EmptyString.

Definition getConfirmationPrompt (l : Layer) (riskLevel : RiskLevel) : string :=
  if riskLevel =? RiskLow then ""
  else if riskLevel =? RiskMedium then
    "Type " ++ dq ++ "yes" ++ dq ++ " to proceed or " ++ dq ++ "cancel" ++ dq ++ " to abort"
  else if riskLevel =? RiskHigh then
    "Type " ++ dq ++ "yes, apply" ++ dq ++ " to proceed or " ++ dq ++ "cancel" ++ dq ++ " to abort"
  else if riskLevel =? RiskCritical then
    "Type " ++ dq ++ "CONFIRM PRODUCTION" ++ dq ++ " to proceed or " ++ dq ++ "cancel" ++ dq ++ " to abort"
  else "Type " ++ dq ++ "yes" ++ dq ++ " to proceed".

Definition GetConfirmationPrompt (l : Layer) (riskLevel : RiskLevel) : string :=
  getConfirmationPrompt l riskLevel.

Definition RequiresConfirmation (l : Layer) (riskLevel : RiskLevel) : bool :=
  RiskMedium <=? riskLevel.

Definition estimateFromParam (params : Params) (key : string) (fallback : Z) : Z :=
  match params with
  | None => fallback
  | Some m =>
      match m !! key with
      | Some (VInt v) => v
      | _ => fallback
      end
  end.

Definition estimateBlastRadius (l : Layer) (skill : Skill) (params : Params) : Z :=
  let name := Skill_Name skill in
  if Strings.Contains name ".list" || Strings.Contains name ".audit" ||
     Strings.Contains name ".query" || Strings.Contains name ".report" ||
     Strings.Contains name ".status" || Strings.Contains name ".snapshot"
  then 0
  else if Strings.Contains name ".deploy" || Strings.Contains name ".upgrade"
  then 1
  else if Strings.Contains name ".scale"
  then estimateFromParam params "desired_capacity" 1
  else if Strings.Contains name "terraform.apply"
  then estimateFromParam params "resources_count" 5
  else if Strings.Contains name ".sync" || Strings.Contains name ".migrate"
  then 10
  else 1.

Definition resourceKeys : list string :=
  ["instance_id"; "bucket_name"; "vpc_id"; "deployment"; "function_name";
   "asg_name"; "secret_id"; "release_name"; "app_name"; "vm_name"; "zone";
   "image"].

Definition identifyAffectedResources (l : Layer) (skill : Skill) (params : Params)
  : list string :=
  let resources := [Skill_Provider skill ++ "/" ++ Skill_Category skill ++ " resources"] in
  fold_left
    (fun (resources : list string) key =>
       match param_get params key with
       | Some val => (resources ++ [(key ++ "=" ++ format_v val)%string])%list
       | None => resources
       end)
    resourceKeys resources.

Definition destructiveKeywords : list string :=
  ["apply"; "deploy"; "scale"; "resize"; "delete"; "rotate"; "sync";
   "migrate"; "update"; "upgrade"; "rollback"].

(** U+26A0 U+FE0F, two spaces, the text, U+2014 as UTF-8 bytes. *)
Definition warning_sign : string :=
  String (ascii_of_nat 226) (String (ascii_of_nat 154) (String (ascii_of_nat 160)
 (String (ascii_of_nat 239) (String (ascii_of_nat 184) (String (ascii_of_nat 143)
  EmptyString))))).
Definition em_dash : string :=
  String (ascii_of_nat 226) (String (ascii_of_nat 128) (String (ascii_of_nat 148)
  EmptyString)).
Definition productionWarning : string :=
  warning_sign ++ "  TARGET ENVIRONMENT IS PRODUCTION " ++ em_dash ++
  " exercise extreme caution".

Section WithUnicode.
Variable U : Strings.Unicode.

Definition isProductionEnvironment (l : Layer) (env : string) : bool :=
  let env := Strings.ToLower U env in
  String.eqb env "production" || String.eqb env "prod" || String.eqb env "prd".

(** The loop returns [true] at the first keyword found in the name. *)
Definition shouldDryRun (l : Layer) (skill : Skill) : bool :=
  existsb
    (fun keyword =>
       Strings.Contains (Strings.ToLower U (Skill_Name skill)) keyword)
    destructiveKeywords.

Definition Evaluate (l : Layer) (skill : Skill) (params : Params) (env : string)
  : SafetyReport :=
  let report :=
    {| SafetyReport_SkillName := Skill_Name skill;
       SafetyReport_RiskLevel := Skill_RiskLevel skill;
       SafetyReport_BlastRadius := 0;
       SafetyReport_AffectedResources := [];
       SafetyReport_RequiresConfirmation := Skill_RequiresConfirmation skill;
       SafetyReport_ConfirmationPrompt := "";
       SafetyReport_RollbackAvailable := RollbackConfig_Supported (Skill_Rollback skill);
       SafetyReport_RollbackProcedure := RollbackConfig_Procedure (Skill_Rollback skill);
       SafetyReport_DryRunRecommended := false;
       SafetyReport_EnvironmentWarning := "" |} in
  let report := set_BlastRadius (estimateBlastRadius l skill params) report in
  let report := set_AffectedResources (identifyAffectedResources l skill params) report in
  let report :=
    if isProductionEnvironment l env then
      let report := set_EnvironmentWarning productionWarning report in
      let report :=
        if SafetyReport_RiskLevel report <? RiskHigh
        then set_RiskLevel RiskHigh report
        else report in
      set_RequiresConfirmation true report
    else report in
  let report := set_DryRunRecommended (shouldDryRun l skill) report in
  set_ConfirmationPrompt
    (getConfirmationPrompt l (SafetyReport_RiskLevel report)) report.
End WithUnicode.

End Safety.

(* ===================================================================== *)
(** ** Package policy                                                     *)
(* ===================================================================== *)

Module Policy.
Import Core.

(** [type EnforcementLevel string] and [type Severity string]. *)
Definition EnforcementLevel := string.
Definition EnforcementWarn : EnforcementLevel := "warn".
Definition EnforcementDeny : EnforcementLevel := "deny".

Definition Severity := string.
Definition SeverityInfo     : Severity := "INFO".
Definition SeverityWarning  : Severity := "WARNING".
Definition SeverityCritical : Severity := "CRITICAL".

(** Returns [(violated, reason)]. *)
Definition PolicyCheckFunc := Skill -> Params -> string -> bool * string.

Record Policy := {
  Policy_Name : string;
  Policy_Description : string;
  Policy_Enforcement : EnforcementLevel;
  Policy_Severity : Severity;
  Policy_AppliesTo : list string;
  Policy_Environments : list string;
  Policy_CheckFunc : PolicyCheckFunc
}.

Record Violation := {
  Violation_PolicyName : string;
  Violation_Description : string;
  Violation_Severity : Severity;
  Violation_Enforcement : EnforcementLevel;
  Violation_Reason : string;
  Violation_SkillName : string;
  Violation_Environment : string;
  Violation_Timestamp : Z
}.

Record EvaluationResult := {
  EvaluationResult_Passed : bool;
  EvaluationResult_Violations : list Violation;
  EvaluationResult_Warnings : list Violation;
  EvaluationResult_Denied : bool
}.

Record Engine := {
  policies : list Policy;
  enforcementMode : EnforcementLevel
}.

Definition NewEngine (enforcementMode : EnforcementLevel) : Engine :=
  {| policies := []; enforcementMode := enforcementMode |}.

Definition Register (e : Engine) (policy : Policy) : Engine :=
  {| policies := policies e ++ [policy]; enforcementMode := enforcementMode e |}.

Definition ListPolicies (e : Engine) : list Policy := policies e.

Definition matchSkillPattern (skillName pattern : string) : bool :=
  if String.eqb pattern "*" then true
  else if Strings.HasSuffix pattern ".*" then
    let prefix := Strings.TrimSuffix pattern ".*" in
    Strings.HasPrefix skillName (prefix ++ ".")
  else if Strings.HasSuffix pattern "*" then
    let prefix := Strings.TrimSuffix pattern "*" in
    Strings.HasPrefix skillName prefix
  else String.eqb skillName pattern.

(** [S3 bucket cannot use public ACL ...]: the one built-in rule the
    examples below run; its reason holds an em dash (U+2014). *)
Definition noPublicS3Policy : Policy :=
  {| Policy_Name := "no_public_s3";
     Policy_Description := "Deny S3 operations that could expose buckets publicly";
     Policy_Enforcement := EnforcementDeny;
     Policy_Severity := SeverityCritical;
     Policy_AppliesTo := ["aws.s3.*"];
     Policy_Environments := [];
     Policy_CheckFunc := fun skill params env =>
       match params with
       | None => (false, "")
       | Some m =>
           match m !! "acl" with
           | Some acl =>
               let aclStr := format_v acl in
               if String.eqb aclStr "public-read" ||
                  String.eqb aclStr "public-read-write"
               then (true,
                     "S3 bucket cannot use public ACL '" ++ aclStr ++ "' " ++
                     Safety.em_dash ++
                     " use private ACL with CloudFront for public access")
               else (false, "")
           | None => (false, "")
           end
       end |}.

Definition requirePeerReviewPolicy : Policy :=
  {| Policy_Name := "require_peer_review";
     Policy_Description := "CRITICAL actions require a peer reviewer confirmation";
     Policy_Enforcement := EnforcementDeny;
     Policy_Severity := SeverityCritical;
     Policy_AppliesTo := ["terraform.apply"; "k8s.deploy"; "aws.secrets.rotate"];
     Policy_Environments := ["production"; "prod"];
     Policy_CheckFunc := fun skill params env =>
       if RiskCritical <=? Skill_RiskLevel skill then
         match params with
         | None =>
             (true, "CRITICAL action in production requires peer review " ++
                    Safety.em_dash ++ " set _peer_reviewer param")
         | Some m =>
             match m !! "_peer_reviewer" with
             | None =>
                 (true, "CRITICAL action in production requires peer review " ++
                        Safety.em_dash ++ " set _peer_reviewer param")
             | Some _ => (false, "")
             end
         end
       else (false, "") |}.

Definition maxBlastRadiusPolicy : Policy :=
  {| Policy_Name := "max_blast_radius";
     Policy_Description := "Deny operations affecting more than 50 resources at once";
     Policy_Enforcement := EnforcementDeny;
     Policy_Severity := SeverityCritical;
     Policy_AppliesTo := ["*"];
     Policy_Environments := [];
     Policy_CheckFunc := fun skill params env =>
       match params with
       | None => (false, "")
       | Some m =>
           match m !! "_resource_count" with
           | Some (VInt c) =>
               if 50 <? c
               then (true, "Operation affects " ++ pretty c ++
                           " resources (max: 50) " ++ Safety.em_dash ++
                           " break into smaller batches")
               else (false, "")
           | _ => (false, "")
           end
       end |}.

Definition enforceEncryptionPolicy : Policy :=
  {| Policy_Name := "enforce_encryption";
     Policy_Description := "Storage resources must have encryption enabled";
     Policy_Enforcement := EnforcementDeny;
     Policy_Severity := SeverityCritical;
     Policy_AppliesTo := ["aws.s3.*"; "gcp.gcs.*"; "azure.blob.*"];
     Policy_Environments := [];
     Policy_CheckFunc := fun skill params env =>
       match params with
       | None => (false, "")
       | Some m =>
           match m !! "encryption" with
           | Some encryption =>
               if String.eqb (format_v encryption) "none" ||
                  String.eqb (format_v encryption) "false"
               then (true, "Storage resources must have encryption enabled " ++
                           Safety.em_dash ++ " use AES256 or aws:kms")
               else (false, "")
           | None => (false, "")
           end
       end |}.

Section WithUnicode.
Variable U : Strings.Unicode.

(** Both loops stop at the first match: [existsb]. *)
Definition policyApplies (e : Engine) (policy : Policy) (skill : Skill)
           (env : string) : bool :=
  let skillOk :=
    if (0 <? length (Policy_AppliesTo policy))%nat then
      existsb (fun pattern => matchSkillPattern (Skill_Name skill) pattern)
              (Policy_AppliesTo policy)
    else true in
  if negb skillOk then false
  else
    let envOk :=
      if (0 <? length (Policy_Environments policy))%nat then
        existsb (fun e' => Strings.EqualFold U e' env)
                (Policy_Environments policy)
      else true in
    if negb envOk then false else true.

(** The state of the loop of [Evaluate]: the result under construction
    and the number of clock readings taken so far. *)
Definition eval_state : Type := EvaluationResult * nat.

Section Evaluate.
(** [time.Now()]: the [k]-th reading of the wall clock taken by one
    call of [Evaluate]. *)
Variable clock : nat -> Z.
Variables (e : Engine) (skill : Skill) (params : Params) (env : string).

(** One iteration of [for _, policy := range e.policies]. *)
Definition Evaluate_step (st : eval_state) (policy : Policy) : eval_state :=
  let '(result, reads) := st in
  if negb (policyApplies e policy skill env) then st
  else
    let '(violated, reason) := Policy_CheckFunc policy skill params env in
    if negb violated then st
    else
      let v := {| Violation_PolicyName := Policy_Name policy;
                  Violation_Description := Policy_Description policy;
                  Violation_Severity := Policy_Severity policy;
                  Violation_Enforcement := Policy_Enforcement policy;
                  Violation_Reason := reason;
                  Violation_SkillName := Skill_Name skill;
                  Violation_Environment := env;
                  Violation_Timestamp := clock reads |} in
      let effectiveEnforcement :=
        if String.eqb (enforcementMode e) EnforcementDeny then EnforcementDeny
        else if String.eqb (enforcementMode e) EnforcementWarn then EnforcementWarn
        else Policy_Enforcement policy in
      if String.eqb effectiveEnforcement EnforcementDeny then
        ({| EvaluationResult_Passed := false;
            EvaluationResult_Violations := EvaluationResult_Violations result ++ [v];
            EvaluationResult_Warnings := EvaluationResult_Warnings result;
            EvaluationResult_Denied := true |}, S reads)
      else
        ({| EvaluationResult_Passed := EvaluationResult_Passed result;
            EvaluationResult_Violations := EvaluationResult_Violations result;
            EvaluationResult_Warnings := EvaluationResult_Warnings result ++ [v];
            EvaluationResult_Denied := EvaluationResult_Denied result |}, S reads).

Definition Evaluate : EvaluationResult :=
  let result := {| EvaluationResult_Passed := true;
                   EvaluationResult_Violations := [];
                   EvaluationResult_Warnings := [];
                   EvaluationResult_Denied := false |} in
  fst (fold_left Evaluate_step (policies e) (result, 0%nat)).
End Evaluate.
End WithUnicode.

End Policy.

(* ===================================================================== *)
(** ** Package rbac                                                       *)
(* ===================================================================== *)

Module Rbac.
Import Core.

(** [type Role string]. *)
Definition Role := string.
Definition RoleViewer     : Role := "viewer".
Definition RoleOperator   : Role := "operator".
Definition RoleAdmin      : Role := "admin".
Definition RoleSuperAdmin : Role := "superadmin".

Record Permission := {
  Permission_AllowedRiskLevels : list RiskLevel;
  Permission_AllowedCategories : list string;
  Permission_AllowedEnvironments : list string;
  Permission_AllowedSkillPatterns : list string;
  Permission_DenySkillPatterns : list string;
  Permission_CanApprove : bool;
  Permission_CanManagePolicies : bool;
  Permission_CanManageUsers : bool
}.

Record User := {
  User_Username : string;
  User_Role : Role;
  User_Teams : list string
}.

Record Engine := {
  users : gmap string User;
  permissions : gmap string Permission;
  enabled : bool
}.

Definition loadDefaultPermissions (e : Engine) : Engine :=
  let perms := permissions e in
  let perms := <[RoleViewer :=
    {| Permission_AllowedRiskLevels := [RiskLow];
       Permission_AllowedCategories := [];
       Permission_AllowedEnvironments := ["staging"; "dev"];
       Permission_AllowedSkillPatterns := [];
       Permission_DenySkillPatterns := [];
       Permission_CanApprove := false;
       Permission_CanManagePolicies := false;
       Permission_CanManageUsers := false |}]> perms in
  let perms := <[RoleOperator :=
    {| Permission_AllowedRiskLevels := [RiskLow; RiskMedium];
       Permission_AllowedCategories := [];
       Permission_AllowedEnvironments := ["staging"; "dev"; "qa"];
       Permission_AllowedSkillPatterns := [];
       Permission_DenySkillPatterns := [];
       Permission_CanApprove := false;
       Permission_CanManagePolicies := false;
       Permission_CanManageUsers := false |}]> perms in
  let perms := <[RoleAdmin :=
    {| Permission_AllowedRiskLevels := [RiskLow; RiskMedium; RiskHigh];
       Permission_AllowedCategories := [];
       Permission_AllowedEnvironments := ["staging"; "dev"; "qa"; "production"];
       Permission_AllowedSkillPatterns := [];
       Permission_DenySkillPatterns := [];
       Permission_CanApprove := true;
       Permission_CanManagePolicies := true;
       Permission_CanManageUsers := false |}]> perms in
  let perms := <[RoleSuperAdmin :=
    {| Permission_AllowedRiskLevels := [RiskLow; RiskMedium; RiskHigh; RiskCritical];
       Permission_AllowedCategories := [];
       Permission_AllowedEnvironments := [];
       Permission_AllowedSkillPatterns := [];
       Permission_DenySkillPatterns := [];
       Permission_CanApprove := true;
       Permission_CanManagePolicies := true;
       Permission_CanManageUsers := true |}]> perms in
  {| users := users e; permissions := perms; enabled := enabled e |}.

Definition NewEngine : Engine :=
  loadDefaultPermissions {| users := ∅; permissions := ∅; enabled := true |}.

Definition SetEnabled (e : Engine) (enabled' : bool) : Engine :=
  {| users := users e; permissions := permissions e; enabled := enabled' |}.

Definition IsEnabled (e : Engine) : bool := enabled e.

Definition AddUser (e : Engine) (username : string) (role : Role)
           (teams : list string) : Engine :=
  {| users := <[username :=
                 {| User_Username := username; User_Role := role;
                    User_Teams := teams |}]> (users e);
     permissions := permissions e;
     enabled := enabled e |}.

(** Returns [(u, nil)] or [(nil, err)]. *)
Definition GetUser (e : Engine) (username : string) : option User * error :=
  match users e !! username with
  | Some u => (Some u, None)
  | None => (None, Some ("user not found: " ++ username))
  end.

Definition containsRisk (levels : list RiskLevel) (target : RiskLevel) : bool :=
  existsb (fun l => l =? target) levels.

Definition matchPattern (name pattern : string) : bool :=
  if String.eqb pattern "*" then true
  else if Strings.HasSuffix pattern "*" then
    Strings.HasPrefix name (Strings.TrimSuffix pattern "*")
  else String.eqb name pattern.

(** The engines a program can hold: the package exports [NewEngine],
    [AddUser] and [SetEnabled] and nothing else that writes to one. *)
Inductive reachable : Engine -> Prop :=
| reachable_new : reachable NewEngine
| reachable_add e username role teams :
    reachable e -> reachable (AddUser e username role teams)
| reachable_set e enabled' :
    reachable e -> reachable (SetEnabled e enabled').

Section WithUnicode.
Variable U : Strings.Unicode.

Definition containsStr (items : list string) (target : string) : bool :=
  existsb (fun i => Strings.EqualFold U i target) items.

Definition CanExecute (e : Engine) (username : string) (skill : Skill)
           (env : string) : bool * string :=
  if negb (enabled e) then (true, "")
  else
    match GetUser e username with
    | (_, Some err) => (false, "Access denied: " ++ err)
    | (None, None) => (false, "Access denied: ")
    | (Some user, None) =>
        match permissions e !! User_Role user with
        | None =>
            (false, "No permissions defined for role: " ++ User_Role user)
        | Some perm =>
            if negb (containsRisk (Permission_AllowedRiskLevels perm)
                                  (Skill_RiskLevel skill))
            then (false, "Role '" ++ User_Role user ++ "' cannot execute " ++
                         RiskLevel_String (Skill_RiskLevel skill) ++
                         "-risk operations")
            else if (0 <? length (Permission_AllowedEnvironments perm))%nat &&
                    negb (containsStr (Permission_AllowedEnvironments perm) env)
            then (false, "Role '" ++ User_Role user ++
                         "' cannot access environment '" ++ env ++ "'")
            else if existsb (fun pattern => matchPattern (Skill_Name skill) pattern)
                            (Permission_DenySkillPatterns perm)
            then (false, "Skill '" ++ Skill_Name skill ++
                         "' is denied for role '" ++ User_Role user ++ "'")
            else (true, "")
        end
    end.

Definition CanApprove (e : Engine) (username : string) : bool :=
  if negb (enabled e) then true
  else
    match GetUser e username with
    | (Some user, None) =>
        match permissions e !! User_Role user with
        | Some perm => Permission_CanApprove perm
        | None => false
        end
    | _ => false
    end.
End WithUnicode.

End Rbac.

(* ===================================================================== *)
(** ** Package executor                                                   *)
(* ===================================================================== *)

Module Executor.
Import Core.

(** What [cmd.Run()], that is [Start] followed by [Wait], returns: [nil];
    the error of a [Start] that failed, in which case no process was
    started (the working directory is missing, there is no shell, the
    context is already done); an [*exec.ExitError] carrying the exit code
    of the process; or some other error of [Wait], met after the process
    was started. *)
Inductive run_error :=
| NoError
| StartError (msg : string)
| ExitError (code : Z) (msg : string)
| OtherError (msg : string).

(** A [context.Context] as far as the executor is concerned: its
    deadline, when it has one. Whether and when it is cancelled is the
    business of the caller and of the runtime, and is part of what
    [run_process] below answers. *)
Record Context := {
  Context_Deadline : option Z
}.

(** [context.Background()]. *)
Definition Background : Context := {| Context_Deadline := None |}.

(** What the executor takes from outside the program. None of it is
    constrained: the theorems hold for every operating system. *)
Record OS := {
  (** the [k]-th reading of the wall clock, in nanoseconds *)
  clock : nat -> Z;
  (** the order in which the [k]-th [range] over a map visits its entries
      (Go leaves it unspecified and varies it from one loop to the next) *)
  range_order : nat -> gmap string value -> list (string * value);
  (** [exec.CommandContext(ctx, name, args...)] run in a directory (the
      current one when it is empty): standard output, standard error and
      what [cmd.Run()] returns *)
  run_process : string -> list string -> string -> Context ->
                string * string * run_error;
  (** [d.Round(time.Millisecond).String()] *)
  format_duration_ms : Z -> string
}.

(** The part of the world one call of [Execute] reads and changes. *)
Record World := {
  clock_reads : nat;
  map_ranges : nat;
  commands_run : list string
}.

Definition M (A : Type) : Type := World -> A * World.

Definition ret {A} (a : A) : M A := fun w => (a, w).

Definition bind {A B} (m : M A) (k : A -> M B) : M B :=
  fun w => let '(a, w') := m w in k a w'.

Declare Scope exec_scope.
Delimit Scope exec_scope with exec.
Notation "x <~ m ;; k" := (bind m (fun x => k))
  (at level 20, m at level 99, k at level 200, only parsing) : exec_scope.
Notation "' pat <~ m ;; k" := (bind m (fun x => match x with pat => k end))
  (at level 20, pat pattern, m at level 99, k at level 200, only parsing)
  : exec_scope.

Record CLIExecutor := {
  safetyLayer : option Safety.Layer;
  dryRun : bool;
  workDir : string
}.

Definition NewCLIExecutor (safetyLayer : option Safety.Layer) (dryRun : bool)
  : CLIExecutor :=
  {| safetyLayer := safetyLayer; dryRun := dryRun; workDir := "" |}.

Definition SetWorkDir (e : CLIExecutor) (dir : string) : CLIExecutor :=
  {| safetyLayer := safetyLayer e; dryRun := dryRun e; workDir := dir |}.

Definition hasConfirmation (e : CLIExecutor) (params : Params) : bool :=
  match params with
  | None => false
  | Some m =>
      match m !! "_confirmed" with
      | Some (VBool b) => b
      | _ => false
      end
  end.

Definition hasForce (e : CLIExecutor) (params : Params) : bool :=
  match params with
  | None => false
  | Some m =>
      match m !! "_force" with
      | Some (VBool b) => b
      | _ => false
      end
  end.

(** The source passes [nil], not the request's parameters, to [hasForce]. *)
Definition shouldDryRun (e : CLIExecutor) (skill : Skill) : bool :=
  (RiskHigh <=? Skill_RiskLevel skill) && negb (hasForce e None).

(** [strings.ReplaceAll(s, old, new)] for a non-empty [old]: occurrences
    are replaced from the left and do not overlap. [skip] counts the bytes
    of an occurrence just replaced that are still to be passed over. *)
Fixpoint replace_from (skip : nat) (s old new : string) : string :=
  match s with
  | EmptyString => EmptyString
  | String c s' =>
      match skip with
      | S skip' => replace_from skip' s' old new
      | O =>
          if Strings.HasPrefix s old
          then new ++ replace_from (String.length old - 1) s' old new
          else String c (replace_from 0 s' old new)
      end
  end.

(** The placeholders [{key}] the executor replaces are never empty. *)
Definition ReplaceAll (s old new : string) : string :=
  replace_from 0 s old new.

Definition truncate (s : string) (maxLen : nat) : string :=
  if (String.length s <=? maxLen)%nat then s
  else substring 0 maxLen s ++ "...".

(** Reading the clock, ranging over a map, running a command. *)
Section WithOS.
Variable U : Strings.Unicode.
Variable os : OS.

Definition time_Now : M Z :=
  fun w => (clock os (clock_reads w),
            {| clock_reads := S (clock_reads w);
               map_ranges := map_ranges w;
               commands_run := commands_run w |}).

(** [time.Since(start)] is [time.Now().Sub(start)]. *)
Definition time_Since (start : Z) : M Z :=
  (now <~ time_Now ;; ret (now - start))%exec.

(** The entries of [params] in the order this [range] visits them. *)
Definition range_params (params : Params) : M (list (string * value)) :=
  fun w =>
    match params with
    | None => ([], w)
    | Some m => (range_order os (map_ranges w) m,
                 {| clock_reads := clock_reads w;
                    map_ranges := S (map_ranges w);
                    commands_run := commands_run w |})
    end.

(** [fmt.Sprintf("%s", "os")] is the literal ["os"]. *)
Definition isWindows : bool :=
  Strings.Contains (Strings.ToLower U "os") "windows".

Definition interpolateCommand (e : CLIExecutor) (template : string)
           (params : Params) : M string :=
  (entries <~ range_params params ;;
   ret (fold_left
          (fun result '(key, val) =>
             let placeholder := "{" ++ key ++ "}" in
             ReplaceAll result placeholder (format_v val))
          entries template))%exec.

(** [context.WithTimeout(parent, timeout)], that is
    [WithDeadline(parent, time.Now().Add(timeout))]: the clock is read,
    and the derived context ends at that reading plus the timeout, or at
    the deadline of the parent when that comes first. *)
Definition context_WithTimeout (parent : Context) (timeout : Z) : M Context :=
  (now <~ time_Now ;;
   let d := now + timeout in
   ret {| Context_Deadline :=
            match Context_Deadline parent with
            | Some cur => if cur <? d then Some cur else Some d
            | None => Some d
            end |})%exec.

(** The command is handed to the shell: this is the one place where
    the program acts on the infrastructure. [commands_run] records the
    commands for which a process was started: a [Start] that fails
    leaves it as it is. *)
Definition runCommand (e : CLIExecutor) (ctx : Context) (command : string)
  : M (string * string * Z * error) :=
  fun w =>
    let '(stdout, stderr, err) :=
      if isWindows
      then run_process os "cmd" ["/C"; command] (workDir e) ctx
      else run_process os "sh" ["-c"; command] (workDir e) ctx in
    let exitCode :=
      match err with
      | NoError => 0
      | ExitError code _ => code
      | StartError _ | OtherError _ => -1
      end in
    let started :=
      match err with
      | StartError _ => false
      | NoError | ExitError _ _ | OtherError _ => true
      end in
    let err : error :=
      match err with
      | NoError => None
      | StartError msg => Some msg
      | ExitError _ msg => Some msg
      | OtherError msg => Some msg
      end in
    ((stdout, stderr, exitCode, err),
     {| clock_reads := clock_reads w;
        map_ranges := map_ranges w;
        commands_run :=
          if started then commands_run w ++ [command] else commands_run w |}).

(** The safety check that opens [Execute]: the report of the safety
    layer when it asks for a confirmation the parameters do not carry;
    nothing when there is no safety layer or no confirmation is due. *)
Definition awaitingConfirmation (e : CLIExecutor) (skill : Skill)
           (params : Params) (env : string) : option SafetyReport :=
  match safetyLayer e with
  | Some l =>
      let report := Safety.Evaluate U l skill params env in
      if SafetyReport_RequiresConfirmation report &&
         negb (hasConfirmation e params)
      then Some report else None
  | None => None
  end.

Definition Execute (e : CLIExecutor) (ctx : Context) (skill : Skill)
           (params : Params) (env : string) : M ExecutionResult :=
  (start <~ time_Now ;;
   match awaitingConfirmation e skill params env with
   | Some report =>
       duration <~ time_Since start ;;
       ret {| ExecutionResult_SkillName := Skill_Name skill;
              ExecutionResult_Status := StatusPending;
              ExecutionResult_Output := ∅;
              ExecutionResult_Message :=
                "Action requires confirmation: " ++
                SafetyReport_ConfirmationPrompt report;
              ExecutionResult_Duration := duration;
              ExecutionResult_Error := "";
              ExecutionResult_Timestamp := start |}
   | None =>
       if dryRun e || shouldDryRun e skill then
         shown <~ interpolateCommand e
                    (ExecutionConfig_Command (Skill_Execution skill)) params ;;
         command <~ interpolateCommand e
                    (ExecutionConfig_Command (Skill_Execution skill)) params ;;
         duration <~ time_Since start ;;
         ret {| ExecutionResult_SkillName := Skill_Name skill;
                ExecutionResult_Status := StatusDryRun;
                ExecutionResult_Output :=
                  <["params" := OParams params]>
                    (<["command" := OStr command]> ∅);
                ExecutionResult_Message := "[DRY RUN] Would execute: " ++ shown;
                ExecutionResult_Duration := duration;
                ExecutionResult_Error := "";
                ExecutionResult_Timestamp := start |}
       else
         command <~ interpolateCommand e
                    (ExecutionConfig_Command (Skill_Execution skill)) params ;;
         let timeout :=
           if ExecutionConfig_Timeout (Skill_Execution skill) =? 0
           then 60 * 1000000000
           else ExecutionConfig_Timeout (Skill_Execution skill) in
         cmdCtx <~ context_WithTimeout ctx timeout ;;
         ' (stdout, stderr, exitCode, err) <~ runCommand e cmdCtx command ;;
         duration <~ time_Since start ;;
         let output : gmap string output_value :=
           <["command" := OStr command]>
             (<["exit_code" := OInt exitCode]>
                (<["stderr" := OStr stderr]>
                   (<["stdout" := OStr stdout]> ∅))) in
         match err with
         | Some msg =>
             ret {| ExecutionResult_SkillName := Skill_Name skill;
                    ExecutionResult_Status := StatusFailed;
                    ExecutionResult_Output := output;
                    ExecutionResult_Message :=
                      "Command failed (exit " ++ pretty exitCode ++ "): " ++
                      truncate stderr 200;
                    ExecutionResult_Duration := duration;
                    ExecutionResult_Error := msg;
                    ExecutionResult_Timestamp := start |}
         | None =>
             ret {| ExecutionResult_SkillName := Skill_Name skill;
                    ExecutionResult_Status := StatusSuccess;
                    ExecutionResult_Output := output;
                    ExecutionResult_Message :=
                      "Completed successfully in " ++
                      format_duration_ms os duration;
                    ExecutionResult_Duration := duration;
                    ExecutionResult_Error := "";
                    ExecutionResult_Timestamp := start |}
         end
   end)%exec.

(** [DryRunExecutor.Execute]: the clock is read, the command is
    interpolated by a loop of its own, and the result is built; the
    executor is an empty struct. *)
Definition DryRunExecutor_Execute (skill : Skill) (params : Params)
           (env : string) : M ExecutionResult :=
  (start <~ time_Now ;;
   entries <~ range_params params ;;
   let cmd :=
     fold_left
       (fun cmd '(key, val) =>
          ReplaceAll cmd ("{" ++ key ++ "}") (format_v val))
       entries (ExecutionConfig_Command (Skill_Execution skill)) in
   duration <~ time_Since start ;;
   ret {| ExecutionResult_SkillName := Skill_Name skill;
          ExecutionResult_Status := StatusDryRun;
          ExecutionResult_Output :=
            <["risk_level" := OStr (RiskLevel_String (Skill_RiskLevel skill))]>
              (<["params" := OParams params]>
                 (<["environment" := OStr env]>
                    (<["command" := OStr cmd]> ∅)));
          ExecutionResult_Message :=
            "[DRY RUN] Would execute: " ++ cmd ++ " (env=" ++ env ++
            ", risk=" ++ RiskLevel_String (Skill_RiskLevel skill) ++ ")";
          ExecutionResult_Duration := duration;
          ExecutionResult_Error := "";
          ExecutionResult_Timestamp := start |})%exec.

(** A call starts with nothing read and nothing run. *)
Definition fresh : World :=
  {| clock_reads := 0; map_ranges := 0; commands_run := [] |}.
End WithOS.

End Executor.

(* ===================================================================== *)
(** ** Concrete data the examples and instances below run on              *)
(* ===================================================================== *)

Module Examples.
Import Core.

(** A runtime whose Unicode paths do nothing; none of the examples
    reaches them. *)
Definition plainUnicode : Strings.Unicode :=
  {| Strings.unicode_lower := fun s => s;
     Strings.unicode_fold := fun _ _ => false |}.

(** A machine on which every command succeeds and prints nothing. *)
Definition quietOS : Executor.OS :=
  {| Executor.clock := fun k => Z.of_nat k;
     Executor.range_order := fun _ m => map_to_list m;
     Executor.run_process := fun _ _ _ _ => ("", "", Executor.NoError);
     Executor.format_duration_ms := fun _ => "0s" |}.

Definition mkSkill (name : string) (risk : RiskLevel) (confirm : bool)
           (command : string) : Skill :=
  {| Skill_Name := name;
     Skill_Description := "";
     Skill_Provider := "aws";
     Skill_Category := "compute";
     Skill_Inputs := [];
     Skill_Outputs := [];
     Skill_RiskLevel := risk;
     Skill_RequiresConfirmation := confirm;
     Skill_Execution :=
       {| ExecutionConfig_Type := "cli";
          ExecutionConfig_Command := command;
          ExecutionConfig_Timeout := 0 |};
     Skill_Rollback :=
       {| RollbackConfig_Supported := false;
          RollbackConfig_Procedure := "" |} |}.

Definition ec2List : Skill :=
  mkSkill "aws.ec2.list" RiskLow false "aws ec2 describe-instances".

Definition ec2Scale : Skill :=
  mkSkill "aws.ec2.scale" RiskMedium false
          "aws autoscaling set-desired-capacity --desired-capacity {desired_capacity}".

Definition s3Sync : Skill :=
  mkSkill "aws.s3.sync" RiskMedium false "aws s3 sync {source} {destination}".

Definition terraformApply : Skill :=
  mkSkill "terraform.apply" RiskCritical true "terraform apply".

Definition publicAcl : Params := Some {[ "acl" := VStr "public-read" ]}.

Definition confirmed : Params := Some {[ "_confirmed" := VBool true ]}.

(** Confirmed and forced at once. *)
Definition forced : Params :=
  Some (<[ "_force" := VBool true ]> {[ "_confirmed" := VBool true ]}).

(** A machine on which every command exits with code 2. *)
Definition failingOS : Executor.OS :=
  {| Executor.clock := fun k => Z.of_nat k;
     Executor.range_order := fun _ m => map_to_list m;
     Executor.run_process :=
       fun _ _ _ _ => ("", "denied", Executor.ExitError 2 "exit status 2");
     Executor.format_duration_ms := fun _ => "0s" |}.

(** A machine on which no process can be started. *)
Definition brokenOS : Executor.OS :=
  {| Executor.clock := fun k => Z.of_nat k;
     Executor.range_order := fun _ m => map_to_list m;
     Executor.run_process :=
       fun _ _ _ _ =>
         ("", "", Executor.StartError "chdir /nowhere: no such file or directory");
     Executor.format_duration_ms := fun _ => "0s" |}.

Definition policyClock : nat -> Z := fun k => Z.of_nat k.

(** One viewer and one superadmin, as in the tests of the package. *)
Definition rbacEngine : Rbac.Engine :=
  Rbac.AddUser (Rbac.AddUser Rbac.NewEngine "viewer1" Rbac.RoleViewer [])
               "super1" Rbac.RoleSuperAdmin [].

Definition warnEngine : Policy.Engine :=
  Policy.Register (Policy.NewEngine Policy.EnforcementWarn)
                  Policy.noPublicS3Policy.

(** An engine whose mode was left empty, holding one rule of each
    declared enforcement. *)
Definition warnOnlyRule : Policy.Policy :=
  {| Policy.Policy_Name := "note_everything";
     Policy.Policy_Description := "Warn on every request";
     Policy.Policy_Enforcement := Policy.EnforcementWarn;
     Policy.Policy_Severity := Policy.SeverityInfo;
     Policy.Policy_AppliesTo := [];
     Policy.Policy_Environments := [];
     Policy.Policy_CheckFunc := fun _ _ _ => (true, "noted") |}.

Definition unsetEngine : Policy.Engine :=
  Policy.Register
    (Policy.Register (Policy.NewEngine "") Policy.noPublicS3Policy)
    warnOnlyRule.

Definition builtinDenyEngine : Policy.Engine :=
  Policy.Register
    (Policy.Register
       (Policy.Register
          (Policy.Register (Policy.NewEngine Policy.EnforcementDeny)
                           Policy.noPublicS3Policy)
          Policy.requirePeerReviewPolicy)
       Policy.maxBlastRadiusPolicy)
    Policy.enforceEncryptionPolicy.

Definition denyEngine : Policy.Engine :=
  Policy.Register (Policy.NewEngine Policy.EnforcementDeny)
                  Policy.noPublicS3Policy.
End Examples.

(* ===================================================================== *)
(** ** Facts about the string primitives                                  *)
(* ===================================================================== *)

Module StringFacts.
Import Strings.

#[local] Arguments String.append !_ _ : simpl nomatch.

Lemma length_app (s t : string) :
  String.length (s ++ t) = (String.length s + String.length t)%nat.
Proof. induction s as [|c s IH]; simpl; [reflexivity | now rewrite IH]. Qed.

Lemma app_nil_r (s : string) : s ++ "" = s.
Proof. induction s as [|c s IH]; simpl; [reflexivity | now rewrite IH]. Qed.

Lemma app_assoc (s t u : string) : (s ++ t) ++ u = s ++ (t ++ u).
Proof. induction s as [|c s IH]; simpl; [reflexivity | now rewrite IH]. Qed.

Lemma substring_all (s : string) : substring 0 (String.length s) s = s.
Proof. induction s as [|c s IH]; simpl; [reflexivity | now rewrite IH]. Qed.

Lemma substring_app_suffix (pre suf : string) :
  substring (String.length pre) (String.length suf) (pre ++ suf) = suf.
Proof.
  induction pre as [|c pre IH]; simpl; [apply substring_all | exact IH].
Qed.

Lemma substring_app_prefix (pre suf : string) :
  substring 0 (String.length pre) (pre ++ suf) = pre.
Proof.
  induction pre as [|c pre IH]; simpl.
  - now destruct suf.
  - now rewrite IH.
Qed.

(** Cutting a string at a position inside it loses nothing. *)
Lemma substring_split (s : string) (n : nat) :
  (n <= String.length s)%nat ->
  s = substring 0 n s ++ substring n (String.length s - n) s.
Proof.
  revert n. induction s as [|c s IH]; intros [|n] Hn; simpl in *.
  - reflexivity.
  - lia.
  - now rewrite substring_all.
  - f_equal. apply IH. lia.
Qed.

Lemma HasPrefix_app (p rest : string) : HasPrefix (p ++ rest) p = true.
Proof.
  induction p as [|c p IH]; simpl; [reflexivity|].
  now rewrite Ascii.eqb_refl, IH.
Qed.

(** [HasPrefix] decides "starts with". *)
Lemma HasPrefix_spec (s p : string) :
  HasPrefix s p = true <-> exists rest, s = p ++ rest.
Proof.
  split.
  - revert s. induction p as [|c p IH]; intros s H.
    + exists s. reflexivity.
    + destruct s as [|d s]; simpl in H; [discriminate|].
      apply andb_true_iff in H as [Hc Hp].
      apply Ascii.eqb_eq in Hc. subst d.
      destruct (IH _ Hp) as [rest ->]. now exists rest.
  - intros [rest ->]. apply HasPrefix_app.
Qed.

(** [HasSuffix] decides "ends with". *)
Lemma HasSuffix_spec (s suf : string) :
  HasSuffix s suf = true <-> exists pre, s = pre ++ suf.
Proof.
  unfold HasSuffix. split.
  - intros H. apply andb_true_iff in H as [Hlen Heq].
    apply Nat.leb_le in Hlen. apply String.eqb_eq in Heq.
    exists (substring 0 (String.length s - String.length suf) s).
    set (n := (String.length s - String.length suf)%nat).
    rewrite (substring_split s n) at 1 by (subst n; lia).
    f_equal.
    replace (String.length s - n)%nat with (String.length suf)
      by (subst n; lia).
    exact Heq.
  - intros [pre ->]. rewrite length_app.
    replace (String.length pre + String.length suf - String.length suf)%nat
      with (String.length pre) by lia.
    rewrite substring_app_suffix, String.eqb_refl.
    apply andb_true_iff. split; [apply Nat.leb_le; lia | reflexivity].
Qed.

Lemma HasSuffix_app (pre suf : string) : HasSuffix (pre ++ suf) suf = true.
Proof. apply HasSuffix_spec. now exists pre. Qed.

Lemma TrimSuffix_app (pre suf : string) : TrimSuffix (pre ++ suf) suf = pre.
Proof.
  unfold TrimSuffix. rewrite HasSuffix_app, length_app.
  replace (String.length pre + String.length suf - String.length suf)%nat
    with (String.length pre) by lia.
  apply substring_app_prefix.
Qed.

Lemma Contains_of_HasPrefix (s sub : string) :
  HasPrefix s sub = true -> Contains s sub = true.
Proof. intros H. destruct s; simpl; now rewrite H. Qed.

(** [Contains] decides "has an occurrence of". *)
Lemma Contains_spec (s sub : string) :
  Contains s sub = true <-> occurs_in sub s.
Proof.
  unfold occurs_in. split.
  - induction s as [|c s IH]; simpl; intros H.
    + rewrite orb_false_r in H. apply HasPrefix_spec in H as [rest H].
      exists "", rest. exact H.
    + apply orb_true_iff in H as [H|H].
      * apply HasPrefix_spec in H as [rest H]. exists "", rest. exact H.
      * destruct (IH H) as (pre & post & ->).
        exists (String c pre), post. reflexivity.
  - intros (pre & post & ->).
    induction pre as [|c pre IH]; simpl.
    + apply Contains_of_HasPrefix, HasPrefix_app.
    + rewrite IH. apply orb_true_r.
Qed.

(** A property checked on the 256 bytes holds of every byte. *)
Lemma forall_bytes (P : ascii -> bool) :
  forallb (fun n => P (ascii_of_nat n)) (seq 0 256) = true ->
  forall c, P c = true.
Proof.
  intros H c. rewrite forallb_forall in H.
  rewrite <- (ascii_nat_embedding c). apply H. apply in_seq.
  pose proof (nat_ascii_bounded c). lia.
Qed.

(** Lower-casing keeps a byte on its side of [RuneSelf]. *)
Lemma lower_byte_ascii (c : ascii) :
  (byte_val (lower_byte c) <? RuneSelf)%N = (byte_val c <? RuneSelf)%N.
Proof.
  apply eqb_prop.
  revert c. apply (forall_bytes (fun c =>
    Bool.eqb (byte_val (lower_byte c) <? RuneSelf)%N (byte_val c <? RuneSelf)%N)).
  vm_compute. reflexivity.
Qed.

Lemma all_ascii_lower (s : string) :
  all_ascii (map_bytes lower_byte s) = all_ascii s.
Proof.
  induction s as [|c s IH]; simpl; [reflexivity|].
  now rewrite lower_byte_ascii, IH.
Qed.

Lemma map_lower_no_upper (s : string) :
  has_upper s = false -> map_bytes lower_byte s = s.
Proof.
  induction s as [|c s IH]; simpl; intros H; [reflexivity|].
  apply orb_false_iff in H as [Hc Hs].
  rewrite (IH Hs). unfold lower_byte. now rewrite Hc.
Qed.

(** On an ASCII string [ToLower] lower-cases byte by byte, whatever the
    Unicode tables are. *)
Lemma ToLower_ascii (U : Unicode) (s : string) :
  all_ascii s = true -> ToLower U s = map_bytes lower_byte s.
Proof.
  intros H. unfold ToLower. rewrite H.
  destruct (has_upper s) eqn:E; [reflexivity|].
  symmetry. now apply map_lower_no_upper.
Qed.

(** One step of the byte loop of [EqualFold] on two ASCII bytes: the
    Unicode path is not taken, and the two bytes pass exactly when
    they have the same lower-case form. *)
Lemma fold_step_ascii (a b : ascii) :
  (byte_val a <? RuneSelf)%N = true ->
  (byte_val b <? RuneSelf)%N = true ->
  (RuneSelf <=? N.lor (byte_val a) (byte_val b))%N = false /\
  (Ascii.eqb b a ||
   (is_upper (if (byte_val b <? byte_val a)%N then b else a) &&
    (byte_val (if (byte_val b <? byte_val a)%N then a else b) =?
     byte_val (if (byte_val b <? byte_val a)%N then b else a) + 32)%N))
  = Ascii.eqb (lower_byte a) (lower_byte b).
Proof.
  intros Ha Hb.
  pose (Q := fun a b : ascii =>
    implb ((byte_val a <? RuneSelf)%N && (byte_val b <? RuneSelf)%N)
      (negb (RuneSelf <=? N.lor (byte_val a) (byte_val b))%N &&
       Bool.eqb
         (Ascii.eqb b a ||
          (is_upper (if (byte_val b <? byte_val a)%N then b else a) &&
           (byte_val (if (byte_val b <? byte_val a)%N then a else b) =?
            byte_val (if (byte_val b <? byte_val a)%N then b else a) + 32)%N))
         (Ascii.eqb (lower_byte a) (lower_byte b)))).
  assert (HQ : Q a b = true).
  { revert b Hb. revert a Ha.
    assert (H : forall a, forallb (fun n => Q a (ascii_of_nat n)) (seq 0 256) = true).
    { apply (forall_bytes (fun a =>
         forallb (fun n => Q a (ascii_of_nat n)) (seq 0 256))).
      vm_compute. reflexivity. }
    intros a _ b _. apply (forall_bytes (Q a)), H. }
  unfold Q in HQ. rewrite Ha, Hb in HQ. simpl in HQ.
  apply andb_true_iff in HQ as [H1 H2].
  apply negb_true_iff in H1. apply eqb_prop in H2. now split.
Qed.

(** On ASCII strings [EqualFold] is equality up to letter case. *)
Lemma EqualFold_ascii (U : Unicode) (s t : string) :
  all_ascii s = true -> all_ascii t = true ->
  EqualFold U s t = String.eqb (map_bytes lower_byte s) (map_bytes lower_byte t).
Proof.
  revert t. induction s as [|a s IH]; intros [|b t] Hs Ht;
    try reflexivity.
  simpl in Hs, Ht.
  apply andb_true_iff in Hs as [Ha Hs].
  apply andb_true_iff in Ht as [Hb Ht].
  destruct (fold_step_ascii a b Ha Hb) as [Hlor Hstep].
  cbn [EqualFold map_bytes String.eqb]. rewrite Hlor, <- Hstep, (IH t Hs Ht).
  destruct (Ascii.eqb b a); [reflexivity|]. simpl.
  now destruct (is_upper _ && _).
Qed.

Lemma app_char_inj (s t : string) (c : ascii) :
  s ++ String c "" = t ++ String c "" -> s = t.
Proof.
  revert t. induction s as [|a s IH]; intros [|b t] H; simpl in H.
  - reflexivity.
  - injection H as _ H. destruct t; discriminate H.
  - injection H as _ H. destruct s; discriminate H.
  - injection H as -> H. f_equal. now apply IH.
Qed.

(** A string that ends with [.*] ends with [*]. *)
Lemma HasSuffix_dot_star (s : string) :
  HasSuffix s ".*" = true -> HasSuffix s "*" = true.
Proof.
  intros H. apply HasSuffix_spec in H as [pre ->].
  apply HasSuffix_spec. exists (pre ++ "."). now rewrite app_assoc.
Qed.

Lemma Contains_false (s sub : string) :
  Contains s sub = false <-> ~ occurs_in sub s.
Proof.
  rewrite <- Contains_spec. destruct (Contains s sub); split; intros H;
    try reflexivity; try discriminate; try (intros H'; discriminate).
  now destruct H.
Qed.

End StringFacts.

(* ===================================================================== *)
(** ** The risk scale                                                     *)
(* ===================================================================== *)

Module RiskFacts.
Import Core.

(** C9. Round trip of the risk scale: parsing the name of each of the
    four levels gives the level back with a [nil] error, and every string
    that is not one of the four canonical names is rejected with an
    error. *)
Theorem risk_level_roundtrip :
  (forall level : RiskLevel,
      In level [RiskLow; RiskMedium; RiskHigh; RiskCritical] ->
      ParseRiskLevel (RiskLevel_String level) = (level, None)) /\
  (forall s : string,
      ~ In s ["LOW"; "MEDIUM"; "HIGH"; "CRITICAL"] ->
      exists msg, snd (ParseRiskLevel s) = Some msg).
Proof.
  split.
  - intros level H. simpl in H.
    destruct H as [<-|[<-|[<-|[<-|[]]]]]; reflexivity.
  - intros s H. unfold ParseRiskLevel.
    destruct (String.eqb_spec s "LOW") as [->|_];
      [exfalso; apply H; simpl; auto|].
    destruct (String.eqb_spec s "MEDIUM") as [->|_];
      [exfalso; apply H; simpl; auto|].
    destruct (String.eqb_spec s "HIGH") as [->|_];
      [exfalso; apply H; simpl; auto|].
    destruct (String.eqb_spec s "CRITICAL") as [->|_];
      [exfalso; apply H; simpl; auto|].
    eexists. reflexivity.
Qed.

Lemma risk_level_roundtrip_witness :
  ParseRiskLevel (RiskLevel_String RiskHigh) = (RiskHigh, None) /\
  exists msg, snd (ParseRiskLevel "low") = Some msg.
Proof.
  split.
  - apply (proj1 risk_level_roundtrip). simpl. auto.
  - apply (proj2 risk_level_roundtrip). simpl.
    intros [H|[H|[H|[H|[]]]]]; discriminate H.
Defined.

(** The names of the four levels are the four canonical strings. *)
Lemma canonical_names :
  map RiskLevel_String [RiskLow; RiskMedium; RiskHigh; RiskCritical]
  = ["LOW"; "MEDIUM"; "HIGH"; "CRITICAL"].
Proof. reflexivity. Qed.

End RiskFacts.

(* ===================================================================== *)
(** ** The safety layer                                                   *)
(* ===================================================================== *)

Module SafetyFacts.
Import Core Safety.

Section WithUnicode.
Variable U : Strings.Unicode.

(** An environment that spells production, prod or prd in some letter
    case is recognised, whatever the Unicode tables are. *)
Lemma isProductionEnvironment_any_case (l : Layer) (env : string) :
  In (Strings.map_bytes Strings.lower_byte env) ["production"; "prod"; "prd"] ->
  isProductionEnvironment U l env = true.
Proof.
  intros H. unfold isProductionEnvironment.
  assert (Hascii : Strings.all_ascii env = true).
  { rewrite <- StringFacts.all_ascii_lower.
    simpl in H. destruct H as [<-|[<-|[<-|[]]]]; reflexivity. }
  rewrite (StringFacts.ToLower_ascii U env Hascii).
  simpl in H. destruct H as [<-|[<-|[<-|[]]]]; reflexivity.
Qed.

(** The three fields of the report the environment decides. *)
Lemma Evaluate_RiskLevel (l : Layer) (skill : Skill) (params : Params)
      (env : string) :
  SafetyReport_RiskLevel (Evaluate U l skill params env) =
  if isProductionEnvironment U l env
  then (if Skill_RiskLevel skill <? RiskHigh then RiskHigh
        else Skill_RiskLevel skill)
  else Skill_RiskLevel skill.
Proof.
  unfold Evaluate. destruct (isProductionEnvironment U l env);
    [|reflexivity].
  change (SafetyReport_RiskLevel (set_EnvironmentWarning _ _))
    with (Skill_RiskLevel skill).
  destruct (Skill_RiskLevel skill <? RiskHigh); reflexivity.
Qed.

Lemma Evaluate_RequiresConfirmation (l : Layer) (skill : Skill)
      (params : Params) (env : string) :
  SafetyReport_RequiresConfirmation (Evaluate U l skill params env) =
  if isProductionEnvironment U l env then true
  else Skill_RequiresConfirmation skill.
Proof.
  unfold Evaluate. destruct (isProductionEnvironment U l env); reflexivity.
Qed.

Lemma Evaluate_EnvironmentWarning (l : Layer) (skill : Skill)
      (params : Params) (env : string) :
  SafetyReport_EnvironmentWarning (Evaluate U l skill params env) =
  if isProductionEnvironment U l env then productionWarning else "".
Proof.
  unfold Evaluate. destruct (isProductionEnvironment U l env);
    [|reflexivity].
  change (SafetyReport_RiskLevel (set_EnvironmentWarning _ _))
    with (Skill_RiskLevel skill).
  destruct (Skill_RiskLevel skill <? RiskHigh); reflexivity.
Qed.

Lemma Evaluate_DryRunRecommended (l : Layer) (skill : Skill)
      (params : Params) (env : string) :
  SafetyReport_DryRunRecommended (Evaluate U l skill params env) =
  shouldDryRun U l skill.
Proof. reflexivity. Qed.

Lemma Evaluate_ConfirmationPrompt (l : Layer) (skill : Skill)
      (params : Params) (env : string) :
  SafetyReport_ConfirmationPrompt (Evaluate U l skill params env) =
  getConfirmationPrompt l
    (SafetyReport_RiskLevel (Evaluate U l skill params env)).
Proof.
  unfold Evaluate. destruct (isProductionEnvironment U l env);
    [|reflexivity].
  change (SafetyReport_RiskLevel (set_EnvironmentWarning _ _))
    with (Skill_RiskLevel skill).
  destruct (Skill_RiskLevel skill <? RiskHigh); reflexivity.
Qed.

Lemma Evaluate_BlastRadius (l : Layer) (skill : Skill)
      (params : Params) (env : string) :
  SafetyReport_BlastRadius (Evaluate U l skill params env) =
  estimateBlastRadius l skill params.
Proof.
  unfold Evaluate. destruct (isProductionEnvironment U l env);
    [|reflexivity].
  change (SafetyReport_RiskLevel (set_EnvironmentWarning _ _))
    with (Skill_RiskLevel skill).
  destruct (Skill_RiskLevel skill <? RiskHigh); reflexivity.
Qed.

(** C2. In production (production, prod or prd in any letter case) the
    report has risk at least High, requires confirmation and carries a
    non-empty environment warning. *)
Theorem production_escalates (l : Layer) (skill : Skill) (params : Params)
        (env : string) :
  In (Strings.map_bytes Strings.lower_byte env) ["production"; "prod"; "prd"] ->
  RiskHigh <= SafetyReport_RiskLevel (Evaluate U l skill params env) /\
  SafetyReport_RequiresConfirmation (Evaluate U l skill params env) = true /\
  SafetyReport_EnvironmentWarning (Evaluate U l skill params env) <> "".
Proof.
  intros H.
  rewrite Evaluate_RiskLevel, Evaluate_RequiresConfirmation,
    Evaluate_EnvironmentWarning.
  rewrite (isProductionEnvironment_any_case l env H).
  repeat split.
  - destruct (Skill_RiskLevel skill <? RiskHigh) eqn:E;
      [apply Z.le_refl | now apply Z.ltb_ge in E].
  - discriminate.
Qed.

(** C6. Escalation never lowers the risk: the risk of the report is at
    least the intrinsic risk of the skill. *)
Theorem escalation_monotone (l : Layer) (skill : Skill) (params : Params)
        (env : string) :
  Skill_RiskLevel skill <= SafetyReport_RiskLevel (Evaluate U l skill params env).
Proof.
  rewrite Evaluate_RiskLevel.
  destruct (isProductionEnvironment U l env); [|apply Z.le_refl].
  destruct (Skill_RiskLevel skill <? RiskHigh) eqn:E; [|apply Z.le_refl].
  apply Z.ltb_lt in E. lia.
Qed.
End WithUnicode.

Lemma estimateFromParam_get (params : Params) (key : string) (fallback : Z) :
  estimateFromParam params key fallback =
  match param_get params key with
  | Some (VInt v) => v
  | _ => fallback
  end.
Proof. destruct params; reflexivity. Qed.

(** Reading a chain of [Contains] tests as "some pattern occurs". *)
Ltac occurrences :=
  repeat rewrite Exists_cons; rewrite Exists_nil;
  repeat rewrite orb_true_iff;
  repeat rewrite StringFacts.Contains_spec;
  tauto.

(** C7, as the code has it. The blast radius is read off a table whose
    rows are tried in order, the first row whose pattern occurs in the
    skill name deciding: read-only patterns give 0; then .deploy and
    .upgrade give 1; then .scale gives the integer parameter
    desired_capacity, or 1 without it; then terraform.apply gives the
    integer parameter resources_count, or 5 without it; then .sync and
    .migrate give 10; any other name gives 1. In particular aws.ec2.list
    gives 0, aws.ec2.scale gives 7 with desired_capacity 7 and 1 without
    it, and terraform.apply gives 5 without resources_count. *)
Theorem blast_radius_table (l : Layer) (skill : Skill) (params : Params) :
  let name := Skill_Name skill in
  let radius := estimateBlastRadius l skill params in
  let any := Exists (fun pat => Strings.occurs_in pat name) in
  let readOnly :=
    any [".list"; ".audit"; ".query"; ".report"; ".status"; ".snapshot"] in
  let deploy := any [".deploy"; ".upgrade"] in
  let scale := any [".scale"] in
  let terraform := any ["terraform.apply"] in
  let bulk := any [".sync"; ".migrate"] in
  let param key fallback :=
    match param_get params key with
    | Some (VInt v) => v
    | _ => fallback
    end in
  ((readOnly -> radius = 0) /\
   (~ readOnly -> deploy -> radius = 1) /\
   (~ readOnly -> ~ deploy -> scale -> radius = param "desired_capacity" 1) /\
   (~ readOnly -> ~ deploy -> ~ scale -> terraform ->
    radius = param "resources_count" 5) /\
   (~ readOnly -> ~ deploy -> ~ scale -> ~ terraform -> bulk -> radius = 10) /\
   (~ readOnly -> ~ deploy -> ~ scale -> ~ terraform -> ~ bulk -> radius = 1))
  /\
  ((name = "aws.ec2.list" -> radius = 0) /\
   (name = "aws.ec2.scale" ->
    param_get params "desired_capacity" = Some (VInt 7) -> radius = 7) /\
   (name = "aws.ec2.scale" ->
    param_get params "desired_capacity" = None -> radius = 1) /\
   (name = "terraform.apply" ->
    param_get params "resources_count" = None -> radius = 5)).
Proof.
  intros name radius any readOnly deploy scale terraform bulk param.
  split.
  - subst radius. unfold estimateBlastRadius. cbv zeta. fold name.
    rewrite !estimateFromParam_get. fold (param "desired_capacity" 1).
    fold (param "resources_count" 5).
    set (b0 := (Strings.Contains name ".list" || Strings.Contains name ".audit" ||
                Strings.Contains name ".query" || Strings.Contains name ".report" ||
                Strings.Contains name ".status" ||
                Strings.Contains name ".snapshot")%bool).
    set (b1 := (Strings.Contains name ".deploy" ||
                Strings.Contains name ".upgrade")%bool).
    set (b2 := Strings.Contains name ".scale").
    set (b3 := Strings.Contains name "terraform.apply").
    set (b4 := (Strings.Contains name ".sync" ||
                Strings.Contains name ".migrate")%bool).
    assert (H0 : b0 = true <-> readOnly) by (subst b0 readOnly any; occurrences).
    assert (H1 : b1 = true <-> deploy) by (subst b1 deploy any; occurrences).
    assert (H2 : b2 = true <-> scale) by (subst b2 scale any; occurrences).
    assert (H3 : b3 = true <-> terraform) by (subst b3 terraform any; occurrences).
    assert (H4 : b4 = true <-> bulk) by (subst b4 bulk any; occurrences).
    clearbody b0 b1 b2 b3 b4 readOnly deploy scale terraform bulk.
    destruct b0, b1, b2, b3, b4; repeat split; intros;
      first [reflexivity | exfalso; intuition discriminate].
  - subst radius. unfold estimateBlastRadius. cbv zeta. fold name.
    rewrite !estimateFromParam_get.
    repeat split.
    + intros ->. reflexivity.
    + intros -> ->. reflexivity.
    + intros -> ->. reflexivity.
    + intros -> ->. reflexivity.
Qed.

Lemma blast_radius_table_witness :
  estimateBlastRadius mkLayer Examples.ec2List None = 0 /\
  estimateBlastRadius mkLayer Examples.ec2Scale
    (Some {[ "desired_capacity" := VInt 7 ]}) = 7 /\
  estimateBlastRadius mkLayer Examples.ec2Scale None = 1 /\
  estimateBlastRadius mkLayer Examples.terraformApply None = 5.
Proof.
  split; [|split; [|split]].
  - apply (proj2 (blast_radius_table mkLayer Examples.ec2List None)).
    reflexivity.
  - apply (proj2 (blast_radius_table mkLayer Examples.ec2Scale
                    (Some {[ "desired_capacity" := VInt 7 ]})));
      reflexivity.
  - apply (proj2 (blast_radius_table mkLayer Examples.ec2Scale None));
      reflexivity.
  - apply (proj2 (blast_radius_table mkLayer Examples.terraformApply None));
      reflexivity.
Defined.

(** C7 does not hold as stated: a name in which .sync occurs does not
    yield 10 when an earlier row of the table matches it. Here .deploy
    occurs too and decides: the radius is 1. *)
Lemma blast_radius_sync_counterexample :
  Strings.occurs_in ".sync" "app.deploy.sync" /\
  estimateBlastRadius mkLayer
    (Examples.mkSkill "app.deploy.sync" RiskMedium false "") None = 1 /\
  estimateBlastRadius mkLayer
    (Examples.mkSkill "app.deploy.sync" RiskMedium false "") None <> 10.
Proof.
  split; [|split].
  - exists "app.deploy", "". reflexivity.
  - reflexivity.
  - discriminate.
Qed.

Lemma escalation_monotone_witness :
  Skill_RiskLevel Examples.ec2Scale <=
  SafetyReport_RiskLevel
    (Evaluate Examples.plainUnicode mkLayer Examples.ec2Scale None "production").
Proof.
  apply (escalation_monotone Examples.plainUnicode mkLayer Examples.ec2Scale
           None "production").
Defined.

Lemma production_escalates_witness :
  RiskHigh <= SafetyReport_RiskLevel
    (Evaluate Examples.plainUnicode mkLayer Examples.ec2Scale None "PrOd") /\
  SafetyReport_RequiresConfirmation
    (Evaluate Examples.plainUnicode mkLayer Examples.ec2Scale None "PrOd") = true /\
  SafetyReport_EnvironmentWarning
    (Evaluate Examples.plainUnicode mkLayer Examples.ec2Scale None "PrOd") <> "".
Proof.
  apply (production_escalates Examples.plainUnicode mkLayer Examples.ec2Scale
           None "PrOd").
  simpl. right. left. reflexivity.
Defined.

End SafetyFacts.

(* ===================================================================== *)
(** ** The policy engine                                                  *)
(* ===================================================================== *)

Module PolicyFacts.
Import Core Policy.

#[local] Arguments String.append !_ _ : simpl nomatch.

Lemma existsb_filter {A} (f : A -> bool) (l : list A) :
  existsb f l = true <-> List.filter f l <> [].
Proof.
  induction l as [|a l IH]; cbn [existsb List.filter].
  - split; [discriminate | congruence].
  - destruct (f a); cbn [orb]; [|exact IH].
    split; [discriminate | reflexivity].
Qed.

Section Loop.
Variable U : Strings.Unicode.
Variable clock : nat -> Z.
Variables (e : Engine) (skill : Skill) (params : Params) (env : string).

Let step := Evaluate_step U clock e skill params env.

(** A policy is triggered when it applies and its check reports a
    violation. *)
Let triggered (p : Policy) : bool :=
  policyApplies U e p skill env && fst (Policy_CheckFunc p skill params env).

Lemma step_not_triggered (st : eval_state) (p : Policy) :
  triggered p = false -> step st p = st.
Proof.
  unfold triggered, step, Evaluate_step. destruct st as [result reads].
  destruct (policyApplies U e p skill env); [|reflexivity].
  destruct (Policy_CheckFunc p skill params env) as [violated reason].
  simpl. now intros ->.
Qed.

(** Under the global mode warn a triggered policy adds a warning and
    nothing else. *)
Lemma step_warn (st : eval_state) (p : Policy) :
  enforcementMode e = EnforcementWarn ->
  triggered p = true ->
  exists v,
    Violation_PolicyName v = Policy_Name p /\
    Violation_Enforcement v = Policy_Enforcement p /\
    step st p =
    ({| EvaluationResult_Passed := EvaluationResult_Passed (fst st);
        EvaluationResult_Violations := EvaluationResult_Violations (fst st);
        EvaluationResult_Warnings := EvaluationResult_Warnings (fst st) ++ [v];
        EvaluationResult_Denied := EvaluationResult_Denied (fst st) |},
     S (snd st)).
Proof.
  unfold triggered, step, Evaluate_step. intros Hmode.
  destruct st as [result reads].
  destruct (policyApplies U e p skill env); [|discriminate].
  destruct (Policy_CheckFunc p skill params env) as [violated reason].
  simpl. intros ->. rewrite Hmode. simpl.
  eexists. split; [|split]; [| |reflexivity]; reflexivity.
Qed.

(** Under the global mode deny a triggered policy adds a violation and
    denies. *)
Lemma step_deny (st : eval_state) (p : Policy) :
  enforcementMode e = EnforcementDeny ->
  triggered p = true ->
  exists v,
    Violation_PolicyName v = Policy_Name p /\
    Violation_Enforcement v = Policy_Enforcement p /\
    step st p =
    ({| EvaluationResult_Passed := false;
        EvaluationResult_Violations := EvaluationResult_Violations (fst st) ++ [v];
        EvaluationResult_Warnings := EvaluationResult_Warnings (fst st);
        EvaluationResult_Denied := true |},
     S (snd st)).
Proof.
  unfold triggered, step, Evaluate_step. intros Hmode.
  destruct st as [result reads].
  destruct (policyApplies U e p skill env); [|discriminate].
  destruct (Policy_CheckFunc p skill params env) as [violated reason].
  simpl. intros ->. rewrite Hmode. simpl.
  eexists. split; [|split]; [| |reflexivity]; reflexivity.
Qed.

(** The loop under warn, from any state. *)
Lemma loop_warn (ps : list Policy) (st : eval_state) :
  enforcementMode e = EnforcementWarn ->
  let st' := fold_left step ps st in
  EvaluationResult_Passed (fst st') = EvaluationResult_Passed (fst st) /\
  EvaluationResult_Denied (fst st') = EvaluationResult_Denied (fst st) /\
  EvaluationResult_Violations (fst st') = EvaluationResult_Violations (fst st) /\
  map Violation_PolicyName (EvaluationResult_Warnings (fst st')) =
  (map Violation_PolicyName (EvaluationResult_Warnings (fst st)) ++
   map Policy_Name (List.filter triggered ps))%list.
Proof.
  intros Hmode. revert st.
  induction ps as [|p ps IH]; intros st; cbn [fold_left List.filter].
  - cbn. now rewrite app_nil_r.
  - destruct (triggered p) eqn:Ht.
    + destruct (step_warn st p Hmode Ht) as (v & Hv & _ & Hstep).
      specialize (IH (step st p)). cbv zeta in IH.
      destruct IH as (H1 & H2 & H3 & H4).
      rewrite H1, H2, H3, H4, Hstep. cbn.
      repeat split; try reflexivity.
      now rewrite map_app, <- app_assoc, <- Hv.
    + rewrite (step_not_triggered st p Ht). apply IH.
Qed.

(** The loop under deny, from any state. *)
Lemma loop_deny (ps : list Policy) (st : eval_state) :
  enforcementMode e = EnforcementDeny ->
  let st' := fold_left step ps st in
  EvaluationResult_Warnings (fst st') = EvaluationResult_Warnings (fst st) /\
  map Violation_PolicyName (EvaluationResult_Violations (fst st')) =
  (map Violation_PolicyName (EvaluationResult_Violations (fst st)) ++
   map Policy_Name (List.filter triggered ps))%list /\
  EvaluationResult_Denied (fst st') =
  EvaluationResult_Denied (fst st) || existsb triggered ps.
Proof.
  intros Hmode. revert st.
  induction ps as [|p ps IH]; intros st; cbn [fold_left List.filter existsb].
  - cbn. now rewrite app_nil_r, orb_false_r.
  - destruct (triggered p) eqn:Ht.
    + destruct (step_deny st p Hmode Ht) as (v & Hv & _ & Hstep).
      specialize (IH (step st p)). cbv zeta in IH.
      destruct IH as (H1 & H2 & H3).
      rewrite H1, H2, H3, Hstep. cbn.
      repeat split; try reflexivity.
      * now rewrite map_app, <- app_assoc, <- Hv.
      * now rewrite orb_true_r.
    + rewrite (step_not_triggered st p Ht). apply IH.
Qed.

(** The shape every result keeps: passed is the negation of denied,
    and denied says that some violation was recorded. *)
Let well_formed (r : EvaluationResult) : Prop :=
  EvaluationResult_Passed r = negb (EvaluationResult_Denied r) /\
  (EvaluationResult_Denied r = true <-> EvaluationResult_Violations r <> []).

Lemma step_well_formed (st : eval_state) (p : Policy) :
  well_formed (fst st) -> well_formed (fst (step st p)).
Proof.
  unfold well_formed, step, Evaluate_step. destruct st as [result reads].
  intros H.
  destruct (policyApplies U e p skill env); [|exact H].
  destruct (Policy_CheckFunc p skill params env) as [[|] reason];
    [|exact H].
  cbn [negb].
  match goal with
  | |- context [if String.eqb ?x EnforcementDeny then _ else _] =>
      destruct (String.eqb x EnforcementDeny)
  end; cbn.
  - split; [reflexivity|]. split; [|reflexivity].
    intros _ Hnil. now apply app_eq_nil in Hnil as [_ Hnil].
  - exact H.
Qed.

Lemma loop_well_formed (ps : list Policy) (st : eval_state) :
  well_formed (fst st) -> well_formed (fst (fold_left step ps st)).
Proof.
  revert st. induction ps as [|p ps IH]; intros st H; [exact H|].
  cbn [fold_left]. apply IH, step_well_formed, H.
Qed.

(** C10. Every result of [Evaluate] has Passed true exactly when Denied
    is false, and Denied true exactly when the list of violations is
    not empty; warnings do not enter either field. *)
Theorem evaluation_result_shape :
  let result := Evaluate U clock e skill params env in
  (EvaluationResult_Passed result = true <->
   EvaluationResult_Denied result = false) /\
  (EvaluationResult_Denied result = true <->
   EvaluationResult_Violations result <> []).
Proof.
  cbv zeta. unfold Evaluate.
  destruct (loop_well_formed (policies e)
    ({| EvaluationResult_Passed := true;
        EvaluationResult_Violations := [];
        EvaluationResult_Warnings := [];
        EvaluationResult_Denied := false |}, 0%nat)) as [H1 H2].
  { split; [reflexivity|]. cbn. split; [discriminate | congruence]. }
  fold step. split; [|exact H2].
  rewrite H1. now destruct (EvaluationResult_Denied _).
Qed.

(** C1. With the global mode warn no result is ever denied: every
    triggered policy, whatever its own enforcement, is recorded as a
    warning and none as a violation. With the global mode deny every
    triggered policy is recorded as a violation, none as a warning, and
    the result is denied as soon as one policy is triggered. *)
Theorem global_mode_forces_enforcement :
  let result := Evaluate U clock e skill params env in
  let fired := List.filter triggered (policies e) in
  (enforcementMode e = EnforcementWarn ->
   EvaluationResult_Denied result = false /\
   EvaluationResult_Passed result = true /\
   EvaluationResult_Violations result = [] /\
   map Violation_PolicyName (EvaluationResult_Warnings result) =
   map Policy_Name fired) /\
  (enforcementMode e = EnforcementDeny ->
   EvaluationResult_Warnings result = [] /\
   map Violation_PolicyName (EvaluationResult_Violations result) =
   map Policy_Name fired /\
   (EvaluationResult_Denied result = true <-> fired <> [])).
Proof.
  cbv zeta. unfold Evaluate. fold step. split; intros Hmode.
  - destruct (loop_warn (policies e)
      ({| EvaluationResult_Passed := true;
          EvaluationResult_Violations := [];
          EvaluationResult_Warnings := [];
          EvaluationResult_Denied := false |}, 0%nat) Hmode)
      as (H1 & H2 & H3 & H4).
    rewrite H1, H2, H3, H4. repeat split; reflexivity.
  - destruct (loop_deny (policies e)
      ({| EvaluationResult_Passed := true;
          EvaluationResult_Violations := [];
          EvaluationResult_Warnings := [];
          EvaluationResult_Denied := false |}, 0%nat) Hmode)
      as (H1 & H2 & H3).
    rewrite H1, H2, H3. cbn [fst EvaluationResult_Denied
      EvaluationResult_Warnings EvaluationResult_Violations map app orb].
    split; [reflexivity|]. split; [reflexivity|].
    apply existsb_filter.
Qed.
End Loop.

Lemma evaluation_result_shape_witness :
  (EvaluationResult_Passed
     (Evaluate Examples.plainUnicode Examples.policyClock Examples.denyEngine
               Examples.s3Sync Examples.publicAcl "staging") = true <->
   EvaluationResult_Denied
     (Evaluate Examples.plainUnicode Examples.policyClock Examples.denyEngine
               Examples.s3Sync Examples.publicAcl "staging") = false) /\
  (EvaluationResult_Denied
     (Evaluate Examples.plainUnicode Examples.policyClock Examples.denyEngine
               Examples.s3Sync Examples.publicAcl "staging") = true <->
   EvaluationResult_Violations
     (Evaluate Examples.plainUnicode Examples.policyClock Examples.denyEngine
               Examples.s3Sync Examples.publicAcl "staging") <> []).
Proof.
  apply (evaluation_result_shape Examples.plainUnicode Examples.policyClock
           Examples.denyEngine Examples.s3Sync Examples.publicAcl "staging").
Defined.

Lemma global_mode_forces_enforcement_witness :
  EvaluationResult_Denied
    (Evaluate Examples.plainUnicode Examples.policyClock Examples.warnEngine
              Examples.s3Sync Examples.publicAcl "staging") = false /\
  map Violation_PolicyName
    (EvaluationResult_Warnings
       (Evaluate Examples.plainUnicode Examples.policyClock Examples.warnEngine
                 Examples.s3Sync Examples.publicAcl "staging"))
  = ["no_public_s3"] /\
  EvaluationResult_Denied
    (Evaluate Examples.plainUnicode Examples.policyClock Examples.denyEngine
              Examples.s3Sync Examples.publicAcl "staging") = true.
Proof.
  destruct (global_mode_forces_enforcement Examples.plainUnicode
              Examples.policyClock Examples.warnEngine Examples.s3Sync
              Examples.publicAcl "staging") as [Hwarn _].
  destruct (global_mode_forces_enforcement Examples.plainUnicode
              Examples.policyClock Examples.denyEngine Examples.s3Sync
              Examples.publicAcl "staging") as [_ Hdeny].
  destruct (Hwarn eq_refl) as (H1 & _ & _ & H4).
  destruct (Hdeny eq_refl) as (_ & _ & H7).
  split; [exact H1|]. split; [exact H4|].
  apply H7. vm_compute. discriminate.
Defined.

(** *** Patterns *)

Lemma matchSkillPattern_star (name : string) :
  matchSkillPattern name "*" = true.
Proof. reflexivity. Qed.

Lemma matchSkillPattern_dot_star (name prefix : string) :
  matchSkillPattern name (prefix ++ ".*") =
  Strings.HasPrefix name (prefix ++ ".").
Proof.
  unfold matchSkillPattern.
  replace (String.eqb (prefix ++ ".*") "*") with false.
  - now rewrite StringFacts.HasSuffix_app, StringFacts.TrimSuffix_app.
  - symmetry. apply String.eqb_neq. intros H.
    apply (f_equal String.length) in H.
    rewrite StringFacts.length_app in H. simpl in H. lia.
Qed.

Lemma matchSkillPattern_prefix_star (name prefix : string) :
  prefix <> "" -> Strings.HasSuffix prefix "." = false ->
  matchSkillPattern name (prefix ++ "*") = Strings.HasPrefix name prefix.
Proof.
  intros Hne Hdot. unfold matchSkillPattern.
  replace (String.eqb (prefix ++ "*") "*") with false.
  - replace (Strings.HasSuffix (prefix ++ "*") ".*") with false.
    + now rewrite StringFacts.HasSuffix_app, StringFacts.TrimSuffix_app.
    + symmetry. apply not_true_iff_false. intros H.
      apply StringFacts.HasSuffix_spec in H as [pre H].
      change ".*" with ("." ++ "*") in H.
      rewrite <- StringFacts.app_assoc in H.
      apply StringFacts.app_char_inj in H.
      assert (Strings.HasSuffix prefix "." = true)
        by (apply StringFacts.HasSuffix_spec; now exists pre).
      congruence.
  - symmetry. apply String.eqb_neq. intros H.
    destruct prefix as [|c [|d prefix]]; [now apply Hne | |]; discriminate H.
Qed.

Lemma matchSkillPattern_exact (name pattern : string) :
  Strings.HasSuffix pattern "*" = false ->
  matchSkillPattern name pattern = String.eqb name pattern.
Proof.
  intros H. unfold matchSkillPattern.
  destruct (String.eqb_spec pattern "*") as [->|_]; [discriminate H|].
  destruct (Strings.HasSuffix pattern ".*") eqn:E.
  - apply StringFacts.HasSuffix_dot_star in E. congruence.
  - now rewrite H.
Qed.

Section Applicability.
Variable U : Strings.Unicode.

(** A policy applies when its pattern list is empty or has a matching
    pattern, and its environment list is empty or has an entry equal
    to the environment up to case. *)
Lemma policyApplies_spec (e : Engine) (p : Policy) (skill : Skill)
      (env : string) :
  policyApplies U e p skill env = true <->
  (Policy_AppliesTo p = [] \/
   Exists (fun pattern => matchSkillPattern (Skill_Name skill) pattern = true)
          (Policy_AppliesTo p)) /\
  (Policy_Environments p = [] \/
   Exists (fun e' => Strings.EqualFold U e' env = true)
          (Policy_Environments p)).
Proof.
  unfold policyApplies.
  assert (Hex : forall (f : string -> bool) (l : list string),
             (if (0 <? length l)%nat then existsb f l else true) = true <->
             (l = [] \/ Exists (fun x => f x = true) l)).
  { intros f [|a l].
    - cbn. split; [now left | reflexivity].
    - cbn [length Nat.ltb Nat.leb]. rewrite existsb_exists, List.Exists_exists.
      split; [intros H; right; exact H|].
      intros [H|H]; [discriminate H | exact H]. }
  rewrite <- !Hex.
  destruct (if (0 <? length (Policy_AppliesTo p))%nat then _ else true);
    cbn [negb].
  - destruct (if (0 <? length (Policy_Environments p))%nat then _ else true);
      cbn [negb]; intuition discriminate.
  - intuition discriminate.
Qed.

(** C8. Applicability of a policy. A policy whose patterns are
    [aws.s3.*] and that names no environment applies to aws.s3.sync
    and, whatever its environments, does not apply to aws.ec2.list.
    The pattern [*] matches every name; [prefix.*] matches the names
    that start with [prefix.]; [prefix*] matches the names that start
    with [prefix]; any other pattern matches itself only. The
    environment list is matched up to letter case, and an empty list
    admits every environment. *)
Theorem policy_applicability (e : Engine) :
  (forall p skill env,
      Policy_AppliesTo p = ["aws.s3.*"] ->
      (Policy_Environments p = [] \/
       Exists (fun e' => Strings.EqualFold U e' env = true)
              (Policy_Environments p)) ->
      Skill_Name skill = "aws.s3.sync" ->
      policyApplies U e p skill env = true) /\
  (forall p skill env,
      Policy_AppliesTo p = ["aws.s3.*"] ->
      Skill_Name skill = "aws.ec2.list" ->
      policyApplies U e p skill env = false) /\
  (forall name, matchSkillPattern name "*" = true) /\
  (forall name prefix,
      matchSkillPattern name (prefix ++ ".*") = true <->
      exists rest, name = (prefix ++ ".") ++ rest) /\
  (forall name prefix,
      prefix <> "" -> Strings.HasSuffix prefix "." = false ->
      (matchSkillPattern name (prefix ++ "*") = true <->
       exists rest, name = prefix ++ rest)) /\
  (forall name pattern,
      Strings.HasSuffix pattern "*" = false ->
      (matchSkillPattern name pattern = true <-> name = pattern)) /\
  (forall p skill env,
      Policy_Environments p = [] ->
      policyApplies U e p skill env =
      (if (0 <? length (Policy_AppliesTo p))%nat
       then existsb (fun pattern => matchSkillPattern (Skill_Name skill) pattern)
                    (Policy_AppliesTo p)
       else true)) /\
  (forall p skill env,
      policyApplies U e p skill env = true <->
      (Policy_AppliesTo p = [] \/
       Exists (fun pattern => matchSkillPattern (Skill_Name skill) pattern = true)
              (Policy_AppliesTo p)) /\
      (Policy_Environments p = [] \/
       Exists (fun e' => Strings.EqualFold U e' env = true)
              (Policy_Environments p))) /\
  (forall e' env,
      Strings.all_ascii e' = true -> Strings.all_ascii env = true ->
      (Strings.EqualFold U e' env = true <->
       Strings.map_bytes Strings.lower_byte e' =
       Strings.map_bytes Strings.lower_byte env)).
Proof.
  repeat apply conj.
  - intros p skill env Hpat Henv Hname. apply policyApplies_spec.
    split; [right | exact Henv].
    rewrite Hpat, Hname. apply Exists_cons_hd. reflexivity.
  - intros p skill env Hpat Hname. apply not_true_iff_false.
    intros H. apply policyApplies_spec in H as [[H|H] _].
    + rewrite Hpat in H. discriminate H.
    + rewrite Hpat, Hname in H. inversion H as [? ? Hm|? ? Hm]; subst.
      * discriminate Hm.
      * inversion Hm.
  - exact matchSkillPattern_star.
  - intros name prefix. rewrite matchSkillPattern_dot_star.
    apply StringFacts.HasPrefix_spec.
  - intros name prefix Hne Hdot.
    rewrite (matchSkillPattern_prefix_star name prefix Hne Hdot).
    apply StringFacts.HasPrefix_spec.
  - intros name pattern H. rewrite (matchSkillPattern_exact name pattern H).
    apply String.eqb_eq.
  - intros p skill env H. unfold policyApplies. rewrite H.
    destruct (Policy_AppliesTo p) as [|a l];
      cbn [length Nat.ltb Nat.leb negb]; [reflexivity|].
    now destruct (existsb _ (a :: l)).
  - intros p skill env. apply policyApplies_spec.
  - intros e' env H1 H2. rewrite (StringFacts.EqualFold_ascii U _ _ H1 H2).
    apply String.eqb_eq.
Qed.
End Applicability.

Lemma policy_applicability_witness :
  policyApplies Examples.plainUnicode Examples.warnEngine
                noPublicS3Policy Examples.s3Sync "staging" = true /\
  policyApplies Examples.plainUnicode Examples.warnEngine
                noPublicS3Policy Examples.ec2List "staging" = false /\
  (matchSkillPattern "aws.s3.sync" ("aws.s3" ++ ".*") = true <->
   exists rest, "aws.s3.sync" = ("aws.s3" ++ ".") ++ rest) /\
  (matchSkillPattern "aws.s3.sync" ("aws" ++ "*") = true <->
   exists rest, "aws.s3.sync" = "aws" ++ rest) /\
  (Strings.EqualFold Examples.plainUnicode "Production" "PRODUCTION" = true <->
   Strings.map_bytes Strings.lower_byte "Production" =
   Strings.map_bytes Strings.lower_byte "PRODUCTION").
Proof.
  destruct (policy_applicability Examples.plainUnicode Examples.warnEngine)
    as (H1 & H2 & _ & H4 & H5 & _ & _ & _ & H9).
  split; [|split; [|split; [|split]]].
  - apply H1; [reflexivity | left; reflexivity | reflexivity].
  - apply H2; reflexivity.
  - apply H4.
  - apply (H5 "aws.s3.sync" "aws"); [discriminate | reflexivity].
  - apply H9; reflexivity.
Defined.

End PolicyFacts.

(* ===================================================================== *)
(** ** The RBAC engine                                                    *)
(* ===================================================================== *)

Module RbacFacts.
Import Core Rbac.

#[local] Arguments String.append !_ _ : simpl nomatch.

(** The role table is fixed at construction. *)
Lemma reachable_permissions (e : Engine) :
  reachable e -> permissions e = permissions NewEngine.
Proof.
  induction 1 as [|e username role teams _ IH|e enabled' _ IH];
    [reflexivity | exact IH | exact IH].
Qed.

Lemma default_viewer :
  permissions NewEngine !! RoleViewer =
  Some {| Permission_AllowedRiskLevels := [RiskLow];
          Permission_AllowedCategories := [];
          Permission_AllowedEnvironments := ["staging"; "dev"];
          Permission_AllowedSkillPatterns := [];
          Permission_DenySkillPatterns := [];
          Permission_CanApprove := false;
          Permission_CanManagePolicies := false;
          Permission_CanManageUsers := false |}.
Proof. vm_compute. reflexivity. Qed.

Lemma default_superadmin :
  permissions NewEngine !! RoleSuperAdmin =
  Some {| Permission_AllowedRiskLevels :=
            [RiskLow; RiskMedium; RiskHigh; RiskCritical];
          Permission_AllowedCategories := [];
          Permission_AllowedEnvironments := [];
          Permission_AllowedSkillPatterns := [];
          Permission_DenySkillPatterns := [];
          Permission_CanApprove := true;
          Permission_CanManagePolicies := true;
          Permission_CanManageUsers := true |}.
Proof. vm_compute. reflexivity. Qed.

Section WithUnicode.
Variable U : Strings.Unicode.

(** Neither environment of a viewer is production, in any case and
    whatever the Unicode tables. *)
Lemma viewer_not_production :
  containsStr U ["staging"; "dev"] "production" = false.
Proof. reflexivity. Qed.

(** C5. Under the default role table: a viewer is denied every skill
    of risk Medium or higher and every skill in the environment
    production; a superadmin is allowed a Critical skill in production;
    a user the table does not know is denied with a reason; and once
    RBAC is disabled every request is allowed. *)
Theorem default_role_table (e : Engine) :
  reachable e ->
  (forall username user skill env,
      enabled e = true ->
      users e !! username = Some user ->
      User_Role user = RoleViewer ->
      RiskMedium <= Skill_RiskLevel skill \/ env = "production" ->
      fst (CanExecute U e username skill env) = false) /\
  (forall username user skill,
      users e !! username = Some user ->
      User_Role user = RoleSuperAdmin ->
      Skill_RiskLevel skill = RiskCritical ->
      CanExecute U e username skill "production" = (true, "")) /\
  (forall username skill env,
      enabled e = true ->
      users e !! username = None ->
      fst (CanExecute U e username skill env) = false /\
      snd (CanExecute U e username skill env) <> "") /\
  (forall username skill env,
      enabled e = false ->
      CanExecute U e username skill env = (true, "")).
Proof.
  intros Hreach. pose proof (reachable_permissions e Hreach) as Hperm.
  repeat apply conj.
  - intros username user skill env Hen Huser Hrole Hcase.
    unfold CanExecute, GetUser.
    rewrite Hen, Huser, Hperm, Hrole, default_viewer.
    cbn [negb Permission_AllowedRiskLevels Permission_AllowedEnvironments
         containsRisk existsb length Nat.ltb Nat.leb andb].
    destruct (RiskLow =? Skill_RiskLevel skill) eqn:Hrisk;
      cbn [orb negb]; [|reflexivity].
    apply Z.eqb_eq in Hrisk.
    destruct Hcase as [Hmed | ->].
    + unfold RiskLow, RiskMedium in *. lia.
    + rewrite viewer_not_production. reflexivity.
  - intros username user skill Huser Hrole Hrisk.
    unfold CanExecute, GetUser.
    destruct (enabled e); [|reflexivity].
    rewrite Huser, Hperm, Hrole, default_superadmin, Hrisk.
    reflexivity.
  - intros username skill env Hen Huser.
    unfold CanExecute, GetUser. rewrite Hen, Huser.
    split; [reflexivity | discriminate].
  - intros username skill env Hen.
    unfold CanExecute. rewrite Hen. reflexivity.
Qed.
End WithUnicode.

Lemma default_role_table_witness :
  fst (CanExecute Examples.plainUnicode Examples.rbacEngine "viewer1"
                  Examples.ec2Scale "staging") = false /\
  fst (CanExecute Examples.plainUnicode Examples.rbacEngine "viewer1"
                  Examples.ec2List "production") = false /\
  CanExecute Examples.plainUnicode Examples.rbacEngine "super1"
             Examples.terraformApply "production" = (true, "") /\
  fst (CanExecute Examples.plainUnicode Examples.rbacEngine "nobody"
                  Examples.ec2List "staging") = false /\
  CanExecute Examples.plainUnicode (SetEnabled Examples.rbacEngine false)
             "nobody" Examples.terraformApply "production" = (true, "").
Proof.
  assert (Hreach : reachable Examples.rbacEngine)
    by (repeat constructor).
  destruct (default_role_table Examples.plainUnicode Examples.rbacEngine Hreach)
    as (Hviewer & Hsuper & Hunknown & _).
  destruct (default_role_table Examples.plainUnicode
              (SetEnabled Examples.rbacEngine false)
              (reachable_set _ false Hreach))
    as (_ & _ & _ & Hoff).
  split; [|split; [|split; [|split]]].
  - eapply Hviewer; [reflexivity | vm_compute; reflexivity | reflexivity |].
    left. vm_compute. discriminate.
  - eapply Hviewer; [reflexivity | vm_compute; reflexivity | reflexivity |].
    right. reflexivity.
  - eapply Hsuper; [vm_compute; reflexivity | reflexivity | reflexivity].
  - apply Hunknown; [reflexivity | vm_compute; reflexivity].
  - apply Hoff. reflexivity.
Defined.

End RbacFacts.

(* ===================================================================== *)
(** ** The executor                                                       *)
(* ===================================================================== *)

Module ExecutorFacts.
Import Core Executor.

Lemma hasConfirmation_spec (e : CLIExecutor) (params : Params) :
  hasConfirmation e params = true <->
  param_get params "_confirmed" = Some (VBool true).
Proof.
  unfold hasConfirmation, param_get. destruct params as [m|].
  - destruct (m !! "_confirmed") as [[[|]| | |]|];
      split; intros H; first [reflexivity | discriminate H].
  - split; discriminate.
Qed.

Lemma hasForce_spec (e : CLIExecutor) (params : Params) :
  hasForce e params = true <->
  param_get params "_force" = Some (VBool true).
Proof.
  unfold hasForce, param_get. destruct params as [m|].
  - destruct (m !! "_force") as [[[|]| | |]|];
      split; intros H; first [reflexivity | discriminate H].
  - split; discriminate.
Qed.

(** The executor decides on the intrinsic risk alone. *)
Lemma shouldDryRun_risk (e : CLIExecutor) (skill : Skill) :
  shouldDryRun e skill = (RiskHigh <=? Skill_RiskLevel skill).
Proof. unfold shouldDryRun. cbn. apply andb_true_r. Qed.

(** The shell is always [sh]: the name tested is the literal ["os"]. *)
Lemma isWindows_false (U : Strings.Unicode) : isWindows U = false.
Proof. reflexivity. Qed.

Section WithOS.
Variable U : Strings.Unicode.
Variable os : OS.

(** Interpolating a command runs nothing. *)
Lemma interpolateCommand_runs_nothing (e : CLIExecutor) (template : string)
      (params : Params) (w : World) :
  commands_run (snd (interpolateCommand os e template params w)) =
  commands_run w.
Proof.
  unfold interpolateCommand, bind, range_params, ret.
  destruct params; reflexivity.
Qed.

Lemma awaitingConfirmation_Some (e : CLIExecutor) (skill : Skill)
      (params : Params) (env : string) (l : Safety.Layer) :
  safetyLayer e = Some l ->
  SafetyReport_RequiresConfirmation (Safety.Evaluate U l skill params env) = true ->
  param_get params "_confirmed" <> Some (VBool true) ->
  awaitingConfirmation U e skill params env =
  Some (Safety.Evaluate U l skill params env).
Proof.
  intros Hl Hreq Hconf. unfold awaitingConfirmation.
  rewrite Hl. cbv zeta. rewrite Hreq.
  destruct (hasConfirmation e params) eqn:E; [|reflexivity].
  apply hasConfirmation_spec in E. contradiction.
Qed.

(** A request passes the safety check exactly when there is no safety
    layer, or its report asks for no confirmation, or the parameters
    carry [_confirmed = true]. *)
Lemma awaitingConfirmation_None (e : CLIExecutor) (skill : Skill)
      (params : Params) (env : string) :
  awaitingConfirmation U e skill params env = None <->
  (forall l, safetyLayer e = Some l ->
             SafetyReport_RequiresConfirmation
               (Safety.Evaluate U l skill params env) = true ->
             param_get params "_confirmed" = Some (VBool true)).
Proof.
  unfold awaitingConfirmation. destruct (safetyLayer e) as [l|].
  - cbv zeta.
    destruct (SafetyReport_RequiresConfirmation _) eqn:Hreq,
      (hasConfirmation e params) eqn:Hconf; cbn [andb negb]; split;
      intros H; try reflexivity; try discriminate H.
    + intros l' _ _. apply (hasConfirmation_spec e), Hconf.
    + specialize (H l eq_refl Hreq).
      apply (hasConfirmation_spec e) in H. congruence.
    + intros l' _ H'. destruct l, l'. congruence.
    + intros l' _ H'. destruct l, l'. congruence.
  - split; [intros _ l H; discriminate H | reflexivity].
Qed.

(** C3. When the safety report of the request requires a confirmation
    and the parameters do not hold [_confirmed] with the boolean
    [true], [Execute] stops in the pending state, its message carries
    the confirmation prompt of the report, and no command is run. *)
Theorem confirmation_gate (e : CLIExecutor) (ctx : Context) (l : Safety.Layer)
        (skill : Skill) (params : Params) (env : string) (w : World) :
  safetyLayer e = Some l ->
  SafetyReport_RequiresConfirmation (Safety.Evaluate U l skill params env) = true ->
  param_get params "_confirmed" <> Some (VBool true) ->
  ExecutionResult_Status (fst (Execute U os e ctx skill params env w)) = StatusPending /\
  ExecutionResult_Message (fst (Execute U os e ctx skill params env w)) =
    "Action requires confirmation: " ++
    SafetyReport_ConfirmationPrompt (Safety.Evaluate U l skill params env) /\
  commands_run (snd (Execute U os e ctx skill params env w)) = commands_run w.
Proof.
  intros Hl Hreq Hconf.
  pose proof (awaitingConfirmation_Some e skill params env l Hl Hreq Hconf) as H.
  unfold Execute, bind, time_Now. rewrite H.
  repeat apply conj; reflexivity.
Qed.
(** C4, as the code has it. A request that passes the safety check
    ends as a dry run, with the interpolated command returned under
    [command] and nothing run, whenever the global dry-run mode is set,
    and whenever the intrinsic risk of the skill is High or above and
    the parameters carry no [_force = true]. With the global mode off
    and an intrinsic risk below High the result is no dry run, whatever
    the safety layer recommends: the interpolated command is handed to
    [sh -c], the result carries the standard output of that call, and
    the command is run unless the process could not be started. *)
Theorem dry_run_gate (e : CLIExecutor) (ctx : Context) (skill : Skill)
        (params : Params) (env : string) (w : World) :
  awaitingConfirmation U e skill params env = None ->
  let template := ExecutionConfig_Command (Skill_Execution skill) in
  let result := fst (Execute U os e ctx skill params env w) in
  let w' := snd (Execute U os e ctx skill params env w) in
  (dryRun e = true \/
   (RiskHigh <= Skill_RiskLevel skill /\
    param_get params "_force" <> Some (VBool true)) ->
   ExecutionResult_Status result = StatusDryRun /\
   commands_run w' = commands_run w /\
   exists w1,
     ExecutionResult_Output result !! "command" =
     Some (OStr (fst (interpolateCommand os e template params w1)))) /\
  (dryRun e = false /\ Skill_RiskLevel skill < RiskHigh ->
   ExecutionResult_Status result <> StatusDryRun /\
   exists w1 cmdCtx,
     let command := fst (interpolateCommand os e template params w1) in
     let ran := run_process os "sh" ["-c"; command] (workDir e) cmdCtx in
     ExecutionResult_Output result !! "stdout" = Some (OStr (fst (fst ran))) /\
     commands_run w' =
     match snd ran with
     | StartError _ => commands_run w
     | NoError | ExitError _ _ | OtherError _ =>
         (commands_run w ++ [command])%list
     end).
Proof.
  intros Hpass template result w'. subst result w'.
  unfold Execute, bind, time_Now. rewrite Hpass.
  rewrite shouldDryRun_risk. fold template.
  split.
  - intros Hdry.
    assert (Hgo : dryRun e || (RiskHigh <=? Skill_RiskLevel skill) = true).
    { destruct Hdry as [->|[Hrisk _]]; [reflexivity|].
      apply orb_true_iff. right. now apply Z.leb_le. }
    rewrite Hgo.
    set (w0 := {| clock_reads := S (clock_reads w);
                  map_ranges := map_ranges w;
                  commands_run := commands_run w |}).
    pose proof (interpolateCommand_runs_nothing e template params w0) as H1.
    destruct (interpolateCommand os e template params w0) as [shown w1].
    pose proof (interpolateCommand_runs_nothing e template params w1) as H2.
    split; [|split].
    + destruct (interpolateCommand os e template params w1). reflexivity.
    + destruct (interpolateCommand os e template params w1) as [c w2].
      cbn in *. congruence.
    + exists w1.
      destruct (interpolateCommand os e template params w1) as [c w2].
      unfold time_Since, bind, time_Now, ret.
      cbn [fst ExecutionResult_Output].
      rewrite lookup_insert_ne by discriminate.
      now rewrite lookup_insert_eq.
  - intros [Hdry Hrisk].
    assert (Hgo : dryRun e || (RiskHigh <=? Skill_RiskLevel skill) = false).
    { rewrite Hdry. cbn [orb]. apply Z.leb_gt. exact Hrisk. }
    rewrite Hgo.
    set (w0 := {| clock_reads := S (clock_reads w);
                  map_ranges := map_ranges w;
                  commands_run := commands_run w |}).
    pose proof (interpolateCommand_runs_nothing e template params w0) as H1.
    destruct (interpolateCommand os e template params w0) as [command w1] eqn:E.
    unfold context_WithTimeout, bind, time_Now, ret, runCommand.
    rewrite isWindows_false.
    set (cmdCtx := {| Context_Deadline := _ |}).
    destruct (run_process os "sh" ["-c"; command] (workDir e) cmdCtx)
      as [[stdout stderr] err] eqn:R.
    split.
    + destruct err; cbn; discriminate.
    + exists w0, cmdCtx. rewrite E. cbn [fst]. rewrite R. cbn [fst snd].
      split.
      * destruct err; unfold time_Since, bind, time_Now, ret;
          cbn [fst ExecutionResult_Output];
          rewrite !lookup_insert_ne by discriminate;
          now rewrite lookup_insert_eq.
      * destruct err; cbn in *; now rewrite H1.
Qed.
End WithOS.

Lemma confirmation_gate_witness :
  ExecutionResult_Status
    (fst (Execute Examples.plainUnicode Examples.quietOS
            (NewCLIExecutor (Some Safety.mkLayer) false) Background
            Examples.terraformApply None "production" fresh))
  = StatusPending /\
  commands_run
    (snd (Execute Examples.plainUnicode Examples.quietOS
            (NewCLIExecutor (Some Safety.mkLayer) false) Background
            Examples.terraformApply None "production" fresh))
  = [].
Proof.
  destruct (confirmation_gate Examples.plainUnicode Examples.quietOS
              (NewCLIExecutor (Some Safety.mkLayer) false) Background
              Safety.mkLayer Examples.terraformApply None "production" fresh)
    as (H1 & _ & H3).
  - reflexivity.
  - reflexivity.
  - discriminate.
  - split; [exact H1 | exact H3].
Defined.

Lemma dry_run_gate_witness :
  ExecutionResult_Status
    (fst (Execute Examples.plainUnicode Examples.quietOS
            (NewCLIExecutor (Some Safety.mkLayer) true) Background
            Examples.ec2List None "staging" fresh))
  = StatusDryRun /\
  ExecutionResult_Status
    (fst (Execute Examples.plainUnicode Examples.quietOS
            (NewCLIExecutor (Some Safety.mkLayer) false) Background
            Examples.ec2List None "staging" fresh))
  <> StatusDryRun /\
  ExecutionResult_Status
    (fst (Execute Examples.plainUnicode Examples.quietOS
            (NewCLIExecutor (Some Safety.mkLayer) false) Background
            Examples.terraformApply Examples.confirmed "staging" fresh))
  = StatusDryRun /\
  commands_run
    (snd (Execute Examples.plainUnicode Examples.brokenOS
            (SetWorkDir (NewCLIExecutor None false) "/nowhere") Background
            Examples.ec2List None "staging" fresh))
  = [].
Proof.
  split; [|split; [|split]].
  - apply (dry_run_gate Examples.plainUnicode Examples.quietOS
             (NewCLIExecutor (Some Safety.mkLayer) true) Background
             Examples.ec2List None "staging" fresh eq_refl).
    left. reflexivity.
  - apply (dry_run_gate Examples.plainUnicode Examples.quietOS
             (NewCLIExecutor (Some Safety.mkLayer) false) Background
             Examples.ec2List None "staging" fresh eq_refl).
    split; [reflexivity | vm_compute; reflexivity].
  - apply (dry_run_gate Examples.plainUnicode Examples.quietOS
             (NewCLIExecutor (Some Safety.mkLayer) false) Background
             Examples.terraformApply Examples.confirmed "staging" fresh eq_refl).
    right. split; [vm_compute; discriminate | vm_compute; discriminate].
  - destruct (dry_run_gate Examples.plainUnicode Examples.brokenOS
                (SetWorkDir (NewCLIExecutor None false) "/nowhere") Background
                Examples.ec2List None "staging" fresh eq_refl)
      as [_ H].
    destruct H as [_ (w1 & cmdCtx & _ & H)].
    + split; [reflexivity | vm_compute; reflexivity].
    + exact H.
Defined.

(** C4 does not hold as stated. The skill aws.ec2.scale has
    intrinsic risk Medium and asks for no confirmation; in staging the
    request passes the safety check, the safety layer recommends a dry
    run (the name holds the keyword scale), no [_force] is given and the
    global dry-run mode is off: a dry run is expected, and the executor
    runs the command. *)
Lemma dry_run_gate_counterexample :
  let e := NewCLIExecutor (Some Safety.mkLayer) false in
  let report :=
    Safety.Evaluate Examples.plainUnicode Safety.mkLayer
                    Examples.ec2Scale None "staging" in
  let outcome :=
    Execute Examples.plainUnicode Examples.quietOS e Background
            Examples.ec2Scale None "staging" fresh in
  awaitingConfirmation Examples.plainUnicode e Examples.ec2Scale None "staging"
    = None /\
  SafetyReport_DryRunRecommended report = true /\
  hasForce e None = false /\
  commands_run (snd outcome) =
    ["aws autoscaling set-desired-capacity --desired-capacity {desired_capacity}"] /\
  ~ (ExecutionResult_Status (fst outcome) = StatusDryRun <->
     dryRun e = true \/
     (SafetyReport_DryRunRecommended report = true /\ hasForce e None = false)).
Proof.
  cbv zeta. split; [reflexivity|]. split; [reflexivity|].
  split; [reflexivity|]. split; [reflexivity|].
  intros [_ H].
  assert (Hdry : ExecutionResult_Status
                   (fst (Execute Examples.plainUnicode Examples.quietOS
                           (NewCLIExecutor (Some Safety.mkLayer) false) Background
                           Examples.ec2Scale None "staging" fresh))
                 = StatusDryRun)
    by (apply H; right; split; reflexivity).
  vm_compute in Hdry. discriminate Hdry.
Qed.

End ExecutorFacts.

(* ===================================================================== *)
(** ** More on the risk scale                                             *)
(* ===================================================================== *)

Module RiskProps.
Import Core.

#[local] Arguments String.append !_ _ : simpl nomatch.

(** X1. [ParseRiskLevel] succeeds exactly on the names of the four levels:
    it returns a level without error exactly when that level is one of
    the four and the string is its name; every other string gives
    [RiskLow] together with an error that quotes the string. *)
Theorem parse_success_iff (s : string) (level : RiskLevel) :
  (ParseRiskLevel s = (level, None) <->
   In level [RiskLow; RiskMedium; RiskHigh; RiskCritical] /\
   RiskLevel_String level = s) /\
  (snd (ParseRiskLevel s) <> None ->
   ParseRiskLevel s = (RiskLow, Some ("unknown risk level: " ++ s))).
Proof.
  unfold ParseRiskLevel.
  destruct (String.eqb_spec s "LOW") as [->|H1].
  { split; [|intros H; now destruct H]. split.
    - intros [= <-]. split; [simpl; auto | reflexivity].
    - intros [[<-|[<-|[<-|[<-|[]]]]] H]; first [reflexivity | discriminate H]. }
  destruct (String.eqb_spec s "MEDIUM") as [->|H2].
  { split; [|intros H; now destruct H]. split.
    - intros [= <-]. split; [simpl; auto | reflexivity].
    - intros [[<-|[<-|[<-|[<-|[]]]]] H]; first [reflexivity | discriminate H]. }
  destruct (String.eqb_spec s "HIGH") as [->|H3].
  { split; [|intros H; now destruct H]. split.
    - intros [= <-]. split; [simpl; auto | reflexivity].
    - intros [[<-|[<-|[<-|[<-|[]]]]] H]; first [reflexivity | discriminate H]. }
  destruct (String.eqb_spec s "CRITICAL") as [->|H4].
  { split; [|intros H; now destruct H]. split.
    - intros [= <-]. split; [simpl; auto | reflexivity].
    - intros [[<-|[<-|[<-|[<-|[]]]]] H]; first [reflexivity | discriminate H]. }
  split; [|reflexivity]. split.
  - intros H. discriminate H.
  - intros [[<-|[<-|[<-|[<-|[]]]]] H]; exfalso; cbn in H; congruence.
Qed.

Lemma parse_success_iff_witness :
  RiskLevel_String RiskMedium = "MEDIUM" /\
  ParseRiskLevel "Medium" = (RiskLow, Some "unknown risk level: Medium").
Proof.
  split.
  - apply (proj1 (parse_success_iff "MEDIUM" RiskMedium)). reflexivity.
  - apply (proj2 (parse_success_iff "Medium" RiskLow)). discriminate.
Defined.

(** X2. Outside the four levels every integer prints as UNKNOWN, a name
    that does not parse; inside them the names are pairwise distinct. *)
Theorem unknown_levels (r : RiskLevel) :
  (RiskLevel_String r = "UNKNOWN" <-> r < RiskLow \/ RiskCritical < r) /\
  (r < RiskLow \/ RiskCritical < r ->
   snd (ParseRiskLevel (RiskLevel_String r)) <> None) /\
  (forall r' : RiskLevel,
      RiskLow <= r <= RiskCritical ->
      RiskLevel_String r = RiskLevel_String r' -> r = r').
Proof.
  unfold RiskLevel_String, RiskLow, RiskMedium, RiskHigh, RiskCritical.
  destruct (Z.eqb_spec r 0) as [->|H0];
    [|destruct (Z.eqb_spec r 1) as [->|H1];
      [|destruct (Z.eqb_spec r 2) as [->|H2];
        [|destruct (Z.eqb_spec r 3) as [->|H3]]]].
  1-4: split; [split; [discriminate | lia] | split; [lia|]];
    intros r' _;
    destruct (Z.eqb_spec r' 0) as [->|?]; [first [reflexivity | discriminate]|];
    destruct (Z.eqb_spec r' 1) as [->|?]; [first [reflexivity | discriminate]|];
    destruct (Z.eqb_spec r' 2) as [->|?]; [first [reflexivity | discriminate]|];
    destruct (Z.eqb_spec r' 3) as [->|?]; [first [reflexivity | discriminate]|];
    discriminate.
  split; [split; [lia | reflexivity] | split; [discriminate | lia]].
Qed.

Lemma unknown_levels_witness :
  RiskLevel_String 7 = "UNKNOWN" /\
  snd (ParseRiskLevel (RiskLevel_String 7)) <> None.
Proof.
  destruct (unknown_levels 7) as (H1 & H2 & _).
  split.
  - apply H1. right. reflexivity.
  - apply H2. right. reflexivity.
Defined.

End RiskProps.

(* ===================================================================== *)
(** ** More on the safety layer                                           *)
(* ===================================================================== *)

Module SafetyProps.
Import Core Safety.

#[local] Arguments String.append !_ _ : simpl nomatch.

(** The prompt of each risk level, read off the switch. *)
Lemma prompt_cases (l : Layer) (r : RiskLevel) :
  (r = RiskLow /\ getConfirmationPrompt l r = "") \/
  (r <> RiskLow /\ exists rest, getConfirmationPrompt l r = "Type " ++ rest).
Proof.
  unfold getConfirmationPrompt.
  destruct (Z.eqb_spec r RiskLow) as [->|H]; [left; now split|].
  right. split; [exact H|].
  destruct (r =? RiskMedium); [eexists; reflexivity|].
  destruct (r =? RiskHigh); [eexists; reflexivity|].
  destruct (r =? RiskCritical); eexists; reflexivity.
Qed.

(** X3. The prompt is empty for the level Low and for no other integer;
    so every level that requires a confirmation (Medium and above) has a
    prompt to show. *)
Theorem prompt_empty_iff_low (l : Layer) (r : RiskLevel) :
  (getConfirmationPrompt l r = "" <-> r = RiskLow) /\
  (RequiresConfirmation l r = true -> getConfirmationPrompt l r <> "").
Proof.
  destruct (prompt_cases l r) as [[-> H]|[Hne [rest H]]]; rewrite H.
  - split; [now split | discriminate].
  - split; [split; [discriminate | contradiction] | discriminate].
Qed.

Lemma prompt_empty_iff_low_witness :
  getConfirmationPrompt mkLayer RiskHigh <> "".
Proof.
  apply (proj2 (prompt_empty_iff_low mkLayer RiskHigh)). reflexivity.
Defined.

Lemma map_bytes_app (f : ascii -> ascii) (s t : string) :
  Strings.map_bytes f (s ++ t) = Strings.map_bytes f s ++ Strings.map_bytes f t.
Proof. induction s as [|c s IH]; simpl; [reflexivity | now rewrite IH]. Qed.

(** Lower-casing a string lower-cases its substrings. *)
Lemma occurs_in_lower (sub s : string) :
  Strings.occurs_in sub s ->
  Strings.occurs_in (Strings.map_bytes Strings.lower_byte sub)
                    (Strings.map_bytes Strings.lower_byte s).
Proof.
  intros (pre & post & ->). rewrite !map_bytes_app.
  now exists (Strings.map_bytes Strings.lower_byte pre),
             (Strings.map_bytes Strings.lower_byte post).
Qed.

(** A pattern occurs in every string in which a longer one occurs. *)
Lemma occurs_in_inner (a sub b s : string) :
  Strings.occurs_in (a ++ sub ++ b) s -> Strings.occurs_in sub s.
Proof.
  intros (pre & post & ->). exists (pre ++ a), (b ++ post).
  now rewrite !StringFacts.app_assoc.
Qed.

(** The affected resources, written without the loop. *)
Lemma affected_fold (params : Params) (keys : list string) (acc : list string) :
  fold_left
    (fun (resources : list string) key =>
       match param_get params key with
       | Some val => (resources ++ [(key ++ "=" ++ format_v val)%string])%list
       | None => resources
       end) keys acc =
  (acc ++ omap (fun key : string =>
                  (fun val => (key ++ "=" ++ format_v val)%string)
                  <$> param_get params key) keys)%list.
Proof.
  revert acc. induction keys as [|key keys IH]; intros acc; cbn [fold_left omap].
  - now rewrite app_nil_r.
  - rewrite IH. destruct (param_get params key) eqn:E; cbn; rewrite E; cbn.
    + now rewrite <- app_assoc.
    + reflexivity.
Qed.

Lemma omap_length_le {A B} (f : A -> option B) (l : list A) :
  (length (omap f l) <= length l)%nat.
Proof.
  induction l as [|a l IH]; cbn; [lia|]. destruct (f a); cbn; lia.
Qed.

(** X6. The affected resources start with the line
    [provider/category resources], followed by one [key=value] line for
    each resource key the parameters hold, in the fixed order of the
    keys: between one and thirteen lines, and the first alone when the
    parameters are [nil]. *)
Theorem affected_resources_shape (l : Layer) (skill : Skill) (params : Params) :
  identifyAffectedResources l skill params =
  (Skill_Provider skill ++ "/" ++ Skill_Category skill ++ " resources") ::
  omap (fun key => (fun val => key ++ "=" ++ format_v val)
                   <$> param_get params key) resourceKeys /\
  (1 <= length (identifyAffectedResources l skill params) <= 13)%nat /\
  (params = None ->
   identifyAffectedResources l skill params =
   [Skill_Provider skill ++ "/" ++ Skill_Category skill ++ " resources"]).
Proof.
  unfold identifyAffectedResources. cbv zeta. rewrite affected_fold.
  cbn [app]. split; [reflexivity|]. split.
  - cbn [length].
    pose proof (omap_length_le
      (fun key => (fun val => key ++ "=" ++ format_v val)
                  <$> param_get params key) resourceKeys) as H.
    change (length resourceKeys) with 12%nat in H. lia.
  - intros ->. reflexivity.
Qed.

Lemma affected_resources_shape_witness :
  identifyAffectedResources mkLayer Examples.ec2List None =
  ["aws/compute resources"].
Proof.
  apply (proj2 (proj2 (affected_resources_shape mkLayer Examples.ec2List None))).
  reflexivity.
Defined.

Section WithUnicode.
Variable U : Strings.Unicode.

(** Outside production nothing is recognised. *)
Lemma isProductionEnvironment_not (l : Layer) (env : string) :
  Strings.all_ascii env = true ->
  ~ In (Strings.map_bytes Strings.lower_byte env) ["production"; "prod"; "prd"] ->
  isProductionEnvironment U l env = false.
Proof.
  intros Hascii Hnot. unfold isProductionEnvironment.
  rewrite (StringFacts.ToLower_ascii U env Hascii).
  destruct (String.eqb_spec (Strings.map_bytes Strings.lower_byte env) "production")
    as [E|_]; [exfalso; apply Hnot; rewrite E; simpl; auto|].
  destruct (String.eqb_spec (Strings.map_bytes Strings.lower_byte env) "prod")
    as [E|_]; [exfalso; apply Hnot; rewrite E; simpl; auto|].
  destruct (String.eqb_spec (Strings.map_bytes Strings.lower_byte env) "prd")
    as [E|_]; [exfalso; apply Hnot; rewrite E; simpl; auto|].
  reflexivity.
Qed.

(** X4. An ASCII environment that is not production, prod or prd in some
    letter case changes nothing: the report keeps the risk and the
    confirmation flag of the skill and carries no warning. *)
Theorem non_production_unchanged (l : Layer) (skill : Skill) (params : Params)
        (env : string) :
  Strings.all_ascii env = true ->
  ~ In (Strings.map_bytes Strings.lower_byte env) ["production"; "prod"; "prd"] ->
  SafetyReport_RiskLevel (Evaluate U l skill params env) = Skill_RiskLevel skill /\
  SafetyReport_RequiresConfirmation (Evaluate U l skill params env) =
    Skill_RequiresConfirmation skill /\
  SafetyReport_EnvironmentWarning (Evaluate U l skill params env) = "" /\
  SafetyReport_ConfirmationPrompt (Evaluate U l skill params env) =
    getConfirmationPrompt l (Skill_RiskLevel skill).
Proof.
  intros Hascii Hnot.
  pose proof (isProductionEnvironment_not l env Hascii Hnot) as H.
  rewrite SafetyFacts.Evaluate_ConfirmationPrompt,
    SafetyFacts.Evaluate_RiskLevel, SafetyFacts.Evaluate_RequiresConfirmation,
    SafetyFacts.Evaluate_EnvironmentWarning, H.
  repeat apply conj; reflexivity.
Qed.

(** X5. In production the risk of the report is the larger of High and
    the risk of the skill, and the prompt, taken from that final risk, is
    never empty: a Low skill gets the prompt of High. *)
Theorem production_prompt (l : Layer) (skill : Skill) (params : Params)
        (env : string) :
  In (Strings.map_bytes Strings.lower_byte env) ["production"; "prod"; "prd"] ->
  SafetyReport_RiskLevel (Evaluate U l skill params env) =
    Z.max RiskHigh (Skill_RiskLevel skill) /\
  SafetyReport_ConfirmationPrompt (Evaluate U l skill params env) =
    getConfirmationPrompt l (Z.max RiskHigh (Skill_RiskLevel skill)) /\
  SafetyReport_ConfirmationPrompt (Evaluate U l skill params env) <> "".
Proof.
  intros H.
  assert (Hrisk : SafetyReport_RiskLevel (Evaluate U l skill params env) =
                  Z.max RiskHigh (Skill_RiskLevel skill)).
  { rewrite SafetyFacts.Evaluate_RiskLevel,
      (SafetyFacts.isProductionEnvironment_any_case U l env H).
    destruct (Skill_RiskLevel skill <? RiskHigh) eqn:E.
    - apply Z.ltb_lt in E. lia.
    - apply Z.ltb_ge in E. lia. }
  rewrite SafetyFacts.Evaluate_ConfirmationPrompt, Hrisk.
  split; [reflexivity|]. split; [reflexivity|].
  intros Hempty.
  destruct (prompt_cases l (Z.max RiskHigh (Skill_RiskLevel skill)))
    as [[Hlow _]|[_ [rest Hrest]]].
  - unfold RiskHigh, RiskLow in Hlow. lia.
  - rewrite Hrest in Hempty. discriminate Hempty.
Qed.

(** X7. Every skill that the blast-radius table treats as mutating is
    recommended a dry run: when .deploy, .upgrade, .scale,
    terraform.apply, .sync or .migrate occurs in an ASCII skill name, in
    any letter case of the rest of the name, [DryRunRecommended] is set. *)
Theorem mutating_names_recommend_dry_run (l : Layer) (skill : Skill)
        (params : Params) (env : string) :
  Strings.all_ascii (Skill_Name skill) = true ->
  Exists (fun pat => Strings.occurs_in pat (Skill_Name skill))
         [".deploy"; ".upgrade"; ".scale"; "terraform.apply"; ".sync"; ".migrate"] ->
  SafetyReport_DryRunRecommended (Evaluate U l skill params env) = true.
Proof.
  intros Hascii H. rewrite SafetyFacts.Evaluate_DryRunRecommended.
  unfold shouldDryRun.
  rewrite (StringFacts.ToLower_ascii U _ Hascii).
  set (name := Strings.map_bytes Strings.lower_byte (Skill_Name skill)).
  assert (Hcases :
    Strings.occurs_in "deploy" name \/ Strings.occurs_in "upgrade" name \/
    Strings.occurs_in "scale" name \/ Strings.occurs_in "apply" name \/
    Strings.occurs_in "sync" name \/ Strings.occurs_in "migrate" name).
  { repeat rewrite Exists_cons in H. rewrite Exists_nil in H.
    destruct H as [H|[H|[H|[H|[H|[H|[]]]]]]];
      apply occurs_in_lower in H; fold name in H.
    - left. exact (occurs_in_inner "." "deploy" "" name H).
    - right; left. exact (occurs_in_inner "." "upgrade" "" name H).
    - do 2 right; left. exact (occurs_in_inner "." "scale" "" name H).
    - do 3 right; left. exact (occurs_in_inner "terraform." "apply" "" name H).
    - do 4 right; left. exact (occurs_in_inner "." "sync" "" name H).
    - do 5 right. exact (occurs_in_inner "." "migrate" "" name H). }
  unfold destructiveKeywords. cbn [existsb].
  repeat rewrite <- StringFacts.Contains_spec in Hcases.
  destruct Hcases as [E|[E|[E|[E|[E|E]]]]]; rewrite E;
    repeat rewrite orb_true_r; reflexivity.
Qed.
End WithUnicode.

Lemma non_production_unchanged_witness :
  SafetyReport_RiskLevel
    (Evaluate Examples.plainUnicode mkLayer Examples.ec2Scale None "Staging")
  = RiskMedium.
Proof.
  apply (non_production_unchanged Examples.plainUnicode mkLayer Examples.ec2Scale
           None "Staging").
  - reflexivity.
  - simpl. intros [H|[H|[H|[]]]]; discriminate H.
Defined.

Lemma production_prompt_witness :
  SafetyReport_ConfirmationPrompt
    (Evaluate Examples.plainUnicode mkLayer Examples.ec2List None "PRD") <> "".
Proof.
  apply (production_prompt Examples.plainUnicode mkLayer Examples.ec2List
           None "PRD").
  simpl. right. right. left. reflexivity.
Defined.

Lemma mutating_names_recommend_dry_run_witness :
  SafetyReport_DryRunRecommended
    (Evaluate Examples.plainUnicode mkLayer Examples.s3Sync None "staging") = true.
Proof.
  apply (mutating_names_recommend_dry_run Examples.plainUnicode mkLayer
           Examples.s3Sync None "staging").
  - reflexivity.
  - do 4 apply Exists_cons_tl. apply Exists_cons_hd.
    exists "aws.s3", "". reflexivity.
Defined.

End SafetyProps.

(* ===================================================================== *)
(** ** More on the policy engine                                          *)
(* ===================================================================== *)

Module PolicyProps.
Import Core Policy.

#[local] Arguments String.append !_ _ : simpl nomatch.

(** Splitting the elements that pass [f] by a second test loses none. *)
Lemma filter_split_length {A} (f g : A -> bool) (l : list A) :
  (length (List.filter (fun x => f x && g x) l) +
   length (List.filter (fun x => f x && negb (g x)) l) =
   length (List.filter f l))%nat.
Proof.
  induction l as [|a l IH]; cbn [List.filter length]; [reflexivity|].
  destruct (f a), (g a); cbn [andb negb length]; lia.
Qed.

Section Loop.
Variable U : Strings.Unicode.
Variable clock : nat -> Z.
Variables (e : Engine) (skill : Skill) (params : Params) (env : string).

Let step := Evaluate_step U clock e skill params env.

Let triggered (p : Policy) : bool :=
  policyApplies U e p skill env && fst (Policy_CheckFunc p skill params env).

(** Whether a triggered policy denies: always under the mode deny, never
    under the mode warn, by its own enforcement under any other mode. *)
Let denies (p : Policy) : bool :=
  String.eqb (enforcementMode e) EnforcementDeny ||
  (negb (String.eqb (enforcementMode e) EnforcementWarn) &&
   String.eqb (Policy_Enforcement p) EnforcementDeny).

(** The record of a triggered policy, stamped with the [k]-th reading. *)
Let record (p : Policy) (k : nat) : Violation :=
  {| Violation_PolicyName := Policy_Name p;
     Violation_Description := Policy_Description p;
     Violation_Severity := Policy_Severity p;
     Violation_Enforcement := Policy_Enforcement p;
     Violation_Reason := snd (Policy_CheckFunc p skill params env);
     Violation_SkillName := Skill_Name skill;
     Violation_Environment := env;
     Violation_Timestamp := clock k |}.

(** One iteration, for every mode. *)
Lemma step_general (st : eval_state) (p : Policy) :
  step st p =
  if triggered p then
    if denies p then
      ({| EvaluationResult_Passed := false;
          EvaluationResult_Violations :=
            EvaluationResult_Violations (fst st) ++ [record p (snd st)];
          EvaluationResult_Warnings := EvaluationResult_Warnings (fst st);
          EvaluationResult_Denied := true |}, S (snd st))
    else
      ({| EvaluationResult_Passed := EvaluationResult_Passed (fst st);
          EvaluationResult_Violations := EvaluationResult_Violations (fst st);
          EvaluationResult_Warnings :=
            EvaluationResult_Warnings (fst st) ++ [record p (snd st)];
          EvaluationResult_Denied := EvaluationResult_Denied (fst st) |},
       S (snd st))
  else st.
Proof.
  unfold step, triggered, denies, record, Evaluate_step.
  destruct st as [result reads].
  destruct (policyApplies U e p skill env); [|reflexivity].
  destruct (Policy_CheckFunc p skill params env) as [[|] reason];
    [|reflexivity].
  cbn [negb fst snd andb].
  destruct (String.eqb (enforcementMode e) EnforcementDeny); [reflexivity|].
  destruct (String.eqb (enforcementMode e) EnforcementWarn); [reflexivity|].
  cbn [orb negb andb].
  destruct (String.eqb (Policy_Enforcement p) EnforcementDeny); reflexivity.
Qed.

(** The loop, for every mode and from any state: which policies end in
    which list, and how often the clock is read. *)
Lemma loop_general (ps : list Policy) (st : eval_state) :
  let st' := fold_left step ps st in
  map Violation_PolicyName (EvaluationResult_Violations (fst st')) =
  (map Violation_PolicyName (EvaluationResult_Violations (fst st)) ++
   map Policy_Name (List.filter (fun p => triggered p && denies p) ps))%list /\
  map Violation_PolicyName (EvaluationResult_Warnings (fst st')) =
  (map Violation_PolicyName (EvaluationResult_Warnings (fst st)) ++
   map Policy_Name (List.filter (fun p => triggered p && negb (denies p)) ps))%list /\
  snd st' = (snd st + length (List.filter triggered ps))%nat.
Proof.
  revert st. induction ps as [|p ps IH]; intros st;
    cbn [fold_left List.filter].
  - cbn. rewrite !app_nil_r. repeat split. symmetry. apply Nat.add_0_r.
  - specialize (IH (step st p)). cbv zeta in IH.
    destruct IH as (H1 & H2 & H3). rewrite H1, H2, H3.
    rewrite step_general. destruct st as [result reads].
    destruct (triggered p); cbn [andb]; [|repeat split; reflexivity].
    destruct (denies p); cbn [negb fst snd length map app
      EvaluationResult_Violations EvaluationResult_Warnings];
      rewrite ?map_app, <- ?app_assoc; cbn [map app];
      repeat split; try reflexivity; lia.
Qed.

(** X8. For every global mode, each triggered policy is recorded exactly
    once, as a violation or as a warning, in registration order: nothing
    is dropped and no rule stops the ones after it. *)
Theorem every_triggered_policy_recorded :
  let result := Evaluate U clock e skill params env in
  map Violation_PolicyName (EvaluationResult_Violations result) =
    map Policy_Name (List.filter (fun p => triggered p && denies p) (policies e)) /\
  map Violation_PolicyName (EvaluationResult_Warnings result) =
    map Policy_Name
        (List.filter (fun p => triggered p && negb (denies p)) (policies e)) /\
  (length (EvaluationResult_Violations result) +
   length (EvaluationResult_Warnings result) =
   length (List.filter triggered (policies e)))%nat.
Proof.
  cbv zeta. unfold Evaluate. fold step.
  destruct (loop_general (policies e)
    ({| EvaluationResult_Passed := true;
        EvaluationResult_Violations := [];
        EvaluationResult_Warnings := [];
        EvaluationResult_Denied := false |}, 0%nat)) as (H1 & H2 & _).
  cbn [fst EvaluationResult_Violations EvaluationResult_Warnings map app]
    in H1, H2.
  split; [exact H1|]. split; [exact H2|].
  rewrite <- (length_map Violation_PolicyName
                (EvaluationResult_Violations _)), H1.
  rewrite <- (length_map Violation_PolicyName
                (EvaluationResult_Warnings _)), H2.
  rewrite !length_map. apply filter_split_length.
Qed.

(** X9. A global mode that is neither warn nor deny (an engine built from
    an empty or misspelt setting) leaves each rule its own enforcement:
    the violations are the triggered rules declared deny, the warnings
    the other triggered rules. *)
Theorem unset_mode_uses_rule_enforcement :
  enforcementMode e <> EnforcementWarn ->
  enforcementMode e <> EnforcementDeny ->
  let result := Evaluate U clock e skill params env in
  map Violation_PolicyName (EvaluationResult_Violations result) =
    map Policy_Name
        (List.filter
           (fun p => triggered p &&
                     String.eqb (Policy_Enforcement p) EnforcementDeny)
           (policies e)) /\
  map Violation_PolicyName (EvaluationResult_Warnings result) =
    map Policy_Name
        (List.filter
           (fun p => triggered p &&
                     negb (String.eqb (Policy_Enforcement p) EnforcementDeny))
           (policies e)).
Proof.
  intros Hwarn Hdeny. cbv zeta. unfold Evaluate. fold step.
  destruct (loop_general (policies e)
    ({| EvaluationResult_Passed := true;
        EvaluationResult_Violations := [];
        EvaluationResult_Warnings := [];
        EvaluationResult_Denied := false |}, 0%nat)) as (H1 & H2 & _).
  cbn [fst EvaluationResult_Violations EvaluationResult_Warnings map app]
    in H1, H2.
  rewrite H1, H2.
  assert (Hd : forall p, denies p =
                         String.eqb (Policy_Enforcement p) EnforcementDeny).
  { intros p. unfold denies.
    apply String.eqb_neq in Hwarn. apply String.eqb_neq in Hdeny.
    now rewrite Hwarn, Hdeny. }
  split; f_equal; apply filter_ext; intros p; now rewrite Hd.
Qed.

(** What every record says of the request and of its policy. *)
Let describes (bound : nat) (v : Violation) : Prop :=
  Violation_SkillName v = Skill_Name skill /\
  Violation_Environment v = env /\
  (exists k, (k < bound)%nat /\ Violation_Timestamp v = clock k) /\
  exists p, In p (policies e) /\ triggered p = true /\
            Violation_PolicyName v = Policy_Name p /\
            Violation_Description v = Policy_Description p /\
            Violation_Severity v = Policy_Severity p /\
            Violation_Enforcement v = Policy_Enforcement p /\
            Violation_Reason v = snd (Policy_CheckFunc p skill params env).

Lemma describes_mono (n m : nat) (v : Violation) :
  (n <= m)%nat -> describes n v -> describes m v.
Proof.
  intros Hle (H1 & H2 & (k & Hk & H3) & H4).
  repeat split; try assumption. exists k. split; [lia | exact H3].
Qed.

Lemma loop_describes (ps : list Policy) (st : eval_state) :
  (forall p, In p ps -> In p (policies e)) ->
  Forall (describes (snd st))
         (EvaluationResult_Violations (fst st) ++
          EvaluationResult_Warnings (fst st)) ->
  Forall (describes (snd (fold_left step ps st)))
         (EvaluationResult_Violations (fst (fold_left step ps st)) ++
          EvaluationResult_Warnings (fst (fold_left step ps st))).
Proof.
  revert st. induction ps as [|p ps IH]; intros st Hin H; [exact H|].
  cbn [fold_left]. apply IH; [intros q Hq; apply Hin; now right|].
  rewrite step_general. destruct (triggered p) eqn:Ht; [|exact H].
  assert (Hrec : describes (S (snd st)) (record p (snd st))).
  { repeat split. exists (snd st). split; [lia | reflexivity].
    exists p. repeat split; [apply Hin; now left | exact Ht]. }
  assert (Hold : Forall (describes (S (snd st)))
                        (EvaluationResult_Violations (fst st) ++
                         EvaluationResult_Warnings (fst st))).
  { eapply List.Forall_impl; [|exact H].
    intros v. apply describes_mono. lia. }
  apply Forall_app in Hold as [HV HW].
  assert (Hone : Forall (describes (S (snd st))) [record p (snd st)])
    by (constructor; [exact Hrec | constructor]).
  destruct (denies p); cbn [fst snd EvaluationResult_Violations
                            EvaluationResult_Warnings].
  - apply Forall_app. split; [|exact HW].
    apply Forall_app. split; [exact HV | exact Hone].
  - apply Forall_app. split; [exact HV|].
    apply Forall_app. split; [exact HW | exact Hone].
Qed.

(** X10. Every record, violation or warning, names the skill and the
    environment of the request and copies name, description, severity and
    enforcement from a registered policy that was triggered, with the
    reason its check gave. The enforcement recorded is the rule's own,
    also when the global mode decided otherwise; the timestamp is one of
    the clock readings taken, one per record. *)
Theorem records_describe_request :
  let result := Evaluate U clock e skill params env in
  Forall
    (fun v =>
       Violation_SkillName v = Skill_Name skill /\
       Violation_Environment v = env /\
       (exists k,
           (k < length (EvaluationResult_Violations result) +
                length (EvaluationResult_Warnings result))%nat /\
           Violation_Timestamp v = clock k) /\
       exists p, In p (policies e) /\ triggered p = true /\
                 Violation_PolicyName v = Policy_Name p /\
                 Violation_Description v = Policy_Description p /\
                 Violation_Severity v = Policy_Severity p /\
                 Violation_Enforcement v = Policy_Enforcement p /\
                 Violation_Reason v = snd (Policy_CheckFunc p skill params env))
    (EvaluationResult_Violations result ++ EvaluationResult_Warnings result).
Proof.
  cbv zeta. unfold Evaluate. fold step.
  set (st0 := ({| EvaluationResult_Passed := true;
                  EvaluationResult_Violations := [];
                  EvaluationResult_Warnings := [];
                  EvaluationResult_Denied := false |}, 0%nat)).
  pose proof (loop_describes (policies e) st0 (fun p H => H)
                             (List.Forall_nil _)) as H.
  destruct (loop_general (policies e) st0) as (H1 & H2 & H3).
  assert (Hn : snd (fold_left step (policies e) st0) =
               (length (EvaluationResult_Violations
                          (fst (fold_left step (policies e) st0))) +
                length (EvaluationResult_Warnings
                          (fst (fold_left step (policies e) st0))))%nat).
  { rewrite H3.
    rewrite <- (length_map Violation_PolicyName
                  (EvaluationResult_Violations _)), H1.
    rewrite <- (length_map Violation_PolicyName
                  (EvaluationResult_Warnings _)), H2.
    cbn [fst snd st0 EvaluationResult_Violations EvaluationResult_Warnings
         map app]. rewrite !length_map.
    symmetry. apply filter_split_length. }
  rewrite Hn in H. exact H.
Qed.


(** Under the mode deny a registered policy that is triggered denies the
    request and is named among the violations. *)
Lemma deny_mode_denies (p : Policy) :
  enforcementMode e = EnforcementDeny ->
  In p (policies e) ->
  triggered p = true ->
  let result := Evaluate U clock e skill params env in
  EvaluationResult_Denied result = true /\
  EvaluationResult_Passed result = false /\
  In (Policy_Name p)
     (map Violation_PolicyName (EvaluationResult_Violations result)).
Proof.
  intros Hmode Hin Ht. cbv zeta. unfold Evaluate. fold step.
  set (st0 := ({| EvaluationResult_Passed := true;
                  EvaluationResult_Violations := [];
                  EvaluationResult_Warnings := [];
                  EvaluationResult_Denied := false |}, 0%nat)).
  destruct (loop_general (policies e) st0) as (H1 & _ & _).
  cbn [fst st0 EvaluationResult_Violations map app] in H1.
  assert (Hname : In (Policy_Name p)
                     (map Violation_PolicyName
                        (EvaluationResult_Violations
                           (fst (fold_left step (policies e) st0))))).
  { rewrite H1. apply in_map, filter_In. split; [exact Hin|].
    rewrite Ht. unfold denies. now rewrite Hmode. }
  destruct (PolicyFacts.loop_well_formed U clock e skill params env
              (policies e) st0) as [Hp Hd].
  { split; [reflexivity|]. cbn. split; [discriminate | congruence]. }
  fold step in Hp, Hd.
  assert (Hden : EvaluationResult_Denied
                   (fst (fold_left step (policies e) st0)) = true).
  { apply Hd. intros Hnil. rewrite Hnil in Hname. exact Hname. }
  split; [exact Hden|]. split; [|exact Hname].
  rewrite Hp, Hden. reflexivity.
Qed.
End Loop.

Section Builtins.
Variable U : Strings.Unicode.
Variable clock : nat -> Z.

(** X12. The rule no_public_s3 applies to the skills whose name starts
    with [aws.s3.], in every environment, and is violated exactly when
    the parameter acl renders as public-read or public-read-write. Every
    engine in mode deny that holds the rule then denies the request and
    names the rule among its violations. *)
Theorem public_acl_rule (e : Engine) (skill : Skill) (params : Params)
        (env : string) :
  let public :=
    exists acl, param_get params "acl" = Some acl /\
                (format_v acl = "public-read" \/
                 format_v acl = "public-read-write") in
  (fst (Policy_CheckFunc noPublicS3Policy skill params env) = true <-> public) /\
  (policyApplies U e noPublicS3Policy skill env = true <->
   exists rest, Skill_Name skill = "aws.s3." ++ rest) /\
  (enforcementMode e = EnforcementDeny ->
   In noPublicS3Policy (policies e) ->
   (exists rest, Skill_Name skill = "aws.s3." ++ rest) ->
   public ->
   EvaluationResult_Denied (Evaluate U clock e skill params env) = true /\
   EvaluationResult_Passed (Evaluate U clock e skill params env) = false /\
   In "no_public_s3"
      (map Violation_PolicyName
           (EvaluationResult_Violations (Evaluate U clock e skill params env)))).
Proof.
  intros public.
  assert (Hcheck :
    fst (Policy_CheckFunc noPublicS3Policy skill params env) = true <-> public).
  { subst public. cbn [Policy_CheckFunc noPublicS3Policy]. unfold param_get.
    destruct params as [m|]; [|split; [discriminate | intros (? & H & _); discriminate H]].
    destruct (m !! "acl") as [acl|];
      [|split; [discriminate | intros (? & H & _); discriminate H]].
    destruct (String.eqb_spec (format_v acl) "public-read") as [E1|E1];
      [split; [intros _; exists acl; auto | reflexivity]|].
    destruct (String.eqb_spec (format_v acl) "public-read-write") as [E2|E2];
      [split; [intros _; exists acl; auto | reflexivity]|].
    split; [discriminate|].
    intros (acl' & [= <-] & [H|H]); contradiction. }
  assert (Happ : policyApplies U e noPublicS3Policy skill env = true <->
                 exists rest, Skill_Name skill = "aws.s3." ++ rest).
  { rewrite PolicyFacts.policyApplies_spec.
    cbn [Policy_AppliesTo Policy_Environments noPublicS3Policy].
    rewrite Exists_cons, Exists_nil.
    change "aws.s3.*" with ("aws.s3" ++ ".*").
    rewrite PolicyFacts.matchSkillPattern_dot_star, StringFacts.HasPrefix_spec.
    split.
    - intros [[H|[H|[]]] _]; [discriminate H | exact H].
    - intros H. split; [right; left; exact H | left; reflexivity]. }
  split; [exact Hcheck|]. split; [exact Happ|].
  intros Hmode Hin Hname Hpub.
  apply (deny_mode_denies U clock e skill params env noPublicS3Policy Hmode Hin).
  apply andb_true_iff. split; [now apply Happ | now apply Hcheck].
Qed.

(** X13. The rule require_peer_review applies to terraform.apply,
    k8s.deploy and aws.secrets.rotate, by their exact names, in the
    environments production and prod in any letter case (not prd), and is
    violated exactly when the risk of the skill is Critical or above and
    the parameters hold no [_peer_reviewer]. Every engine in mode deny
    that holds the rule then denies the request and names the rule. *)
Theorem peer_review_rule (e : Engine) (skill : Skill) (params : Params)
        (env : string) :
  let named :=
    In (Skill_Name skill) ["terraform.apply"; "k8s.deploy"; "aws.secrets.rotate"] in
  let production :=
    In (Strings.map_bytes Strings.lower_byte env) ["production"; "prod"] in
  (fst (Policy_CheckFunc requirePeerReviewPolicy skill params env) = true <->
   RiskCritical <= Skill_RiskLevel skill /\
   param_get params "_peer_reviewer" = None) /\
  (Strings.all_ascii env = true ->
   (policyApplies U e requirePeerReviewPolicy skill env = true <->
    named /\ production)) /\
  (enforcementMode e = EnforcementDeny ->
   In requirePeerReviewPolicy (policies e) ->
   named -> production ->
   RiskCritical <= Skill_RiskLevel skill ->
   param_get params "_peer_reviewer" = None ->
   EvaluationResult_Denied (Evaluate U clock e skill params env) = true /\
   EvaluationResult_Passed (Evaluate U clock e skill params env) = false /\
   In "require_peer_review"
      (map Violation_PolicyName
           (EvaluationResult_Violations (Evaluate U clock e skill params env)))).
Proof.
  intros named production.
  assert (Hcheck :
    fst (Policy_CheckFunc requirePeerReviewPolicy skill params env) = true <->
    RiskCritical <= Skill_RiskLevel skill /\
    param_get params "_peer_reviewer" = None).
  { cbn [Policy_CheckFunc requirePeerReviewPolicy]. unfold param_get.
    destruct (Z.leb_spec RiskCritical (Skill_RiskLevel skill)) as [Hr|Hr].
    - destruct params as [m|]; [|split; [now split | reflexivity]].
      destruct (m !! "_peer_reviewer");
        [split; [discriminate | intros [_ H]; discriminate H]
        |split; [now split | reflexivity]].
    - split; [discriminate | intros [H _]; lia]. }
  assert (Happ : Strings.all_ascii env = true ->
                 (policyApplies U e requirePeerReviewPolicy skill env = true <->
                  named /\ production)).
  { intros Hascii. rewrite PolicyFacts.policyApplies_spec.
    cbn [Policy_AppliesTo Policy_Environments requirePeerReviewPolicy].
    subst named production.
    repeat rewrite Exists_cons. rewrite !Exists_nil.
    rewrite !(PolicyFacts.matchSkillPattern_exact (Skill_Name skill))
      by reflexivity.
    rewrite !String.eqb_eq.
    rewrite !(StringFacts.EqualFold_ascii U _ env) by (reflexivity || exact Hascii).
    rewrite !String.eqb_eq.
    cbn [In Strings.map_bytes]. 
    change (Strings.map_bytes Strings.lower_byte "production") with "production".
    change (Strings.map_bytes Strings.lower_byte "prod") with "prod".
    split.
    - intros [[H|H] [H'|H']]; try discriminate H; try discriminate H'.
      split; [intuition congruence | intuition congruence].
    - intros [H H']. split; right; intuition congruence. }
  split; [exact Hcheck|]. split; [exact Happ|].
  intros Hmode Hin Hname Hprod Hrisk Hnone.
  assert (Hascii : Strings.all_ascii env = true).
  { rewrite <- StringFacts.all_ascii_lower.
    subst production. simpl in Hprod.
    destruct Hprod as [<-|[<-|[]]]; reflexivity. }
  apply (deny_mode_denies U clock e skill params env requirePeerReviewPolicy
           Hmode Hin).
  apply andb_true_iff. split; [now apply Happ | now apply Hcheck].
Qed.

(** X14. The rule max_blast_radius applies to every skill in every
    environment and is violated exactly when the parameter
    [_resource_count] is an integer above 50: 50 itself passes, and a
    count given as text is not looked at. Every engine in mode deny that
    holds the rule then denies the request and names the rule. *)
Theorem blast_radius_rule (e : Engine) (skill : Skill) (params : Params)
        (env : string) :
  let too_many :=
    exists c, param_get params "_resource_count" = Some (VInt c) /\ 50 < c in
  (fst (Policy_CheckFunc maxBlastRadiusPolicy skill params env) = true <->
   too_many) /\
  policyApplies U e maxBlastRadiusPolicy skill env = true /\
  (enforcementMode e = EnforcementDeny ->
   In maxBlastRadiusPolicy (policies e) ->
   too_many ->
   EvaluationResult_Denied (Evaluate U clock e skill params env) = true /\
   EvaluationResult_Passed (Evaluate U clock e skill params env) = false /\
   In "max_blast_radius"
      (map Violation_PolicyName
           (EvaluationResult_Violations (Evaluate U clock e skill params env)))).
Proof.
  intros too_many.
  assert (Hcheck :
    fst (Policy_CheckFunc maxBlastRadiusPolicy skill params env) = true <->
    too_many).
  { subst too_many. cbn [Policy_CheckFunc maxBlastRadiusPolicy].
    unfold param_get.
    destruct params as [m|];
      [|split; [discriminate | intros (? & H & _); discriminate H]].
    destruct (m !! "_resource_count") as [[b|c|t|t]|];
      try (split; [discriminate | intros (? & H & _); discriminate H]).
    destruct (Z.ltb_spec 50 c) as [Hc|Hc].
    - split; [intros _; now exists c | reflexivity].
    - split; [discriminate | intros (c' & [= <-] & H); lia]. }
  split; [exact Hcheck|]. split; [reflexivity|].
  intros Hmode Hin Hmany.
  apply (deny_mode_denies U clock e skill params env maxBlastRadiusPolicy
           Hmode Hin).
  apply andb_true_iff. split; [reflexivity | now apply Hcheck].
Qed.

(** X15. The rule enforce_encryption applies to the skills whose name
    starts with [aws.s3.], [gcp.gcs.] or [azure.blob.], in every
    environment, and is violated exactly when the parameter encryption
    renders as none or as false (the boolean [false] included). Every
    engine in mode deny that holds the rule then denies the request and
    names the rule. *)
Theorem encryption_rule (e : Engine) (skill : Skill) (params : Params)
        (env : string) :
  let storage :=
    Exists (fun prefix => exists rest, Skill_Name skill = prefix ++ rest)
           ["aws.s3."; "gcp.gcs."; "azure.blob."] in
  let unencrypted :=
    exists v, param_get params "encryption" = Some v /\
              (format_v v = "none" \/ format_v v = "false") in
  (fst (Policy_CheckFunc enforceEncryptionPolicy skill params env) = true <->
   unencrypted) /\
  (policyApplies U e enforceEncryptionPolicy skill env = true <-> storage) /\
  (enforcementMode e = EnforcementDeny ->
   In enforceEncryptionPolicy (policies e) ->
   storage -> unencrypted ->
   EvaluationResult_Denied (Evaluate U clock e skill params env) = true /\
   EvaluationResult_Passed (Evaluate U clock e skill params env) = false /\
   In "enforce_encryption"
      (map Violation_PolicyName
           (EvaluationResult_Violations (Evaluate U clock e skill params env)))).
Proof.
  intros storage unencrypted.
  assert (Hcheck :
    fst (Policy_CheckFunc enforceEncryptionPolicy skill params env) = true <->
    unencrypted).
  { subst unencrypted. cbn [Policy_CheckFunc enforceEncryptionPolicy].
    unfold param_get.
    destruct params as [m|];
      [|split; [discriminate | intros (? & H & _); discriminate H]].
    destruct (m !! "encryption") as [v|];
      [|split; [discriminate | intros (? & H & _); discriminate H]].
    destruct (String.eqb_spec (format_v v) "none") as [E1|E1];
      [split; [intros _; exists v; auto | reflexivity]|].
    destruct (String.eqb_spec (format_v v) "false") as [E2|E2];
      [split; [intros _; exists v; auto | reflexivity]|].
    split; [discriminate|].
    intros (v' & [= <-] & [H|H]); contradiction. }
  assert (Happ : policyApplies U e enforceEncryptionPolicy skill env = true <->
                 storage).
  { rewrite PolicyFacts.policyApplies_spec. subst storage.
    cbn [Policy_AppliesTo Policy_Environments enforceEncryptionPolicy].
    repeat rewrite Exists_cons. rewrite !Exists_nil.
    change "aws.s3.*" with ("aws.s3" ++ ".*").
    change "gcp.gcs.*" with ("gcp.gcs" ++ ".*").
    change "azure.blob.*" with ("azure.blob" ++ ".*").
    rewrite !PolicyFacts.matchSkillPattern_dot_star, !StringFacts.HasPrefix_spec.
    split.
    - intros [[H|H] _]; [discriminate H | exact H].
    - intros H. split; [right; exact H | left; reflexivity]. }
  split; [exact Hcheck|]. split; [exact Happ|].
  intros Hmode Hin Hname Hun.
  apply (deny_mode_denies U clock e skill params env enforceEncryptionPolicy
           Hmode Hin).
  apply andb_true_iff. split; [now apply Happ | now apply Hcheck].
Qed.
End Builtins.

Lemma every_triggered_policy_recorded_witness :
  map Violation_PolicyName
    (EvaluationResult_Violations
       (Evaluate Examples.plainUnicode Examples.policyClock Examples.unsetEngine
                 Examples.s3Sync Examples.publicAcl "staging"))
  = ["no_public_s3"] /\
  map Violation_PolicyName
    (EvaluationResult_Warnings
       (Evaluate Examples.plainUnicode Examples.policyClock Examples.unsetEngine
                 Examples.s3Sync Examples.publicAcl "staging"))
  = ["note_everything"].
Proof.
  destruct (every_triggered_policy_recorded Examples.plainUnicode
              Examples.policyClock Examples.unsetEngine Examples.s3Sync
              Examples.publicAcl "staging") as (H1 & H2 & _).
  split; [exact H1 | exact H2].
Defined.

Lemma unset_mode_uses_rule_enforcement_witness :
  map Violation_PolicyName
    (EvaluationResult_Violations
       (Evaluate Examples.plainUnicode Examples.policyClock Examples.unsetEngine
                 Examples.s3Sync Examples.publicAcl "staging"))
  = ["no_public_s3"] /\
  map Violation_PolicyName
    (EvaluationResult_Warnings
       (Evaluate Examples.plainUnicode Examples.policyClock Examples.unsetEngine
                 Examples.s3Sync Examples.publicAcl "staging"))
  = ["note_everything"].
Proof.
  apply (unset_mode_uses_rule_enforcement Examples.plainUnicode
           Examples.policyClock Examples.unsetEngine Examples.s3Sync
           Examples.publicAcl "staging"); discriminate.
Defined.

Lemma records_describe_request_witness :
  Forall (fun v => Violation_SkillName v = "aws.s3.sync" /\
                   Violation_Environment v = "staging")
    (EvaluationResult_Violations
       (Evaluate Examples.plainUnicode Examples.policyClock Examples.unsetEngine
                 Examples.s3Sync Examples.publicAcl "staging") ++
     EvaluationResult_Warnings
       (Evaluate Examples.plainUnicode Examples.policyClock Examples.unsetEngine
                 Examples.s3Sync Examples.publicAcl "staging")).
Proof.
  eapply List.Forall_impl;
    [|apply (records_describe_request Examples.plainUnicode
               Examples.policyClock Examples.unsetEngine Examples.s3Sync
               Examples.publicAcl "staging")].
  intros v (H1 & H2 & _). split; [exact H1 | exact H2].
Defined.


Lemma public_acl_rule_witness :
  EvaluationResult_Passed
    (Evaluate Examples.plainUnicode Examples.policyClock
              Examples.builtinDenyEngine Examples.s3Sync Examples.publicAcl
              "staging") = false.
Proof.
  apply (public_acl_rule Examples.plainUnicode Examples.policyClock
           Examples.builtinDenyEngine Examples.s3Sync Examples.publicAcl
           "staging").
  - reflexivity.
  - simpl. auto.
  - exists "sync". reflexivity.
  - exists (VStr "public-read"). split; [reflexivity | left; reflexivity].
Defined.

Lemma peer_review_rule_witness :
  In "require_peer_review"
     (map Violation_PolicyName
        (EvaluationResult_Violations
           (Evaluate Examples.plainUnicode Examples.policyClock
                     Examples.builtinDenyEngine Examples.terraformApply None
                     "Production"))).
Proof.
  apply (peer_review_rule Examples.plainUnicode Examples.policyClock
           Examples.builtinDenyEngine Examples.terraformApply None "Production").
  - reflexivity.
  - simpl. auto.
  - simpl. auto.
  - simpl. auto.
  - vm_compute. discriminate.
  - reflexivity.
Defined.

Lemma blast_radius_rule_witness :
  EvaluationResult_Denied
    (Evaluate Examples.plainUnicode Examples.policyClock
              Examples.builtinDenyEngine Examples.ec2List
              (Some {[ "_resource_count" := VInt 51 ]}) "dev") = true.
Proof.
  apply (blast_radius_rule Examples.plainUnicode Examples.policyClock
           Examples.builtinDenyEngine Examples.ec2List
           (Some {[ "_resource_count" := VInt 51 ]}) "dev").
  - reflexivity.
  - simpl. auto.
  - exists 51. split; reflexivity.
Defined.

Lemma encryption_rule_witness :
  EvaluationResult_Denied
    (Evaluate Examples.plainUnicode Examples.policyClock
              Examples.builtinDenyEngine Examples.s3Sync
              (Some {[ "encryption" := VBool false ]}) "dev") = true.
Proof.
  apply (encryption_rule Examples.plainUnicode Examples.policyClock
           Examples.builtinDenyEngine Examples.s3Sync
           (Some {[ "encryption" := VBool false ]}) "dev").
  - reflexivity.
  - simpl. auto.
  - apply Exists_cons_hd. exists "sync". reflexivity.
  - exists (VBool false). split; [reflexivity | right; reflexivity].
Defined.

End PolicyProps.

(* ===================================================================== *)
(** ** More on the RBAC engine                                            *)
(* ===================================================================== *)

Module RbacProps.
Import Core Rbac.

#[local] Arguments String.append !_ _ : simpl nomatch.

(** X16. Adding a user and reading it back: the user just added is found
    with the role and teams given, replacing any earlier entry of that
    name; every other name reads as before; and a name the table does not
    hold gives an error that quotes it. *)
Theorem add_then_get (e : Engine) (username : string) (role : Role)
        (teams : list string) :
  GetUser (AddUser e username role teams) username =
    (Some {| User_Username := username; User_Role := role; User_Teams := teams |},
     None) /\
  (forall other, other <> username ->
                 GetUser (AddUser e username role teams) other = GetUser e other) /\
  (forall name, users e !! name = None ->
                GetUser e name = (None, Some ("user not found: " ++ name))).
Proof.
  unfold GetUser, AddUser. cbn [users]. repeat apply conj.
  - now rewrite lookup_insert_eq.
  - intros other Hne. now rewrite lookup_insert_ne by congruence.
  - intros name ->. reflexivity.
Qed.

Lemma add_then_get_witness :
  GetUser (AddUser (AddUser NewEngine "ann" RoleViewer []) "bob" RoleAdmin [])
          "ann" =
  GetUser (AddUser NewEngine "ann" RoleViewer []) "ann" /\
  GetUser NewEngine "ann" = (None, Some "user not found: ann").
Proof.
  split.
  - apply (proj1 (proj2 (add_then_get (AddUser NewEngine "ann" RoleViewer [])
                                      "bob" RoleAdmin []))).
    discriminate.
  - apply (proj2 (proj2 (add_then_get NewEngine "x" RoleViewer []))).
    reflexivity.
Defined.

(** X21. The pattern matcher of the RBAC engine and the one of the policy
    engine, written differently, agree on every name and pattern. *)
Theorem patterns_agree (name pattern : string) :
  matchPattern name pattern = Policy.matchSkillPattern name pattern.
Proof.
  unfold matchPattern, Policy.matchSkillPattern.
  destruct (String.eqb pattern "*"); [reflexivity|].
  destruct (Strings.HasSuffix pattern ".*") eqn:E; [|reflexivity].
  rewrite (StringFacts.HasSuffix_dot_star pattern E).
  apply StringFacts.HasSuffix_spec in E as [pre ->].
  rewrite StringFacts.TrimSuffix_app.
  change ".*" with ("." ++ "*").
  rewrite <- StringFacts.app_assoc, StringFacts.TrimSuffix_app.
  reflexivity.
Qed.

(** The rows of the default role table, by role name. *)
Lemma default_table (role : Role) (perm : Permission) :
  permissions NewEngine !! role = Some perm ->
  Permission_DenySkillPatterns perm = [] /\
  ((role = RoleViewer /\
    Permission_AllowedRiskLevels perm = [RiskLow] /\
    Permission_AllowedEnvironments perm = ["staging"; "dev"] /\
    Permission_CanApprove perm = false) \/
   (role = RoleOperator /\
    Permission_AllowedRiskLevels perm = [RiskLow; RiskMedium] /\
    Permission_AllowedEnvironments perm = ["staging"; "dev"; "qa"] /\
    Permission_CanApprove perm = false) \/
   (role = RoleAdmin /\
    Permission_AllowedRiskLevels perm = [RiskLow; RiskMedium; RiskHigh] /\
    Permission_AllowedEnvironments perm = ["staging"; "dev"; "qa"; "production"] /\
    Permission_CanApprove perm = true) \/
   (role = RoleSuperAdmin /\
    Permission_AllowedRiskLevels perm =
      [RiskLow; RiskMedium; RiskHigh; RiskCritical] /\
    Permission_AllowedEnvironments perm = [] /\
    Permission_CanApprove perm = true)).
Proof.
  unfold NewEngine, loadDefaultPermissions. cbn [permissions].
  intros H.
  destruct (decide (role = RoleSuperAdmin)) as [->|H4].
  { rewrite lookup_insert_eq in H. injection H as <-.
    split; [reflexivity|]. do 3 right. repeat split. }
  rewrite lookup_insert_ne in H by congruence.
  destruct (decide (role = RoleAdmin)) as [->|H3].
  { rewrite lookup_insert_eq in H. injection H as <-.
    split; [reflexivity|]. do 2 right. left. repeat split. }
  rewrite lookup_insert_ne in H by congruence.
  destruct (decide (role = RoleOperator)) as [->|H2].
  { rewrite lookup_insert_eq in H. injection H as <-.
    split; [reflexivity|]. right. left. repeat split. }
  rewrite lookup_insert_ne in H by congruence.
  destruct (decide (role = RoleViewer)) as [->|H1].
  { rewrite lookup_insert_eq in H. injection H as <-.
    split; [reflexivity|]. left. repeat split. }
  rewrite lookup_insert_ne in H by congruence.
  rewrite lookup_empty in H. discriminate H.
Qed.

Lemma default_table_unknown (role : Role) :
  ~ In role [RoleViewer; RoleOperator; RoleAdmin; RoleSuperAdmin] ->
  permissions NewEngine !! role = None.
Proof.
  intros H. destruct (permissions NewEngine !! role) as [perm|] eqn:E;
    [|reflexivity].
  exfalso. apply H.
  destruct (default_table role perm E) as [_ [[-> _]|[[-> _]|[[-> _]|[-> _]]]]];
    simpl; auto.
Qed.

Lemma default_table_known (role : Role) :
  In role [RoleViewer; RoleOperator; RoleAdmin; RoleSuperAdmin] ->
  exists perm, permissions NewEngine !! role = Some perm.
Proof.
  simpl. intros [<-|[<-|[<-|[<-|[]]]]]; eexists; vm_compute; reflexivity.
Qed.

Lemma containsRisk_In (levels : list RiskLevel) (target : RiskLevel) :
  containsRisk levels target = true <-> In target levels.
Proof.
  unfold containsRisk. rewrite existsb_exists. split.
  - intros (l & Hin & Heq). apply Z.eqb_eq in Heq. now subst.
  - intros H. exists target. split; [exact H | apply Z.eqb_refl].
Qed.

Section WithUnicode.
Variable U : Strings.Unicode.

(** On an ASCII environment and lower-case ASCII entries, the
    environment test is membership of the lower-cased environment. *)
Lemma containsStr_ascii (items : list string) (env : string) :
  Strings.all_ascii env = true ->
  Forall (fun i => Strings.all_ascii i = true /\
                   Strings.map_bytes Strings.lower_byte i = i) items ->
  (containsStr U items env = true <->
   In (Strings.map_bytes Strings.lower_byte env) items).
Proof.
  intros Henv Hitems. unfold containsStr. rewrite existsb_exists.
  rewrite List.Forall_forall in Hitems. split.
  - intros (i & Hin & Heq). destruct (Hitems i Hin) as [Hi Hlow].
    rewrite (StringFacts.EqualFold_ascii U i env Hi Henv) in Heq.
    apply String.eqb_eq in Heq. rewrite <- Heq, Hlow. exact Hin.
  - intros Hin. exists (Strings.map_bytes Strings.lower_byte env).
    split; [exact Hin|]. destruct (Hitems _ Hin) as [Hi Hlow].
    rewrite (StringFacts.EqualFold_ascii U _ env Hi Henv), Hlow.
    apply String.eqb_refl.
Qed.

(** What [CanExecute] decides once the user and the row of its role are
    found. *)
Lemma CanExecute_found (e : Engine) (username : string) (user : User)
      (perm : Permission) (skill : Skill) (env : string) :
  enabled e = true ->
  users e !! username = Some user ->
  permissions e !! User_Role user = Some perm ->
  Permission_DenySkillPatterns perm = [] ->
  fst (CanExecute U e username skill env) =
  containsRisk (Permission_AllowedRiskLevels perm) (Skill_RiskLevel skill) &&
  ((length (Permission_AllowedEnvironments perm) =? 0)%nat ||
   containsStr U (Permission_AllowedEnvironments perm) env).
Proof.
  intros Hen Huser Hperm Hdeny. unfold CanExecute, GetUser.
  rewrite Hen, Huser, Hperm, Hdeny. cbn [negb existsb].
  destruct (containsRisk _ _); cbn [negb andb]; [|reflexivity].
  destruct (Permission_AllowedEnvironments perm) as [|a l];
    [reflexivity|].
  cbn [length Nat.ltb Nat.leb Nat.eqb andb orb].
  now destruct (containsStr U (a :: l) env).
Qed.

(** X18. The decisions of the default role table, for an enabled engine,
    a known user and an ASCII environment: a viewer is allowed exactly
    the Low skills in staging and dev; an operator Low and Medium in
    staging, dev and qa; an admin Low to High in staging, dev, qa and
    production (spelt in full: prod is refused); a superadmin the four
    levels in every environment. Environments are read up to letter case
    and the name of the skill plays no part. *)
Theorem default_decisions (e : Engine) (username : string) (user : User)
        (skill : Skill) (env : string) :
  reachable e ->
  enabled e = true ->
  users e !! username = Some user ->
  let allowed := fst (CanExecute U e username skill env) = true in
  let risk := Skill_RiskLevel skill in
  let lower := Strings.map_bytes Strings.lower_byte env in
  (Strings.all_ascii env = true ->
   (User_Role user = RoleViewer ->
    (allowed <-> risk = RiskLow /\ In lower ["staging"; "dev"])) /\
   (User_Role user = RoleOperator ->
    (allowed <-> In risk [RiskLow; RiskMedium] /\
                 In lower ["staging"; "dev"; "qa"])) /\
   (User_Role user = RoleAdmin ->
    (allowed <-> In risk [RiskLow; RiskMedium; RiskHigh] /\
                 In lower ["staging"; "dev"; "qa"; "production"]))) /\
  (User_Role user = RoleSuperAdmin ->
   (allowed <-> In risk [RiskLow; RiskMedium; RiskHigh; RiskCritical])).
Proof.
  intros Hreach Hen Huser allowed risk lower.
  pose proof (RbacFacts.reachable_permissions e Hreach) as Hperm.
  assert (Hrow : forall perm,
             permissions NewEngine !! User_Role user = Some perm ->
             Permission_DenySkillPatterns perm = [] ->
             (allowed <->
              In risk (Permission_AllowedRiskLevels perm) /\
              (Permission_AllowedEnvironments perm = [] \/
               containsStr U (Permission_AllowedEnvironments perm) env = true))).
  { intros perm Hrow Hdeny. subst allowed.
    rewrite (CanExecute_found e username user perm skill env Hen Huser)
      by (rewrite ?Hperm; assumption).
    rewrite andb_true_iff, orb_true_iff, containsRisk_In, Nat.eqb_eq.
    split; intros [H1 [H2|H2]]; split; auto.
    - left. now destruct (Permission_AllowedEnvironments perm).
    - left. now rewrite H2. }
  split.
  - intros Hascii. repeat apply conj; intros Hrole.
    + destruct (default_table_known RoleViewer) as [perm Hl]; [simpl; auto|].
      destruct (default_table _ _ Hl)
        as [Hd [(_ & Hr & He & _)|[(C & _)|[(C & _)|(C & _)]]]];
        try discriminate C.
      rewrite <- Hrole in Hl. rewrite (Hrow perm Hl Hd), Hr, He.
      rewrite containsStr_ascii
        by (try exact Hascii; repeat constructor).
      fold lower. simpl. intuition (try discriminate; auto).
    + destruct (default_table_known RoleOperator) as [perm Hl];
        [simpl; auto|].
      destruct (default_table _ _ Hl)
        as [Hd [(C & _)|[(_ & Hr & He & _)|[(C & _)|(C & _)]]]];
        try discriminate C.
      rewrite <- Hrole in Hl. rewrite (Hrow perm Hl Hd), Hr, He.
      rewrite containsStr_ascii
        by (try exact Hascii; repeat constructor).
      fold lower. simpl. intuition (try discriminate; auto).
    + destruct (default_table_known RoleAdmin) as [perm Hl]; [simpl; auto|].
      destruct (default_table _ _ Hl)
        as [Hd [(C & _)|[(C & _)|[(_ & Hr & He & _)|(C & _)]]]];
        try discriminate C.
      rewrite <- Hrole in Hl. rewrite (Hrow perm Hl Hd), Hr, He.
      rewrite containsStr_ascii
        by (try exact Hascii; repeat constructor).
      fold lower. simpl. intuition (try discriminate; auto).
  - intros Hrole.
    destruct (default_table_known RoleSuperAdmin) as [perm Hl];
      [simpl; auto 6|].
    destruct (default_table _ _ Hl)
      as [Hd [(C & _)|[(C & _)|[(C & _)|(_ & Hr & He & _)]]]];
      try discriminate C.
    rewrite <- Hrole in Hl. rewrite (Hrow perm Hl Hd), Hr, He.
    intuition.
Qed.
(** X17. [CanExecute] explains every refusal and nothing else: the
    reason is empty exactly when the request is allowed. *)
Theorem reason_iff_denied (e : Engine) (username : string) (skill : Skill)
        (env : string) :
  fst (CanExecute U e username skill env) = true <->
  snd (CanExecute U e username skill env) = "".
Proof.
  unfold CanExecute.
  destruct (enabled e); cbn [negb]; [|now split].
  destruct (GetUser e username) as [[user|] [err|]];
    try (cbn; split; intros H; discriminate H).
  destruct (permissions e !! User_Role user) as [perm|];
    [|cbn; split; intros H; discriminate H].
  destruct (negb (containsRisk _ _));
    [cbn; split; intros H; discriminate H|].
  destruct (_ && negb (containsStr U _ env));
    [cbn; split; intros H; discriminate H|].
  destruct (existsb _ _);
    [cbn; split; intros H; discriminate H|].
  now split.
Qed.

(** X19. Under the default role table a user may approve exactly when
    RBAC is disabled or the user is known and is an admin or a
    superadmin. *)
Theorem can_approve_table (e : Engine) (username : string) :
  reachable e ->
  (CanApprove e username = true <->
   enabled e = false \/
   exists user, users e !! username = Some user /\
                In (User_Role user) [RoleAdmin; RoleSuperAdmin]).
Proof.
  intros Hreach. unfold CanApprove, GetUser.
  rewrite (RbacFacts.reachable_permissions e Hreach).
  destruct (enabled e); cbn [negb]; [|split; [now left | reflexivity]].
  destruct (users e !! username) as [user|];
    [|split; [discriminate | intros [H|(? & H & _)]; discriminate H]].
  destruct (permissions NewEngine !! User_Role user) as [perm|] eqn:E.
  - destruct (default_table _ _ E)
      as [_ [(Hr & _ & _ & Ha)|[(Hr & _ & _ & Ha)|[(Hr & _ & _ & Ha)
                                                  |(Hr & _ & _ & Ha)]]]];
      rewrite Ha.
    + split; [discriminate|].
      intros [H|(u & [= <-] & H)]; [discriminate H|].
      rewrite Hr in H. simpl in H. destruct H as [H|[H|[]]]; discriminate H.
    + split; [discriminate|].
      intros [H|(u & [= <-] & H)]; [discriminate H|].
      rewrite Hr in H. simpl in H. destruct H as [H|[H|[]]]; discriminate H.
    + split; [|reflexivity]. intros _. right. exists user.
      split; [reflexivity | rewrite Hr; simpl; auto].
    + split; [|reflexivity]. intros _. right. exists user.
      split; [reflexivity | rewrite Hr; simpl; auto].
  - split; [discriminate|].
    intros [H|(u & [= <-] & H)]; [discriminate H|].
    destruct (default_table_known (User_Role user)) as [perm Hp];
      [simpl in *; tauto | congruence].
Qed.

(** X20. A user registered under a role outside the four of the table
    is refused every request, with a reason naming the role, and may not
    approve, as long as RBAC is enabled. *)
Theorem unknown_role_refused (e : Engine) (username : string) (user : User)
        (skill : Skill) (env : string) :
  reachable e ->
  enabled e = true ->
  users e !! username = Some user ->
  ~ In (User_Role user) [RoleViewer; RoleOperator; RoleAdmin; RoleSuperAdmin] ->
  CanExecute U e username skill env =
    (false, "No permissions defined for role: " ++ User_Role user) /\
  CanApprove e username = false.
Proof.
  intros Hreach Hen Huser Hrole.
  unfold CanExecute, CanApprove, GetUser.
  rewrite Hen, Huser, (RbacFacts.reachable_permissions e Hreach),
    (default_table_unknown _ Hrole).
  split; reflexivity.
Qed.
End WithUnicode.

Lemma default_decisions_witness :
  fst (CanExecute Examples.plainUnicode Examples.rbacEngine "viewer1"
                  Examples.ec2List "DEV") = true /\
  fst (CanExecute Examples.plainUnicode Examples.rbacEngine "super1"
                  Examples.terraformApply "anywhere") = true.
Proof.
  assert (Hreach : reachable Examples.rbacEngine) by (repeat constructor).
  split.
  - destruct (default_decisions Examples.plainUnicode Examples.rbacEngine
                "viewer1"
                {| User_Username := "viewer1"; User_Role := RoleViewer;
                   User_Teams := [] |}
                Examples.ec2List "DEV" Hreach eq_refl eq_refl) as [Hascii _].
    destruct (Hascii eq_refl) as (Hviewer & _ & _).
    apply (Hviewer eq_refl). split; [reflexivity | simpl; auto].
  - destruct (default_decisions Examples.plainUnicode Examples.rbacEngine
                "super1"
                {| User_Username := "super1"; User_Role := RoleSuperAdmin;
                   User_Teams := [] |}
                Examples.terraformApply "anywhere" Hreach eq_refl eq_refl)
      as [_ Hsuper].
    apply (Hsuper eq_refl). simpl. auto 6.
Defined.

Lemma reason_iff_denied_witness :
  snd (CanExecute Examples.plainUnicode Examples.rbacEngine "super1"
                  Examples.terraformApply "production") = "".
Proof.
  apply (reason_iff_denied Examples.plainUnicode Examples.rbacEngine "super1"
           Examples.terraformApply "production").
  reflexivity.
Defined.

Lemma can_approve_table_witness :
  CanApprove Examples.rbacEngine "super1" = true.
Proof.
  apply (can_approve_table Examples.rbacEngine "super1").
  - repeat constructor.
  - right. eexists. split; [reflexivity | simpl; auto].
Defined.

Lemma unknown_role_refused_witness :
  CanApprove (AddUser NewEngine "root" "root" []) "root" = false.
Proof.
  apply (unknown_role_refused Examples.plainUnicode
           (AddUser NewEngine "root" "root" []) "root"
           {| User_Username := "root"; User_Role := "root"; User_Teams := [] |}
           Examples.ec2List "dev").
  - repeat constructor.
  - reflexivity.
  - reflexivity.
  - simpl. intros [H|[H|[H|[H|[]]]]]; discriminate H.
Defined.

End RbacProps.

(* ===================================================================== *)
(** ** More on the executor                                               *)
(* ===================================================================== *)

Module ExecutorProps.
Import Core Executor.

#[local] Arguments String.append !_ _ : simpl nomatch.

(** X28. [truncate] returns a short string as it is and cuts a longer one
    to its first [maxLen] bytes followed by three dots: the result never
    has more than [maxLen + 3] bytes. *)
Theorem truncate_bound (s : string) (maxLen : nat) :
  (String.length (truncate s maxLen) <= maxLen + 3)%nat /\
  ((String.length s <= maxLen)%nat -> truncate s maxLen = s) /\
  ((maxLen < String.length s)%nat ->
   String.length (truncate s maxLen) = (maxLen + 3)%nat /\
   exists rest, s = substring 0 maxLen s ++ rest /\
                truncate s maxLen = substring 0 maxLen s ++ "...").
Proof.
  unfold truncate.
  assert (Hsub : (maxLen <= String.length s)%nat ->
                 String.length (substring 0 maxLen s) = maxLen).
  { intros H. pose proof (StringFacts.substring_split s maxLen H) as E.
    apply (f_equal String.length) in E.
    rewrite StringFacts.length_app in E.
    assert (Hrest : (String.length (substring maxLen (String.length s - maxLen) s)
                     = String.length s - maxLen)%nat).
    { clear E. revert maxLen H. induction s as [|c s IH]; intros [|n] H;
        simpl in *; try lia.
      - now rewrite StringFacts.substring_all.
      - apply IH. lia. }
    lia. }
  destruct (Nat.leb_spec (String.length s) maxLen) as [Hle|Hlt].
  - split; [lia|]. split; [reflexivity | lia].
  - rewrite StringFacts.length_app, Hsub by lia. cbn [String.length].
    split; [lia|]. split; [lia|]. intros _. split; [reflexivity|].
    exists (substring maxLen (String.length s - maxLen) s).
    split; [apply StringFacts.substring_split; lia | reflexivity].
Qed.

Lemma truncate_bound_witness :
  truncate "permission denied" 10 = "permission..." /\
  truncate "ok" 10 = "ok".
Proof.
  split.
  - destruct (proj2 (proj2 (truncate_bound "permission denied" 10)))
      as [_ (rest & _ & H)]; [simpl; lia | exact H].
  - apply (proj1 (proj2 (truncate_bound "ok" 10))). simpl. lia.
Defined.

(** A string without an opening brace holds no placeholder. *)
Lemma replace_no_brace (s key new : string) :
  ~ Strings.occurs_in "{" s ->
  ReplaceAll s ("{" ++ key ++ "}") new = s.
Proof.
  unfold ReplaceAll. induction s as [|c s IH]; intros H; [reflexivity|].
  cbn [replace_from].
  assert (Hc : Ascii.eqb c "{"%char = false).
  { apply Ascii.eqb_neq. intros ->. apply H. now exists "", s. }
  assert (Hp : Strings.HasPrefix (String c s) ("{" ++ key ++ "}") = false).
  { cbn. now rewrite Hc. }
  rewrite Hp, IH; [reflexivity|].
  intros (pre & post & ->). apply H. now exists (String c pre), post.
Qed.


Section WithOS.
Variable U : Strings.Unicode.
Variable os : OS.

(** The world after one more reading of the clock. *)
Let tick (w : World) : World :=
  {| clock_reads := S (clock_reads w);
     map_ranges := map_ranges w;
     commands_run := commands_run w |}.

Lemma interpolateCommand_clock (e : CLIExecutor) (template : string)
      (params : Params) (w : World) :
  clock_reads (snd (interpolateCommand os e template params w)) = clock_reads w.
Proof.
  unfold interpolateCommand, bind, range_params, ret.
  destruct params; reflexivity.
Qed.

(** X27. A command template without an opening brace is returned as it
    is, whatever the parameters and the order in which they are visited. *)
Theorem plain_template_unchanged (e : CLIExecutor) (template : string)
        (params : Params) (w : World) :
  ~ Strings.occurs_in "{" template ->
  fst (interpolateCommand os e template params w) = template.
Proof.
  intros H. unfold interpolateCommand, bind, ret.
  destruct (range_params os params w) as [entries w1]. cbn [fst].
  induction entries as [|[key val] entries IH]; [reflexivity|].
  cbn [fold_left]. now rewrite replace_no_brace.
Qed.

(** The three ways out of [Execute]. *)
Lemma Execute_pending (e : CLIExecutor) (ctx : Context) (skill : Skill)
      (params : Params) (env : string) (w : World) (report : SafetyReport) :
  awaitingConfirmation U e skill params env = Some report ->
  Execute U os e ctx skill params env w =
  ({| ExecutionResult_SkillName := Skill_Name skill;
      ExecutionResult_Status := StatusPending;
      ExecutionResult_Output := ∅;
      ExecutionResult_Message :=
        "Action requires confirmation: " ++
        SafetyReport_ConfirmationPrompt report;
      ExecutionResult_Duration :=
        clock os (S (clock_reads w)) - clock os (clock_reads w);
      ExecutionResult_Error := "";
      ExecutionResult_Timestamp := clock os (clock_reads w) |},
   tick (tick w)).
Proof.
  intros H. unfold Execute, bind, time_Now. rewrite H. reflexivity.
Qed.

Lemma Execute_dry (e : CLIExecutor) (ctx : Context) (skill : Skill)
      (params : Params) (env : string) (w : World) :
  awaitingConfirmation U e skill params env = None ->
  dryRun e || shouldDryRun e skill = true ->
  let template := ExecutionConfig_Command (Skill_Execution skill) in
  let first := interpolateCommand os e template params (tick w) in
  let second := interpolateCommand os e template params (snd first) in
  Execute U os e ctx skill params env w =
  ({| ExecutionResult_SkillName := Skill_Name skill;
      ExecutionResult_Status := StatusDryRun;
      ExecutionResult_Output :=
        <["params" := OParams params]> (<["command" := OStr (fst second)]> ∅);
      ExecutionResult_Message := "[DRY RUN] Would execute: " ++ fst first;
      ExecutionResult_Duration :=
        clock os (S (clock_reads w)) - clock os (clock_reads w);
      ExecutionResult_Error := "";
      ExecutionResult_Timestamp := clock os (clock_reads w) |},
   {| clock_reads := S (S (clock_reads w));
      map_ranges := map_ranges (snd second);
      commands_run := commands_run w |}).
Proof.
  intros H Hdry. cbv zeta.
  pose proof (interpolateCommand_clock e
                (ExecutionConfig_Command (Skill_Execution skill)) params
                (tick w)) as C1.
  pose proof (ExecutorFacts.interpolateCommand_runs_nothing os e
                (ExecutionConfig_Command (Skill_Execution skill)) params
                (tick w)) as R1.
  unfold Execute, bind, time_Now. rewrite H, Hdry. fold (tick w).
  destruct (interpolateCommand os e _ params (tick w)) as [shown w1].
  cbn [fst snd] in *.
  pose proof (interpolateCommand_clock e
                (ExecutionConfig_Command (Skill_Execution skill)) params w1)
    as C2.
  pose proof (ExecutorFacts.interpolateCommand_runs_nothing os e
                (ExecutionConfig_Command (Skill_Execution skill)) params w1)
    as R2.
  destruct (interpolateCommand os e _ params w1) as [command w2].
  cbn [fst snd] in *.
  unfold time_Since, bind, time_Now, ret.
  rewrite C2, C1, R2, R1. reflexivity.
Qed.

(** In the third the clock is read once more, for the deadline of the
    context the command runs under. *)
Lemma Execute_run (e : CLIExecutor) (ctx : Context) (skill : Skill)
      (params : Params) (env : string) (w : World) :
  awaitingConfirmation U e skill params env = None ->
  dryRun e || shouldDryRun e skill = false ->
  let template := ExecutionConfig_Command (Skill_Execution skill) in
  let first := interpolateCommand os e template params (tick w) in
  let command := fst first in
  let timeout :=
    if ExecutionConfig_Timeout (Skill_Execution skill) =? 0
    then 60 * 1000000000
    else ExecutionConfig_Timeout (Skill_Execution skill) in
  let d := clock os (S (clock_reads w)) + timeout in
  let cmdCtx :=
    {| Context_Deadline :=
         match Context_Deadline ctx with
         | Some cur => if cur <? d then Some cur else Some d
         | None => Some d
         end |} in
  let ran := run_process os "sh" ["-c"; command] (workDir e) cmdCtx in
  let exitCode :=
    match snd ran with
    | NoError => 0
    | ExitError code _ => code
    | StartError _ | OtherError _ => -1
    end in
  let output : gmap string output_value :=
    <["command" := OStr command]>
      (<["exit_code" := OInt exitCode]>
         (<["stderr" := OStr (snd (fst ran))]>
            (<["stdout" := OStr (fst (fst ran))]> ∅))) in
  let duration :=
    clock os (S (S (clock_reads w))) - clock os (clock_reads w) in
  Execute U os e ctx skill params env w =
  (match snd ran with
   | NoError =>
       {| ExecutionResult_SkillName := Skill_Name skill;
          ExecutionResult_Status := StatusSuccess;
          ExecutionResult_Output := output;
          ExecutionResult_Message :=
            "Completed successfully in " ++ format_duration_ms os duration;
          ExecutionResult_Duration := duration;
          ExecutionResult_Error := "";
          ExecutionResult_Timestamp := clock os (clock_reads w) |}
   | StartError msg | ExitError _ msg | OtherError msg =>
       {| ExecutionResult_SkillName := Skill_Name skill;
          ExecutionResult_Status := StatusFailed;
          ExecutionResult_Output := output;
          ExecutionResult_Message :=
            "Command failed (exit " ++ pretty exitCode ++ "): " ++
            truncate (snd (fst ran)) 200;
          ExecutionResult_Duration := duration;
          ExecutionResult_Error := msg;
          ExecutionResult_Timestamp := clock os (clock_reads w) |}
   end,
   {| clock_reads := S (S (S (clock_reads w)));
      map_ranges := map_ranges (snd first);
      commands_run :=
        match snd ran with
        | StartError _ => commands_run w
        | NoError | ExitError _ _ | OtherError _ =>
            (commands_run w ++ [command])%list
        end |}).
Proof.
  intros H Hdry. cbv zeta.
  pose proof (interpolateCommand_clock e
                (ExecutionConfig_Command (Skill_Execution skill)) params
                (tick w)) as C1.
  pose proof (ExecutorFacts.interpolateCommand_runs_nothing os e
                (ExecutionConfig_Command (Skill_Execution skill)) params
                (tick w)) as R1.
  unfold Execute, bind, time_Now. rewrite H, Hdry. fold (tick w).
  destruct (interpolateCommand os e _ params (tick w)) as [command w1].
  cbn [fst snd] in *.
  unfold context_WithTimeout, bind, time_Now, ret, runCommand.
  rewrite ExecutorFacts.isWindows_false, C1.
  destruct (run_process os "sh" ["-c"; command] (workDir e) _)
    as [[stdout stderr] err].
  unfold time_Since, bind, time_Now, ret.
  cbn [fst snd clock_reads map_ranges commands_run].
  rewrite R1.
  destruct err; reflexivity.
Qed.


(** X22. [Execute] ends in one of four states, never as cancelled, and
    no request starts more than one command. In pending and dry_run
    nothing was run. In success the interpolated command was run, and
    nothing else. In failed either the process could not be started and
    nothing was run, or the interpolated command was run, and nothing
    else. *)
Theorem status_and_runs (e : CLIExecutor) (ctx : Context) (skill : Skill)
        (params : Params) (env : string) (w : World) :
  let result := fst (Execute U os e ctx skill params env w) in
  let w' := snd (Execute U os e ctx skill params env w) in
  ((ExecutionResult_Status result = StatusPending \/
    ExecutionResult_Status result = StatusDryRun) /\
   commands_run w' = commands_run w) \/
  (exists w1,
     let command :=
       fst (interpolateCommand os e
              (ExecutionConfig_Command (Skill_Execution skill)) params w1) in
     (ExecutionResult_Status result = StatusSuccess /\
      commands_run w' = (commands_run w ++ [command])%list) \/
     (ExecutionResult_Status result = StatusFailed /\
      (commands_run w' = commands_run w \/
       commands_run w' = (commands_run w ++ [command])%list))).
Proof.
  cbv zeta.
  destruct (awaitingConfirmation U e skill params env) as [report|] eqn:H.
  { rewrite (Execute_pending e ctx skill params env w report H).
    left. split; [left|]; reflexivity. }
  destruct (dryRun e || shouldDryRun e skill) eqn:Hdry.
  - pose proof (Execute_dry e ctx skill params env w H Hdry) as E.
    cbv zeta in E. rewrite E. left. split; [right|]; reflexivity.
  - pose proof (Execute_run e ctx skill params env w H Hdry) as E.
    cbv zeta in E. rewrite E. right. exists (tick w).
    destruct (snd (run_process os _ _ _ _)); cbn [fst snd commands_run].
    + left. split; reflexivity.
    + right. split; [reflexivity|]. left. reflexivity.
    + right. split; [reflexivity|]. right. reflexivity.
    + right. split; [reflexivity|]. right. reflexivity.
Qed.

(** X23. Without a safety layer, or with [_confirmed] set to the boolean
    [true], no request is left pending, whatever its risk and its
    environment: the one flag answers every prompt. *)
Theorem confirmed_never_pending (e : CLIExecutor) (ctx : Context)
        (skill : Skill) (params : Params) (env : string) (w : World) :
  safetyLayer e = None \/ param_get params "_confirmed" = Some (VBool true) ->
  ExecutionResult_Status (fst (Execute U os e ctx skill params env w))
  <> StatusPending.
Proof.
  intros Hc.
  assert (H : awaitingConfirmation U e skill params env = None).
  { apply ExecutorFacts.awaitingConfirmation_None. intros l Hl _.
    destruct Hc as [Hc|Hc]; [congruence | exact Hc]. }
  destruct (dryRun e || shouldDryRun e skill) eqn:Hdry.
  - pose proof (Execute_dry e ctx skill params env w H Hdry) as E.
    cbv zeta in E. rewrite E. discriminate.
  - pose proof (Execute_run e ctx skill params env w H Hdry) as E.
    cbv zeta in E. rewrite E.
    destruct (snd (run_process os _ _ _ _)); discriminate.
Qed.

(** X24. A request that passes the safety check ends as a dry run exactly
    when the global dry-run mode is set or the intrinsic risk of the
    skill is High or above; the parameters play no part in it. *)
Theorem dry_run_exactly (e : CLIExecutor) (ctx : Context) (skill : Skill)
        (params : Params) (env : string) (w : World) :
  awaitingConfirmation U e skill params env = None ->
  (ExecutionResult_Status (fst (Execute U os e ctx skill params env w))
   = StatusDryRun
   <-> dryRun e = true \/ RiskHigh <= Skill_RiskLevel skill).
Proof.
  intros H.
  destruct (dryRun e || shouldDryRun e skill) eqn:Hdry.
  - pose proof (Execute_dry e ctx skill params env w H Hdry) as E.
    cbv zeta in E. rewrite E. split; [intros _|reflexivity].
    rewrite ExecutorFacts.shouldDryRun_risk in Hdry.
    apply orb_true_iff in Hdry as [Hd|Hd]; [now left | right].
    now apply Z.leb_le.
  - pose proof (Execute_run e ctx skill params env w H Hdry) as E.
    cbv zeta in E. rewrite E.
    rewrite ExecutorFacts.shouldDryRun_risk in Hdry.
    apply orb_false_iff in Hdry as [Hd Hr]. apply Z.leb_gt in Hr.
    split.
    + destruct (snd (run_process os _ _ _ _)); discriminate.
    + intros [Hc|Hc]; [congruence | lia].
Qed.

(** X25. When a command is run it is run by [sh -c], in the working
    directory of the executor, under a context that ends when the
    timeout of the skill, or 60 seconds when that is zero, has passed
    since the clock was read for it, or at the deadline of the caller's
    context when that comes first. The result is success exactly when
    the process returns no error; it records the output streams, the
    command and the exit code: 0 on success, the code of the process
    when it exits with one, -1 for any other error, a process that
    could not be started included; the error text goes to [Error]. *)
Theorem run_outcome (e : CLIExecutor) (ctx : Context) (skill : Skill)
        (params : Params) (env : string) (w : World) :
  awaitingConfirmation U e skill params env = None ->
  dryRun e = false ->
  Skill_RiskLevel skill < RiskHigh ->
  let command :=
    fst (interpolateCommand os e
           (ExecutionConfig_Command (Skill_Execution skill)) params
           {| clock_reads := S (clock_reads w);
              map_ranges := map_ranges w;
              commands_run := commands_run w |}) in
  let timeout :=
    if ExecutionConfig_Timeout (Skill_Execution skill) =? 0
    then 60 * 1000000000
    else ExecutionConfig_Timeout (Skill_Execution skill) in
  let d := clock os (S (clock_reads w)) + timeout in
  let cmdCtx :=
    {| Context_Deadline :=
         match Context_Deadline ctx with
         | Some cur => if cur <? d then Some cur else Some d
         | None => Some d
         end |} in
  let ran := run_process os "sh" ["-c"; command] (workDir e) cmdCtx in
  let result := fst (Execute U os e ctx skill params env w) in
  ExecutionResult_Output result !! "stdout" = Some (OStr (fst (fst ran))) /\
  ExecutionResult_Output result !! "stderr" = Some (OStr (snd (fst ran))) /\
  ExecutionResult_Output result !! "command" = Some (OStr command) /\
  match snd ran with
  | NoError =>
      ExecutionResult_Status result = StatusSuccess /\
      ExecutionResult_Error result = "" /\
      ExecutionResult_Output result !! "exit_code" = Some (OInt 0)
  | ExitError code msg =>
      ExecutionResult_Status result = StatusFailed /\
      ExecutionResult_Error result = msg /\
      ExecutionResult_Output result !! "exit_code" = Some (OInt code)
  | StartError msg | OtherError msg =>
      ExecutionResult_Status result = StatusFailed /\
      ExecutionResult_Error result = msg /\
      ExecutionResult_Output result !! "exit_code" = Some (OInt (-1))
  end.
Proof.
  intros H Hd Hr.
  assert (Hdry : dryRun e || shouldDryRun e skill = false).
  { rewrite ExecutorFacts.shouldDryRun_risk, Hd. cbn [orb].
    now apply Z.leb_gt. }
  cbv zeta.
  pose proof (Execute_run e ctx skill params env w H Hdry) as E.
  cbv zeta in E. unfold tick in E. rewrite E.
  destruct (run_process os _ _ _ _) as [[stdout stderr] err].
  cbn [fst snd].
  destruct err; cbn [fst ExecutionResult_Output ExecutionResult_Status
                     ExecutionResult_Error];
    repeat apply conj; try reflexivity;
    repeat (first [ rewrite lookup_insert_eq; reflexivity
                  | rewrite lookup_insert_ne by discriminate ]).
Qed.


(** X29. The dry-run executor never runs a command and always answers
    dry_run, whatever the skill, its risk and the parameters. The command
    it reports is the one the CLI executor would interpolate from the
    same template at the same point, and the risk it reports is the name
    of the risk level. *)
Theorem dry_run_executor_runs_nothing (e : CLIExecutor) (skill : Skill)
        (params : Params) (env : string) (w : World) :
  let result := fst (DryRunExecutor_Execute os skill params env w) in
  let w' := snd (DryRunExecutor_Execute os skill params env w) in
  ExecutionResult_Status result = StatusDryRun /\
  commands_run w' = commands_run w /\
  ExecutionResult_Output result !! "command" =
    Some (OStr (fst (interpolateCommand os e
                       (ExecutionConfig_Command (Skill_Execution skill)) params
                       {| clock_reads := S (clock_reads w);
                          map_ranges := map_ranges w;
                          commands_run := commands_run w |}))) /\
  ExecutionResult_Output result !! "risk_level" =
    Some (OStr (RiskLevel_String (Skill_RiskLevel skill))) /\
  ExecutionResult_Output result !! "environment" = Some (OStr env).
Proof.
  cbv zeta.
  unfold DryRunExecutor_Execute, interpolateCommand, bind, time_Now,
    time_Since, ret, range_params.
  destruct params as [m|]; cbn [fst snd commands_run ExecutionResult_Status
                                ExecutionResult_Output];
    repeat apply conj; try reflexivity;
    repeat (first [ rewrite lookup_insert_eq; reflexivity
                  | rewrite lookup_insert_ne by discriminate ]).
Qed.
End WithOS.

Lemma plain_template_unchanged_witness :
  fst (interpolateCommand Examples.quietOS
         (NewCLIExecutor None false) "terraform apply"
         (Some {[ "dir" := VStr "/tmp" ]}) fresh) = "terraform apply".
Proof.
  apply (plain_template_unchanged Examples.quietOS (NewCLIExecutor None false)
           "terraform apply" (Some {[ "dir" := VStr "/tmp" ]}) fresh).
  apply StringFacts.Contains_false. reflexivity.
Defined.

Lemma status_and_runs_witness :
  commands_run
    (snd (Execute Examples.plainUnicode Examples.quietOS
            (NewCLIExecutor (Some Safety.mkLayer) false) Background
            Examples.terraformApply None "production" fresh)) = [] /\
  commands_run
    (snd (Execute Examples.plainUnicode Examples.brokenOS
            (SetWorkDir (NewCLIExecutor None false) "/nowhere") Background
            Examples.ec2List None "dev" fresh)) = [].
Proof.
  split.
  - destruct (status_and_runs Examples.plainUnicode Examples.quietOS
                (NewCLIExecutor (Some Safety.mkLayer) false) Background
                Examples.terraformApply None "production" fresh)
      as [[_ H]|(w1 & [[H _]|[H _]])].
    + exact H.
    + discriminate H.
    + discriminate H.
  - destruct (status_and_runs Examples.plainUnicode Examples.brokenOS
                (SetWorkDir (NewCLIExecutor None false) "/nowhere") Background
                Examples.ec2List None "dev" fresh)
      as [[[H|H] _]|(w1 & [[H _]|[_ [H|H]]])].
    + discriminate H.
    + discriminate H.
    + discriminate H.
    + exact H.
    + reflexivity.
Defined.

Lemma confirmed_never_pending_witness :
  ExecutionResult_Status
    (fst (Execute Examples.plainUnicode Examples.quietOS
            (NewCLIExecutor (Some Safety.mkLayer) false) Background
            Examples.terraformApply Examples.confirmed "production" fresh))
  <> StatusPending.
Proof.
  apply (confirmed_never_pending Examples.plainUnicode Examples.quietOS
           (NewCLIExecutor (Some Safety.mkLayer) false) Background
           Examples.terraformApply Examples.confirmed "production" fresh).
  right. reflexivity.
Defined.

Lemma dry_run_exactly_witness :
  ExecutionResult_Status
    (fst (Execute Examples.plainUnicode Examples.quietOS
            (NewCLIExecutor (Some Safety.mkLayer) false) Background
            Examples.terraformApply Examples.forced "staging" fresh))
  = StatusDryRun.
Proof.
  apply (dry_run_exactly Examples.plainUnicode Examples.quietOS
           (NewCLIExecutor (Some Safety.mkLayer) false) Background
           Examples.terraformApply Examples.forced "staging" fresh).
  - reflexivity.
  - right. vm_compute. discriminate.
Defined.

Lemma run_outcome_witness :
  ExecutionResult_Status
    (fst (Execute Examples.plainUnicode Examples.failingOS
            (NewCLIExecutor None false) Background
            Examples.ec2List None "dev" fresh))
  = StatusFailed /\
  ExecutionResult_Output
    (fst (Execute Examples.plainUnicode Examples.failingOS
            (NewCLIExecutor None false) Background
            Examples.ec2List None "dev" fresh))
  !! "exit_code" = Some (OInt 2).
Proof.
  destruct (run_outcome Examples.plainUnicode Examples.failingOS
              (NewCLIExecutor None false) Background
              Examples.ec2List None "dev" fresh)
    as (_ & _ & _ & H).
  - reflexivity.
  - reflexivity.
  - reflexivity.
  - destruct H as (H1 & _ & H3). split; [exact H1 | exact H3].
Defined.


End ExecutorProps.
